(** * CREO course generation: the background job runner

    A shallow embedding of [src/lib/job-runner.ts] (the dispatcher
    [processNextJob], the five-stage pipeline [executeGenerateCourse] and the
    helpers [updateProgress] and [logEvent]) together with the Zod schemas of
    [src/lib/schemas.ts], followed by the properties of the pipeline.

    The runner is embedded twice.  The first embedding ([JobRunner]) and
    the properties of the pipeline proved on it take the database to
    accept every call and every thrown value to be an error object with a
    message.  The last part of the file ([Faulty]) embeds the runner again
    without these two assumptions (a database call can be rejected, and a
    rejection can carry any value, [null] and [undefined] included), shows
    that the two embeddings agree where the assumptions hold, and settles
    what the runner does to the status of a job where they do not.

    Conventions of the embedding.
    - A Prisma table is the list of its rows in insertion order.  In the
      first embedding the writes of the runner are total operations on
      these lists: the only calls that can throw are the calls to the
      content and video providers and the explicit [throw] of the runner
      itself.
    - Row identifiers (Prisma generates them) are drawn from a counter kept
      in the store.
    - JavaScript numbers that hold integers are [Z]; the progress arithmetic,
      which divides, is evaluated in IEEE 754 binary64 ([SpecFloat]).
    - [JSON.stringify]/[JSON.parse] round trips on columns are left out: a
      column holds the value before serialisation. *)

From Stdlib Require Import ZArith List String Ascii Bool Lia Arith.
From Stdlib Require Import DecimalString Permutation Sorted.
From Stdlib Require Import Floats.SpecFloat.
Import ListNotations.

Open Scope string_scope.
Open Scope list_scope.
Open Scope Z_scope.

(** String concatenation, as in a template literal. *)
Infix "+++" := String.append (right associativity, at level 60).

(* ------------------------------------------------------------------ *)
(** ** JavaScript numbers *)

Module JsNumber.

Definition prec : Z := 53.
Definition emax : Z := 1024.

(** The binary64 value of an integer literal or integer variable. *)
Definition num (z : Z) : spec_float := binary_normalize prec emax z 0 false.

Definition add : spec_float -> spec_float -> spec_float := SFadd prec emax.
Definition mul : spec_float -> spec_float -> spec_float := SFmul prec emax.
Definition div : spec_float -> spec_float -> spec_float := SFdiv prec emax.

(** [Math.floor] of a finite number, as the integer it denotes.  The
    runner only floors finite values; the other classes are mapped to 0. *)
Definition floor (x : spec_float) : Z :=
  match x with
  | S754_finite s m e =>
      let v := if s then Z.neg m else Z.pos m in
      match e with
      | Z0 => v
      | Z.pos p => v * Z.pow_pos 2 p
      | Z.neg p => v / Z.pow_pos 2 p
      end
  | _ => 0
  end.

(** [`${n}`] for an integer [n]. *)
Definition toString (z : Z) : string := NilZero.string_of_int (Z.to_int z).

End JsNumber.

(* ------------------------------------------------------------------ *)
(** ** Exceptions and results *)

(** A thrown value, as far as the runner inspects it: [error.code],
    [error.message] and [error.stack].  In this embedding every thrown
    value is such an object with a message; [Faulty.Thrown], in the last
    part, also has [null], [undefined] and values without a message. *)
Record JsError := mkError {
  err_code : option string;
  err_message : string;
  err_stack : option string
}.

(** [new Error(message)]; the engine's stack text is not modelled. *)
Definition new_Error (message : string) : JsError :=
  mkError None message None.

Inductive Result (A : Type) : Type :=
| Ok (a : A)
| Throw (e : JsError).
Arguments Ok {A} a.
Arguments Throw {A} e.

Definition isOk {A} (r : Result A) : bool :=
  match r with Ok _ => true | Throw _ => false end.

(** [a || b] on strings that may be undefined: the empty string is falsy. *)
Definition orDefault (a : option string) (b : string) : string :=
  match a with
  | Some s => if String.eqb s "" then b else s
  | None => b
  end.

(* ------------------------------------------------------------------ *)
(** ** Enumerations *)

Inductive JobStatus := queued | running | succeeded | failed.
Inductive EventLevel := lvl_info | lvl_warn | lvl_error.
Inductive LessonType := learn | practice | apply_.
Inductive QuestionType := mcq | short | code.
Inductive Difficulty := easy | medium | hard.

Definition JobStatus_eqb (a b : JobStatus) : bool :=
  match a, b with
  | queued, queued | running, running
  | succeeded, succeeded | failed, failed => true
  | _, _ => false
  end.

Definition EventLevel_eqb (a b : EventLevel) : bool :=
  match a, b with
  | lvl_info, lvl_info | lvl_warn, lvl_warn | lvl_error, lvl_error => true
  | _, _ => false
  end.


(* ------------------------------------------------------------------ *)
(** ** Provider payloads ([src/lib/schemas.ts]) *)

Record ModuleData := mkModuleData {
  md_order : Z;
  md_title : string;
  md_description : string;
  md_outcomes : list string
}.

Record CourseSkeleton := mkCourseSkeleton {
  sk_topic : string;
  sk_level : string;
  sk_modules : list ModuleData
}.

Record LessonStep := mkLessonStep {
  ls_order : Z;
  ls_title : string;
  ls_type : LessonType;
  ls_estimatedMinutes : Z;
  ls_content : option string
}.

Record ModuleLessons := mkModuleLessons {
  ml_moduleOrder : Z;
  ml_steps : list LessonStep
}.

Record QuizQuestionData := mkQuizQuestionData {
  qd_type : QuestionType;
  qd_question : string;
  qd_options : option (list string);
  qd_answerKey : string;
  qd_explanation : string;
  qd_difficulty : Difficulty;
  qd_tags : list string
}.

Record ModuleQuiz := mkModuleQuiz {
  mq_moduleOrder : Z;
  mq_questions : list QuizQuestionData
}.

Record Video := mkVideo {
  v_title : string;
  v_url : string;
  v_channel : option string;
  v_durationSeconds : option Z;
  v_thumbnailUrl : option string;
  v_reason : option string
}.

Record ModuleResources := mkModuleResources {
  mr_moduleOrder : Z;
  mr_resources : list Video
}.

Record GeneratePathRequest := mkRequest {
  req_topic : string;
  req_level : option string;
  req_timePerDay : option Z;
  req_timePerWeek : option Z;
  req_deadline : option string;
  req_idempotencyKey : string
}.

(** *** The Zod schemas, as decision procedures *)

Module Schemas.

Definition between (lo hi x : Z) : bool := (lo <=? x) && (x <=? hi).
Definition len (s : string) : Z := Z.of_nat (String.length s).
Definition size {A} (l : list A) : Z := Z.of_nat (List.length l).

Definition ModuleSchema (m : ModuleData) : bool :=
  between 1 5 (md_order m)
  && between 5 100 (len (md_title m))
  && between 10 500 (len (md_description m))
  && between 2 6 (size (md_outcomes m)).

(** [modules: z.array(ModuleSchema).length(5)]. *)
Definition CourseSkeletonSchema (sk : CourseSkeleton) : bool :=
  forallb ModuleSchema (sk_modules sk) && (size (sk_modules sk) =? 5).

Definition LessonStepSchema (l : LessonStep) : bool :=
  (1 <=? ls_order l)
  && between 5 150 (len (ls_title l))
  && between 1 60 (ls_estimatedMinutes l).

Definition ModuleLessonsSchema (ml : ModuleLessons) : bool :=
  between 1 5 (ml_moduleOrder ml)
  && forallb LessonStepSchema (ml_steps ml)
  && between 3 10 (size (ml_steps ml)).

(** The [refine] clause: an mcq has at least two options and its answer
    key is one of them. *)
Definition mcqRefinement (q : QuizQuestionData) : bool :=
  match qd_type q with
  | mcq =>
      match qd_options q with
      | None => false
      | Some opts =>
          if size opts <? 2 then false
          else existsb (String.eqb (qd_answerKey q)) opts
      end
  | _ => true
  end.

Definition QuizQuestionSchema (q : QuizQuestionData) : bool :=
  (10 <=? len (qd_question q))
  && (10 <=? len (qd_explanation q))
  && mcqRefinement q.

Definition ModuleQuizSchema (mq : ModuleQuiz) : bool :=
  between 1 5 (mq_moduleOrder mq)
  && forallb QuizQuestionSchema (mq_questions mq)
  && between 5 15 (size (mq_questions mq)).

Section LibraryFormats.
(** The string formats checked by Zod itself ([.url()], [.uuid()],
    [.datetime()]) are parameters. *)
Variables (z_url z_uuid z_datetime : string -> bool).

Definition optional {A} (p : A -> bool) (o : option A) : bool :=
  match o with Some a => p a | None => true end.

Definition YouTubeResourceSchema (v : Video) : bool :=
  z_url (v_url v) && optional z_url (v_thumbnailUrl v).

Definition ModuleResourcesSchema (mr : ModuleResources) : bool :=
  between 1 5 (mr_moduleOrder mr)
  && forallb YouTubeResourceSchema (mr_resources mr)
  && between 0 5 (size (mr_resources mr)).

Definition isLevel (s : string) : bool :=
  String.eqb s "beginner" || String.eqb s "intermediate"
  || String.eqb s "advanced".

Definition GeneratePathRequestSchema (r : GeneratePathRequest) : bool :=
  between 3 200 (len (req_topic r))
  && optional isLevel (req_level r)
  && optional (between 5 480) (req_timePerDay r)
  && optional (between 10 3360) (req_timePerWeek r)
  && optional z_datetime (req_deadline r)
  && z_uuid (req_idempotencyKey r).
End LibraryFormats.

End Schemas.

(* ------------------------------------------------------------------ *)
(** ** The database *)

Abbreviation Id := nat.

(** An object literal handed to [JSON.stringify] (event payloads). *)
Inductive Json :=
| JNum (z : Z)
| JStr (s : string)
| JUndefined.

Definition Payload := list (string * Json).

Definition optStr (o : option string) : Json :=
  match o with Some s => JStr s | None => JUndefined end.

Record Job := mkJob {
  job_id : Id;
  job_type : string;
  job_status : JobStatus;
  job_progressPercent : Z;
  job_currentStage : option string;
  job_errorCode : option string;
  job_errorMessage : option string;
  job_courseId : option Id;
  job_createdAt : Z;
  job_updatedAt : Z
}.

Record Course := mkCourse {
  course_id : Id;
  course_topic : string;
  course_level : string;
  course_timePerDay : Z;
  course_status : string
}.

Record ModuleRow := mkModule {
  mod_id : Id;
  mod_courseId : Id;
  mod_order : Z;
  mod_title : string;
  mod_description : string;
  mod_outcomes : list string
}.

Record Lesson := mkLesson {
  les_moduleId : Id;
  les_order : Z;
  les_title : string;
  les_type : LessonType;
  les_estimatedMinutes : Z;
  les_content : option string
}.

Record Quiz := mkQuiz {
  quiz_id : Id;
  quiz_moduleId : Id;
  quiz_totalQuestions : Z
}.

Record QuizQuestion := mkQuizQuestion {
  qq_quizId : Id;
  qq_type : QuestionType;
  qq_question : string;
  qq_options : option (list string);
  qq_answerKey : string;
  qq_explanation : string;
  qq_difficulty : Difficulty;
  qq_tags : list string;
  qq_order : Z
}.

Record Resource := mkResource {
  res_moduleId : Id;
  res_provider : string;
  res_title : string;
  res_url : string;
  res_channel : option string;
  res_durationSeconds : option Z;
  res_thumbnailUrl : option string;
  res_reason : option string;
  res_order : Z
}.

Record JobEvent := mkJobEvent {
  ev_jobId : Id;
  ev_stage : string;
  ev_level : EventLevel;
  ev_message : string;
  ev_data : option Payload
}.

(** The [data] argument of [prisma.job.update]: the columns to overwrite. *)
Record JobData := mkJobData {
  d_status : option JobStatus;
  d_currentStage : option string;
  d_progressPercent : option Z;
  d_errorCode : option string;
  d_errorMessage : option string;
  d_updatedAt : option Z
}.

Definition noData : JobData := mkJobData None None None None None None.

Definition orKeep {A} (new : option A) (old : A) : A :=
  match new with Some a => a | None => old end.

Definition orKeepOpt {A} (new : option A) (old : option A) : option A :=
  match new with Some a => Some a | None => old end.

Definition applyData (d : JobData) (j : Job) : Job :=
  mkJob (job_id j) (job_type j)
        (orKeep (d_status d) (job_status j))
        (orKeep (d_progressPercent d) (job_progressPercent j))
        (orKeepOpt (d_currentStage d) (job_currentStage j))
        (orKeepOpt (d_errorCode d) (job_errorCode j))
        (orKeepOpt (d_errorMessage d) (job_errorMessage j))
        (job_courseId j) (job_createdAt j)
        (orKeep (d_updatedAt d) (job_updatedAt j)).

(** The store: the tables, the identifier counter, the clock read by
    [new Date()], the number of provider calls made so far, and the history
    of [prisma.job.update] calls (kept to state properties of the sequence
    of writes; the runner never reads it). *)
Record Store := mkStore {
  jobs : list Job;
  courses : list Course;
  modules : list ModuleRow;
  lessons : list Lesson;
  quizzes : list Quiz;
  quizQuestions : list QuizQuestion;
  resources : list Resource;
  jobEvents : list JobEvent;
  idempotencyKeys : list (string * Id);
  nextId : Id;
  clock : Z;
  providerCalls : nat;
  jobUpdates : list (Id * JobData)
}.

Definition emptyStore : Store :=
  mkStore [] [] [] [] [] [] [] [] [] 0%nat 0 0%nat [].

(* ------------------------------------------------------------------ *)
(** ** The monad of the runner: state, and exceptions that keep the state *)

Definition M (A : Type) : Type := Store -> Result A * Store.

Definition ret {A} (a : A) : M A := fun s => (Ok a, s).

Definition bind {A B} (m : M A) (k : A -> M B) : M B :=
  fun s =>
    match m s with
    | (Ok a, s') => k a s'
    | (Throw e, s') => (Throw e, s')
    end.

Definition throw {A} (e : JsError) : M A := fun s => (Throw e, s).

(** [try { m } catch (e) { h e }]. *)
Definition tryCatch {A} (m : M A) (h : JsError -> M A) : M A :=
  fun s =>
    match m s with
    | (Ok a, s') => (Ok a, s')
    | (Throw e, s') => h e s'
    end.

Declare Scope monad_scope.
Delimit Scope monad_scope with monad.
Notation "x <- m ;; k" := (bind m (fun x => k))
  (at level 100, m at next level, right associativity) : monad_scope.
Notation "m ;; k" := (bind m (fun _ => k))
  (at level 100, right associativity) : monad_scope.
Open Scope monad_scope.

(** [for (const x of xs) { body x }]. *)
Fixpoint forEach {A} (xs : list A) (body : A -> M unit) : M unit :=
  match xs with
  | [] => ret tt
  | x :: rest => body x ;; forEach rest body
  end.

(** [for (let i = start; i < start + xs.length; i++) { body i xs[i] }]. *)
Fixpoint forIndexed {A} (start : nat) (xs : list A)
         (body : nat -> A -> M unit) : M unit :=
  match xs with
  | [] => ret tt
  | x :: rest => body start x ;; forIndexed (S start) rest body
  end.

Definition exec {A} (m : M A) (s : Store) : Store := snd (m s).
Definition outcome {A} (m : M A) (s : Store) : Result A := fst (m s).

(* ------------------------------------------------------------------ *)
(** ** Prisma operations used by the runner *)

Module Prisma.

Definition set_jobs v s :=
  mkStore v (courses s) (modules s) (lessons s) (quizzes s)
          (quizQuestions s) (resources s) (jobEvents s) (idempotencyKeys s)
          (nextId s) (clock s) (providerCalls s) (jobUpdates s).
Definition set_courses v s :=
  mkStore (jobs s) v (modules s) (lessons s) (quizzes s)
          (quizQuestions s) (resources s) (jobEvents s) (idempotencyKeys s)
          (nextId s) (clock s) (providerCalls s) (jobUpdates s).
Definition set_modules v s :=
  mkStore (jobs s) (courses s) v (lessons s) (quizzes s)
          (quizQuestions s) (resources s) (jobEvents s) (idempotencyKeys s)
          (nextId s) (clock s) (providerCalls s) (jobUpdates s).
Definition set_lessons v s :=
  mkStore (jobs s) (courses s) (modules s) v (quizzes s)
          (quizQuestions s) (resources s) (jobEvents s) (idempotencyKeys s)
          (nextId s) (clock s) (providerCalls s) (jobUpdates s).
Definition set_quizzes v s :=
  mkStore (jobs s) (courses s) (modules s) (lessons s) v
          (quizQuestions s) (resources s) (jobEvents s) (idempotencyKeys s)
          (nextId s) (clock s) (providerCalls s) (jobUpdates s).
Definition set_quizQuestions v s :=
  mkStore (jobs s) (courses s) (modules s) (lessons s) (quizzes s)
          v (resources s) (jobEvents s) (idempotencyKeys s)
          (nextId s) (clock s) (providerCalls s) (jobUpdates s).
Definition set_resources v s :=
  mkStore (jobs s) (courses s) (modules s) (lessons s) (quizzes s)
          (quizQuestions s) v (jobEvents s) (idempotencyKeys s)
          (nextId s) (clock s) (providerCalls s) (jobUpdates s).
Definition set_jobEvents v s :=
  mkStore (jobs s) (courses s) (modules s) (lessons s) (quizzes s)
          (quizQuestions s) (resources s) v (idempotencyKeys s)
          (nextId s) (clock s) (providerCalls s) (jobUpdates s).
Definition set_idempotencyKeys v s :=
  mkStore (jobs s) (courses s) (modules s) (lessons s) (quizzes s)
          (quizQuestions s) (resources s) (jobEvents s) v
          (nextId s) (clock s) (providerCalls s) (jobUpdates s).
Definition set_nextId v s :=
  mkStore (jobs s) (courses s) (modules s) (lessons s) (quizzes s)
          (quizQuestions s) (resources s) (jobEvents s) (idempotencyKeys s)
          v (clock s) (providerCalls s) (jobUpdates s).
Definition set_clock v s :=
  mkStore (jobs s) (courses s) (modules s) (lessons s) (quizzes s)
          (quizQuestions s) (resources s) (jobEvents s) (idempotencyKeys s)
          (nextId s) v (providerCalls s) (jobUpdates s).
Definition set_providerCalls v s :=
  mkStore (jobs s) (courses s) (modules s) (lessons s) (quizzes s)
          (quizQuestions s) (resources s) (jobEvents s) (idempotencyKeys s)
          (nextId s) (clock s) v (jobUpdates s).
Definition set_jobUpdates v s :=
  mkStore (jobs s) (courses s) (modules s) (lessons s) (quizzes s)
          (quizQuestions s) (resources s) (jobEvents s) (idempotencyKeys s)
          (nextId s) (clock s) (providerCalls s) v.

(** [orderBy: { createdAt: 'asc' }], first row: the earliest row among
    those with the least [createdAt]. *)
Fixpoint oldest (l : list Job) : option Job :=
  match l with
  | [] => None
  | j :: rest =>
      match oldest rest with
      | None => Some j
      | Some k => if job_createdAt j <=? job_createdAt k then Some j else Some k
      end
  end.

Definition isQueued (j : Job) : bool := JobStatus_eqb (job_status j) queued.

(** [prisma.job.findFirst({ where: { status: 'queued' },
                            orderBy: { createdAt: 'asc' } })]. *)
Definition job_findFirst_queued : M (option Job) :=
  fun s => (Ok (oldest (filter isQueued (jobs s))), s).

Definition findJob (id : Id) (l : list Job) : option Job :=
  find (fun j => Nat.eqb (job_id j) id) l.

Definition findCourse (id : Id) (l : list Course) : option Course :=
  find (fun c => Nat.eqb (course_id c) id) l.

(** [prisma.job.findUnique({ where: { id }, include: { course: true } })]:
    the job and, under [job.course], the course it refers to (or null). *)
Definition job_findUnique (id : Id) : M (option (Job * option Course)) :=
  fun s =>
    (Ok match findJob id (jobs s) with
        | None => None
        | Some j =>
            Some (j, match job_courseId j with
                     | Some c => findCourse c (courses s)
                     | None => None
                     end)
        end, s).

Definition updateRow (id : Id) (d : JobData) (j : Job) : Job :=
  if Nat.eqb (job_id j) id then applyData d j else j.

(** [prisma.job.update({ where: { id }, data })]. *)
Definition job_update (id : Id) (d : JobData) : M unit :=
  fun s =>
    (Ok tt, set_jobUpdates (jobUpdates s ++ [(id, d)])
              (set_jobs (map (updateRow id d) (jobs s)) s)).

(** [prisma.module.create]; the created row is returned. *)
Definition module_create (courseId : Id) (m : ModuleData) : M ModuleRow :=
  fun s =>
    let row := mkModule (nextId s) courseId (md_order m) (md_title m)
                        (md_description m) (md_outcomes m) in
    (Ok row, set_nextId (S (nextId s)) (set_modules (modules s ++ [row]) s)).

(** Stable insertion by ascending [order]. *)
Fixpoint insertByOrder (m : ModuleRow) (l : list ModuleRow) : list ModuleRow :=
  match l with
  | [] => [m]
  | x :: rest =>
      if mod_order m <=? mod_order x then m :: l
      else x :: insertByOrder m rest
  end.

Definition sortByOrder (l : list ModuleRow) : list ModuleRow :=
  fold_right insertByOrder [] l.

Definition ofCourse (courseId : Id) (m : ModuleRow) : bool :=
  Nat.eqb (mod_courseId m) courseId.

(** [prisma.module.findMany({ where: { courseId },
                              orderBy: { order: 'asc' } })]. *)
Definition module_findMany (courseId : Id) : M (list ModuleRow) :=
  fun s => (Ok (sortByOrder (filter (ofCourse courseId) (modules s))), s).

Definition lesson_create (l : Lesson) : M unit :=
  fun s => (Ok tt, set_lessons (lessons s ++ [l]) s).

(** [prisma.quiz.create]; the created row (with its id) is returned. *)
Definition quiz_create (moduleId : Id) (totalQuestions : Z) : M Quiz :=
  fun s =>
    let row := mkQuiz (nextId s) moduleId totalQuestions in
    (Ok row, set_nextId (S (nextId s)) (set_quizzes (quizzes s ++ [row]) s)).

Definition quizQuestion_create (q : QuizQuestion) : M unit :=
  fun s => (Ok tt, set_quizQuestions (quizQuestions s ++ [q]) s).

Definition resource_create (r : Resource) : M unit :=
  fun s => (Ok tt, set_resources (resources s ++ [r]) s).

Definition setCourseStatus (id : Id) (status : string) (c : Course) : Course :=
  if Nat.eqb (course_id c) id
  then mkCourse (course_id c) (course_topic c) (course_level c)
                (course_timePerDay c) status
  else c.

(** [prisma.course.update({ where: { id }, data: { status } })]. *)
Definition course_update (id : Id) (status : string) : M unit :=
  fun s => (Ok tt, set_courses (map (setCourseStatus id status) (courses s)) s).

Definition jobEvent_create (e : JobEvent) : M unit :=
  fun s => (Ok tt, set_jobEvents (jobEvents s ++ [e]) s).

End Prisma.

(** [new Date()]: reads the clock, which then moves on. *)
Definition newDate : M Z :=
  fun s => (Ok (clock s), Prisma.set_clock (clock s + 1) s).

(* ------------------------------------------------------------------ *)
(** ** Providers *)

(** The content provider of [src/lib/providers/llm.ts].  A call may throw;
    its result may depend on the arguments and on how many provider calls
    the process has made before (first argument), which covers a provider
    that fails and later recovers. *)
Record LLMProvider := mkLLMProvider {
  generateCourseSkeleton :
    nat -> string -> string -> Z -> Result CourseSkeleton;
  generateLessons :
    nat -> string -> ModuleData -> Z -> Result ModuleLessons;
  generateQuiz :
    nat -> string -> Z * string * string -> Result ModuleQuiz
}.

(** The video provider of [src/lib/providers/youtube.ts]:
    [searchVideos(query, maxResults)]. *)
Record YouTubeProvider := mkYouTubeProvider {
  searchVideos : nat -> string -> Z -> Result (list Video)
}.

(** The process environment: the configured keys and the two
    implementations of each provider. *)
Record Env := mkEnv {
  OPENAI_API_KEY : option string;
  YOUTUBE_API_KEY : option string;
  OpenAIProvider : LLMProvider;
  MockLLMProvider : LLMProvider;
  YouTubeDataApiProvider : YouTubeProvider;
  MockYouTubeProvider : YouTubeProvider
}.

(** Modelled from the spec: the factories of [src/lib/providers/] are not
    part of the sources at hand.  Each provider has a real implementation
    and a mock one, selected by configuration presence (the README:
    [OPENAI_API_KEY] and [YOUTUBE_API_KEY] "uses mock if missing"); the
    factory takes no argument. *)
Definition createLLMProvider (env : Env) : LLMProvider :=
  match OPENAI_API_KEY env with
  | Some _ => OpenAIProvider env
  | None => MockLLMProvider env
  end.

Definition createYouTubeProvider (env : Env) : YouTubeProvider :=
  match YOUTUBE_API_KEY env with
  | Some _ => YouTubeDataApiProvider env
  | None => MockYouTubeProvider env
  end.

(** [await provider.method(args)]: the call is answered according to the
    number of calls made so far, and counted. *)
Definition call {A} (method : nat -> Result A) : M A :=
  fun s => (method (providerCalls s),
            Prisma.set_providerCalls (S (providerCalls s)) s).

(* ------------------------------------------------------------------ *)
(** ** The job runner ([src/lib/job-runner.ts]) *)

Module ErrorCode.
Definition YOUTUBE_PROVIDER_FAILURE : string := "YOUTUBE_PROVIDER_FAILURE".
Definition JOB_RUNNER_FAILURE : string := "JOB_RUNNER_FAILURE".
End ErrorCode.

Module JobRunner.

Import JsNumber.

(** [updateProgress(jobId, percent, stage)]. *)
Definition updateProgress (jobId : Id) (percent : Z) (stage : string) : M unit :=
  now <- newDate ;;
  Prisma.job_update jobId
    (mkJobData None (Some stage) (Some percent) None None (Some now)).

(** [logEvent(jobId, stage, level, message, data?)]. *)
Definition logEvent (jobId : Id) (stage : string) (level : EventLevel)
           (message : string) (data : option Payload) : M unit :=
  Prisma.jobEvent_create (mkJobEvent jobId stage level message data).

(** [Math.floor(base + ((i + 1) / n) * span)], the per-module progress
    of stages 2, 3 and 4. *)
Definition moduleProgress (base span : Z) (i n : nat) : Z :=
  floor (add (num base)
             (mul (div (add (num (Z.of_nat i)) (num 1)) (num (Z.of_nat n)))
                  (num span))).

Section Pipeline.

Variable env : Env.
Variable jobId : Id.
Variable course : Course.

(** Stage 1: the skeleton, with one retry and the fallback. *)
Definition generateSkeleton (llmProvider : LLMProvider) : M CourseSkeleton :=
  let args p n :=
    generateCourseSkeleton p n (course_topic course) (course_level course)
                           (course_timePerDay course) in
  tryCatch
    (skeleton <- call (args llmProvider) ;;
     logEvent jobId "Stage 1" lvl_info "Course skeleton generated"
       (Some [("modules", JNum (Z.of_nat (List.length (sk_modules skeleton))))]) ;;
     ret skeleton)
    (fun error =>
       logEvent jobId "Stage 1" lvl_warn "LLM failed, attempting repair"
         (Some [("error", JStr (err_message error))]) ;;
       tryCatch
         (updateProgress jobId 12 "Stage 1: Retrying with repair" ;;
          skeleton <- call (args llmProvider) ;;
          logEvent jobId "Stage 1" lvl_info "Repair succeeded" None ;;
          ret skeleton)
         (fun retryError =>
            logEvent jobId "Stage 1" lvl_warn "Using fallback generator" None ;;
            let mockProvider := createLLMProvider env in
            call (args mockProvider))).

(** Stage 1, "Save modules to DB". *)
Definition saveModules (skeleton : CourseSkeleton) : M unit :=
  forEach (sk_modules skeleton)
    (fun moduleData =>
       _ <- Prisma.module_create (course_id course) moduleData ;; ret tt).

Definition lessonRow (module : ModuleRow) (lesson : LessonStep) : Lesson :=
  mkLesson (mod_id module) (ls_order lesson) (ls_title lesson)
           (ls_type lesson) (ls_estimatedMinutes lesson)
           (Some (orDefault (ls_content lesson) "")).

Definition fallbackLesson (module : ModuleRow) (j : Z) : Lesson :=
  mkLesson (mod_id module) j
           (mod_title module +++ " - Part " +++ toString j)
           (if j =? 4 then apply_
            else if Z.rem j 2 =? 0 then practice else learn)
           (floor (div (num (course_timePerDay course)) (num 4)))
           None.

(** Stage 2, the body of the loop over the modules. *)
Definition lessonsStep (llmProvider : LLMProvider) (n i : nat)
           (module : ModuleRow) : M unit :=
  updateProgress jobId (moduleProgress 25 15 i n)
    ("Stage 2: Module " +++ toString (mod_order module) +++ " lessons") ;;
  tryCatch
    (lessons <- call (fun k =>
         generateLessons llmProvider k (course_topic course)
           (mkModuleData (mod_order module) (mod_title module)
                         (mod_description module) (mod_outcomes module))
           (course_timePerDay course)) ;;
     forEach (ml_steps lessons)
       (fun lesson => Prisma.lesson_create (lessonRow module lesson)) ;;
     logEvent jobId "Stage 2" lvl_info
       ("Module " +++ toString (mod_order module) +++ " lessons created")
       (Some [("count", JNum (Z.of_nat (List.length (ml_steps lessons))))]))
    (fun error =>
       logEvent jobId "Stage 2" lvl_warn
         ("Module " +++ toString (mod_order module)
                    +++ " lessons failed, using fallback")
         (Some [("error", JStr (err_message error))]) ;;
       forEach [1; 2; 3; 4]
         (fun j => Prisma.lesson_create (fallbackLesson module j))).

Definition questionRow (quiz : Quiz) (j : nat) (q : QuizQuestionData)
  : QuizQuestion :=
  mkQuizQuestion (quiz_id quiz) (qd_type q) (qd_question q) (qd_options q)
                 (qd_answerKey q) (qd_explanation q) (qd_difficulty q)
                 (qd_tags q) (Z.of_nat j + 1).

Definition fallbackQuestion (module : ModuleRow) (quiz : Quiz) (j : Z)
  : QuizQuestion :=
  mkQuizQuestion (quiz_id quiz) mcq
                 ("Question " +++ toString j +++ " about "
                              +++ mod_title module +++ "?")
                 (Some ["Option A"; "Option B"; "Option C"; "Option D"])
                 "Option A" "Explanation for this question." medium []
                 j.

(** Stage 3, the body of the loop over the modules. *)
Definition quizStep (llmProvider : LLMProvider) (n i : nat)
           (module : ModuleRow) : M unit :=
  updateProgress jobId (moduleProgress 45 25 i n)
    ("Stage 3: Module " +++ toString (mod_order module) +++ " quiz") ;;
  tryCatch
    (quizData <- call (fun k =>
         generateQuiz llmProvider k (course_topic course)
           (mod_order module, mod_title module, mod_description module)) ;;
     quiz <- Prisma.quiz_create (mod_id module)
               (Z.of_nat (List.length (mq_questions quizData))) ;;
     forIndexed 0 (mq_questions quizData)
       (fun j q => Prisma.quizQuestion_create (questionRow quiz j q)) ;;
     logEvent jobId "Stage 3" lvl_info
       ("Module " +++ toString (mod_order module) +++ " quiz created")
       (Some [("questions",
               JNum (Z.of_nat (List.length (mq_questions quizData))))]))
    (fun error =>
       logEvent jobId "Stage 3" lvl_warn
         ("Module " +++ toString (mod_order module)
                    +++ " quiz failed, using fallback")
         (Some [("error", JStr (err_message error))]) ;;
       quiz <- Prisma.quiz_create (mod_id module) 3 ;;
       forEach [1; 2; 3]
         (fun j => Prisma.quizQuestion_create
                     (fallbackQuestion module quiz j))).

Definition searchQuery (module : ModuleRow) : string :=
  course_topic course +++ " " +++ mod_title module +++ " tutorial".

Definition resourceRow (module : ModuleRow) (j : nat) (video : Video)
  : Resource :=
  mkResource (mod_id module) "youtube" (v_title video) (v_url video)
             (v_channel video) (v_durationSeconds video)
             (v_thumbnailUrl video) (v_reason video) (Z.of_nat j + 1).

(** Stage 4, the body of the loop over the modules. *)
Definition resourcesStep (youtubeProvider : YouTubeProvider) (n i : nat)
           (module : ModuleRow) : M unit :=
  updateProgress jobId (moduleProgress 75 20 i n)
    ("Stage 4: Module " +++ toString (mod_order module) +++ " resources") ;;
  tryCatch
    (let query := searchQuery module in
     videos <- call (fun k => searchVideos youtubeProvider k query 3) ;;
     forIndexed 0 videos
       (fun j video => Prisma.resource_create (resourceRow module j video)) ;;
     logEvent jobId "Stage 4" lvl_info
       ("Module " +++ toString (mod_order module) +++ " resources added")
       (Some [("count", JNum (Z.of_nat (List.length videos)))]))
    (fun error =>
       logEvent jobId "Stage 4" lvl_warn
         ("Module " +++ toString (mod_order module)
                    +++ " resources failed (non-fatal)")
         (Some [("error", JStr (err_message error));
                ("errorCode", JStr ErrorCode.YOUTUBE_PROVIDER_FAILURE)])).

(** The pipeline from the first progress update on, once the job and
    its course have been read. *)
Definition runStages : M unit :=
  let llmProvider := createLLMProvider env in
  let youtubeProvider := createYouTubeProvider env in
(* STAGE 1 *)
updateProgress jobId 10 "Stage 1: Generating course skeleton" ;;
logEvent jobId "Stage 1" lvl_info
         "Starting course skeleton generation" None ;;
skeleton <- generateSkeleton llmProvider ;;
saveModules skeleton ;;
updateProgress jobId 20 "Stage 1: Complete" ;;
ms <- Prisma.module_findMany (course_id course) ;;
(* STAGE 2 *)
updateProgress jobId 25 "Stage 2: Generating lessons" ;;
logEvent jobId "Stage 2" lvl_info
         "Starting lesson generation for all modules" None ;;
forIndexed 0 ms (lessonsStep llmProvider (List.length ms)) ;;
updateProgress jobId 40 "Stage 2: Complete" ;;
(* STAGE 3 *)
updateProgress jobId 45 "Stage 3: Generating quizzes" ;;
logEvent jobId "Stage 3" lvl_info
         "Starting quiz generation for all modules" None ;;
forIndexed 0 ms (quizStep llmProvider (List.length ms)) ;;
updateProgress jobId 70 "Stage 3: Complete" ;;
(* STAGE 4 *)
updateProgress jobId 75 "Stage 4: Finding video resources" ;;
logEvent jobId "Stage 4" lvl_info "Starting YouTube resource search" None ;;
forIndexed 0 ms (resourcesStep youtubeProvider (List.length ms)) ;;
updateProgress jobId 95 "Stage 4: Complete" ;;
(* STAGE 5 *)
updateProgress jobId 98 "Stage 5: Finalizing" ;;
logEvent jobId "Stage 5" lvl_info "Finalizing course" None ;;
Prisma.course_update (course_id course) "active" ;;
updateProgress jobId 100 "Stage 5: Complete" ;;
logEvent jobId "Stage 5" lvl_info "Course activated"
         (Some [("courseId", JNum (Z.of_nat (course_id course)))]).

End Pipeline.

(** [executeGenerateCourse(jobId)]. *)
Definition executeGenerateCourse (env : Env) (jobId : Id) : M unit :=
  job <- Prisma.job_findUnique jobId ;;
  match job with
  | Some (_, Some course) => runStages env jobId course
  | _ => throw (new_Error "Job or course not found")
  end.

Definition markRunning : JobData :=
  mkJobData (Some running) (Some "Starting") (Some 0) None None None.

Definition markSucceeded (now : Z) : JobData :=
  mkJobData (Some succeeded) (Some "Completed") (Some 100) None None
            (Some now).

Definition markFailed (errorCode errorMessage : string) (now : Z) : JobData :=
  mkJobData (Some failed) None None (Some errorCode) (Some errorMessage)
            (Some now).

(** [processNextJob()]. *)
Definition processNextJob (env : Env) : M unit :=
  job <- Prisma.job_findFirst_queued ;;
  match job with
  | None => ret tt
  | Some job =>
      Prisma.job_update (job_id job) markRunning ;;
      tryCatch
        ((if String.eqb (job_type job) "GENERATE_COURSE"
          then executeGenerateCourse env (job_id job)
          else ret tt) ;;
         now <- newDate ;;
         Prisma.job_update (job_id job) (markSucceeded now) ;;
         logEvent (job_id job) "Completed" lvl_info
                  "Job completed successfully" None)
        (fun error =>
           let errorCode :=
             orDefault (err_code error) ErrorCode.JOB_RUNNER_FAILURE in
           let errorMessage :=
             orDefault (Some (err_message error)) "Unknown error" in
           now <- newDate ;;
           Prisma.job_update (job_id job)
                             (markFailed errorCode errorMessage now) ;;
           logEvent (job_id job) "Failed" lvl_error errorMessage
                    (Some [("errorCode", JStr errorCode);
                           ("stack", optStr (err_stack error))]))
  end.

End JobRunner.

(* ------------------------------------------------------------------ *)
(** ** Submission intake *)

Module Submission.

Local Open Scope monad_scope.

(** The answer to a submission: the job, and whether it already existed. *)
Record Response := mkResponse {
  resp_jobId : Id;
  resp_existing : bool
}.

Definition VALIDATION_ERROR : JsError :=
  mkError (Some "VALIDATION_ERROR") "Invalid request" None.

(** The job a key resolves to: the first mapping of the key. *)
Fixpoint lookupKey (key : string) (l : list (string * Id)) : option Id :=
  match l with
  | [] => None
  | (k, id) :: rest => if String.eqb k key then Some id else lookupKey key rest
  end.

(** Modelled from the spec: the idempotency registry is not part of the
    sources at hand.  [reserve(key) -> {created, jobId}]: "atomically either
    creates a new mapping to a freshly allocated job id (when absent) or
    returns the existing mapping (when present)". *)
Definition reserve (key : string) : M (bool * Id) :=
  fun s =>
    match lookupKey key (idempotencyKeys s) with
    | Some id => (Ok (false, id), s)
    | None =>
        let id := nextId s in
        (Ok (true, id),
         Prisma.set_idempotencyKeys (idempotencyKeys s ++ [(key, id)])
           (Prisma.set_nextId (S id) s))
    end.

(** Modelled from the spec: the creation of the draft course of a
    submission ("create Course (draft)"), with the defaults of the intake
    ("level ... default beginner, timePerDay ... default 30"). *)
Definition createCourse (r : GeneratePathRequest) : M Id :=
  fun s =>
    let id := nextId s in
    (Ok id,
     Prisma.set_courses
       (courses s
        ++ [mkCourse id (req_topic r)
                     (match req_level r with Some l => l | None => "beginner" end)
                     (match req_timePerDay r with Some t => t | None => 30 end)
                     "draft"])
       (Prisma.set_nextId (S id) s)).

(** Modelled from the spec: [createJob(courseRef) -> Job] "in status
    queued, progress 0", under the job id the registry allocated. *)
Definition createJob (id courseRef : Id) : M unit :=
  now <- newDate ;;
  fun s =>
    (Ok tt,
     Prisma.set_jobs
       (jobs s ++ [mkJob id "GENERATE_COURSE" queued 0 None None None
                         (Some courseRef) now now]) s).

Section Intake.

Variables (z_uuid z_datetime : string -> bool).

(** Modelled from the spec: the submission intake is not part of the
    sources at hand.  "On receipt: reserve idempotency key; if new, create
    Course (draft) + Job (queued) and return {jobId}; if existing, return
    the existing {jobId} plus an indicator that it already existed"; a
    submission of bad shape is "rejected with validation error before any
    Job or Course is created". *)
Definition submit (r : GeneratePathRequest) : M Response :=
  if Schemas.GeneratePathRequestSchema z_uuid z_datetime r then
    reservation <- reserve (req_idempotencyKey r) ;;
    let (created, jobId) := reservation in
    if created then
      courseRef <- createCourse r ;;
      createJob jobId courseRef ;;
      ret (mkResponse jobId false)
    else ret (mkResponse jobId true)
  else throw VALIDATION_ERROR.

(** What happens to the store between two submissions: other submissions
    and runs of the dispatcher. *)
Inductive Op :=
| Submit (r : GeneratePathRequest)
| Dispatch (env : Env).

Definition step (s : Store) (op : Op) : Store :=
  match op with
  | Submit r => exec (submit r) s
  | Dispatch env => exec (JobRunner.processNextJob env) s
  end.

Definition run (ops : list Op) (s : Store) : Store := fold_left step ops s.

End Intake.

End Submission.

(* ================================================================== *)
(** * Reasoning about runs *)

(** ** What a run adds to the store

    Every operation of the runner appends rows, overwrites columns of job
    and course rows, and advances the counters.  A [Delta] records these
    additions; [extend s d] is the store [s] after them. *)

Record Delta := mkDelta {
  dModules : list ModuleRow;
  dLessons : list Lesson;
  dQuizzes : list Quiz;
  dQuestions : list QuizQuestion;
  dResources : list Resource;
  dEvents : list JobEvent;
  dUpdates : list (Id * JobData);
  dCourses : list (Id * string);
  dIds : nat;
  dTicks : nat;
  dCalls : nat
}.

Definition dzero : Delta := mkDelta [] [] [] [] [] [] [] [] 0 0 0.

Definition dplus (a b : Delta) : Delta :=
  mkDelta (dModules a ++ dModules b) (dLessons a ++ dLessons b)
          (dQuizzes a ++ dQuizzes b) (dQuestions a ++ dQuestions b)
          (dResources a ++ dResources b) (dEvents a ++ dEvents b)
          (dUpdates a ++ dUpdates b) (dCourses a ++ dCourses b)
          (dIds a + dIds b) (dTicks a + dTicks b) (dCalls a + dCalls b).

Infix "⊕" := dplus (at level 50, left associativity).

Definition replay (us : list (Id * JobData)) (l : list Job) : list Job :=
  fold_left (fun l u => map (Prisma.updateRow (fst u) (snd u)) l) us l.

Definition replayCourses (us : list (Id * string)) (l : list Course)
  : list Course :=
  fold_left (fun l u => map (Prisma.setCourseStatus (fst u) (snd u)) l) us l.

Definition extend (s : Store) (d : Delta) : Store :=
  mkStore (replay (dUpdates d) (jobs s))
          (replayCourses (dCourses d) (courses s))
          (modules s ++ dModules d) (lessons s ++ dLessons d)
          (quizzes s ++ dQuizzes d) (quizQuestions s ++ dQuestions d)
          (resources s ++ dResources d) (jobEvents s ++ dEvents d)
          (idempotencyKeys s)
          (nextId s + dIds d)%nat (clock s + Z.of_nat (dTicks d))
          (providerCalls s + dCalls d) (jobUpdates s ++ dUpdates d).

Definition dModule (m : ModuleRow) : Delta :=
  mkDelta [m] [] [] [] [] [] [] [] 1 0 0.
Definition dLessonRows (l : list Lesson) : Delta :=
  mkDelta [] l [] [] [] [] [] [] 0 0 0.
Definition dQuiz (q : Quiz) : Delta :=
  mkDelta [] [] [q] [] [] [] [] [] 1 0 0.
Definition dQuestionRows (l : list QuizQuestion) : Delta :=
  mkDelta [] [] [] l [] [] [] [] 0 0 0.
Definition dResourceRows (l : list Resource) : Delta :=
  mkDelta [] [] [] [] l [] [] [] 0 0 0.
Definition dEvent (e : JobEvent) : Delta :=
  mkDelta [] [] [] [] [] [e] [] [] 0 0 0.
Definition dUpdate (id : Id) (d : JobData) : Delta :=
  mkDelta [] [] [] [] [] [] [(id, d)] [] 0 0 0.
Definition dCourse (id : Id) (status : string) : Delta :=
  mkDelta [] [] [] [] [] [] [] [(id, status)] 0 0 0.
Definition dTick : Delta := mkDelta [] [] [] [] [] [] [] [] 0 1 0.
Definition dCall : Delta := mkDelta [] [] [] [] [] [] [] [] 0 0 1.

Lemma extend_dzero (s : Store) : extend s dzero = s.
Proof.
  destruct s; unfold extend, dzero; simpl.
  rewrite !app_nil_r, !Nat.add_0_r, Z.add_0_r. reflexivity.
Qed.

Lemma extend_dplus (s : Store) (a b : Delta) :
  extend (extend s a) b = extend s (a ⊕ b).
Proof.
  destruct s, a, b; unfold extend, dplus, replay, replayCourses; simpl.
  rewrite !fold_left_app, <- !app_assoc, <- !Nat.add_assoc, Nat2Z.inj_add,
    Z.add_assoc.
  reflexivity.
Qed.

Lemma dplus_assoc (a b c : Delta) : a ⊕ (b ⊕ c) = a ⊕ b ⊕ c.
Proof.
  destruct a, b, c; unfold dplus; simpl.
  rewrite !app_assoc, !Nat.add_assoc. reflexivity.
Qed.

Lemma dplus_dzero_r (a : Delta) : a ⊕ dzero = a.
Proof.
  destruct a; unfold dplus, dzero; simpl.
  rewrite !app_nil_r, !Nat.add_0_r. reflexivity.
Qed.

Lemma dplus_dzero_l (a : Delta) : dzero ⊕ a = a.
Proof. destruct a; reflexivity. Qed.

(** [runs m s r d]: from [s], [m] ends with [r] in the store [extend s d]. *)
Definition runs {A} (m : M A) (s : Store) (r : Result A) (d : Delta) : Prop :=
  m s = (r, extend s d).

Lemma runs_ret {A} (a : A) s : runs (ret a) s (Ok a) dzero.
Proof. unfold runs, ret. now rewrite extend_dzero. Qed.

Lemma runs_throw {A} e s : runs (@throw A e) s (Throw e) dzero.
Proof. unfold runs, throw. now rewrite extend_dzero. Qed.

Lemma runs_bind {A B} (m : M A) (k : A -> M B) s a d1 r d2 :
  runs m s (Ok a) d1 -> runs (k a) (extend s d1) r d2 ->
  runs (bind m k) s r (d1 ⊕ d2).
Proof.
  unfold runs, bind. intros -> ->. now rewrite extend_dplus.
Qed.

Lemma runs_bind_throw {A B} (m : M A) (k : A -> M B) s e d :
  runs m s (Throw e) d -> runs (bind m k) s (Throw e) d.
Proof. unfold runs, bind. now intros ->. Qed.

Lemma runs_try_ok {A} (m : M A) h s a d :
  runs m s (Ok a) d -> runs (tryCatch m h) s (Ok a) d.
Proof. unfold runs, tryCatch. now intros ->. Qed.

Lemma runs_try_catch {A} (m : M A) h s e d1 r d2 :
  runs m s (Throw e) d1 -> runs (h e) (extend s d1) r d2 ->
  runs (tryCatch m h) s r (d1 ⊕ d2).
Proof.
  unfold runs, tryCatch. intros -> ->. now rewrite extend_dplus.
Qed.

Lemma runs_eq {A} (m : M A) s r d d' :
  runs m s r d -> d = d' -> runs m s r d'.
Proof. now intros H <-. Qed.

(** *** The primitive operations *)

Ltac store_eq :=
  unfold runs, extend; cbn;
  rewrite ?app_nil_r, ?Nat.add_0_r, ?Z.add_0_r, ?Nat.add_1_r;
  reflexivity.

Lemma runs_newDate s : runs newDate s (Ok (clock s)) dTick.
Proof. destruct s; store_eq. Qed.

Lemma runs_call {A} (method : nat -> Result A) s :
  runs (call method) s (method (providerCalls s)) dCall.
Proof. destruct s; store_eq. Qed.

Lemma runs_job_update id d s :
  runs (Prisma.job_update id d) s (Ok tt) (dUpdate id d).
Proof. destruct s; store_eq. Qed.

Lemma runs_module_create c m s :
  runs (Prisma.module_create c m) s
       (Ok (mkModule (nextId s) c (md_order m) (md_title m)
                     (md_description m) (md_outcomes m)))
       (dModule (mkModule (nextId s) c (md_order m) (md_title m)
                          (md_description m) (md_outcomes m))).
Proof. destruct s; store_eq. Qed.

Lemma runs_lesson_create l s :
  runs (Prisma.lesson_create l) s (Ok tt) (dLessonRows [l]).
Proof. destruct s; store_eq. Qed.

Lemma runs_quiz_create m t s :
  runs (Prisma.quiz_create m t) s (Ok (mkQuiz (nextId s) m t))
       (dQuiz (mkQuiz (nextId s) m t)).
Proof. destruct s; store_eq. Qed.

Lemma runs_quizQuestion_create q s :
  runs (Prisma.quizQuestion_create q) s (Ok tt) (dQuestionRows [q]).
Proof. destruct s; store_eq. Qed.

Lemma runs_resource_create r s :
  runs (Prisma.resource_create r) s (Ok tt) (dResourceRows [r]).
Proof. destruct s; store_eq. Qed.

Lemma runs_course_update id st s :
  runs (Prisma.course_update id st) s (Ok tt) (dCourse id st).
Proof. destruct s; store_eq. Qed.

Lemma runs_jobEvent_create e s :
  runs (Prisma.jobEvent_create e) s (Ok tt) (dEvent e).
Proof. destruct s; store_eq. Qed.

Lemma runs_findFirst s :
  runs Prisma.job_findFirst_queued s
       (Ok (Prisma.oldest (filter Prisma.isQueued (jobs s)))) dzero.
Proof. unfold runs. now rewrite extend_dzero. Qed.

Lemma runs_module_findMany c s :
  runs (Prisma.module_findMany c) s
       (Ok (Prisma.sortByOrder (filter (Prisma.ofCourse c) (modules s))))
       dzero.
Proof. unfold runs. now rewrite extend_dzero. Qed.

Lemma runs_call_eq {A} (method : nat -> Result A) s r :
  method (providerCalls s) = r -> runs (call method) s r dCall.
Proof. intros <-. apply runs_call. Qed.

(** ** A weakest-precondition calculus over [runs]

    [sat m s Q]: the run of [m] from [s] ends with a result [r] and
    additions [d] such that [Q r d]. *)

Definition sat {A} (m : M A) (s : Store) (Q : Result A -> Delta -> Prop) : Prop :=
  exists r d, runs m s r d /\ Q r d.

Lemma sat_of_runs {A} (m : M A) s r d (Q : Result A -> Delta -> Prop) :
  runs m s r d -> Q r d -> sat m s Q.
Proof. intros H HQ. exists r, d. auto. Qed.

Lemma sat_mono {A} (m : M A) s (Q Q' : Result A -> Delta -> Prop) :
  sat m s Q -> (forall r d, Q r d -> Q' r d) -> sat m s Q'.
Proof. intros (r & d & H & HQ) Himp. exists r, d. auto. Qed.

Lemma sat_bind {A B} (m : M A) (k : A -> M B) s (Q : Result B -> Delta -> Prop) :
  sat m s (fun r d1 =>
             match r with
             | Ok a => sat (k a) (extend s d1) (fun r2 d2 => Q r2 (d1 ⊕ d2))
             | Throw e => Q (Throw e) d1
             end) ->
  sat (bind m k) s Q.
Proof.
  intros (r & d1 & H & HQ). destruct r as [a | e].
  - destruct HQ as (r2 & d2 & H2 & HQ2).
    exists r2, (d1 ⊕ d2). split; [eapply runs_bind; eauto | exact HQ2].
  - exists (Throw e), d1. split; [now apply runs_bind_throw | exact HQ].
Qed.

Lemma sat_try {A} (m : M A) (h : JsError -> M A) s
      (Q : Result A -> Delta -> Prop) :
  sat m s (fun r d1 =>
             match r with
             | Ok a => Q (Ok a) d1
             | Throw e => sat (h e) (extend s d1) (fun r2 d2 => Q r2 (d1 ⊕ d2))
             end) ->
  sat (tryCatch m h) s Q.
Proof.
  intros (r & d1 & H & HQ). destruct r as [a | e].
  - exists (Ok a), d1. split; [now apply runs_try_ok | exact HQ].
  - destruct HQ as (r2 & d2 & H2 & HQ2).
    exists r2, (d1 ⊕ d2). split; [eapply runs_try_catch; eauto | exact HQ2].
Qed.

Lemma sat_elim {A} (m : M A) s (Q : Result A -> Delta -> Prop) :
  sat m s Q -> exists d, exec m s = extend s d /\ Q (outcome m s) d.
Proof.
  intros (r & d & H & HQ). exists d. unfold exec, outcome. rewrite H. auto.
Qed.

(** The counters of an extended store. *)
Lemma nextId_extend s d : nextId (extend s d) = (nextId s + dIds d)%nat.
Proof. reflexivity. Qed.
Lemma providerCalls_extend s d :
  providerCalls (extend s d) = (providerCalls s + dCalls d)%nat.
Proof. reflexivity. Qed.
Lemma modules_extend s d : modules (extend s d) = modules s ++ dModules d.
Proof. reflexivity. Qed.

(** ** Shapes of additions *)

(** The rows and identifiers a run adds, table by table. *)
Definition Adds (d : Delta) (mods : list ModuleRow) (les : list Lesson)
           (qz : list Quiz) (qq : list QuizQuestion) (res : list Resource)
           (crs : list (Id * string)) (ids : nat) : Prop :=
  dModules d = mods /\ dLessons d = les /\ dQuizzes d = qz
  /\ dQuestions d = qq /\ dResources d = res /\ dCourses d = crs
  /\ dIds d = ids.

Lemma Adds_plus d1 d2 m1 l1 q1 qq1 r1 c1 i1 m2 l2 q2 qq2 r2 c2 i2 :
  Adds d1 m1 l1 q1 qq1 r1 c1 i1 -> Adds d2 m2 l2 q2 qq2 r2 c2 i2 ->
  Adds (d1 ⊕ d2) (m1 ++ m2) (l1 ++ l2) (q1 ++ q2) (qq1 ++ qq2) (r1 ++ r2)
       (c1 ++ c2) (i1 + i2).
Proof.
  unfold Adds. intros (<- & <- & <- & <- & <- & <- & <-)
                      (<- & <- & <- & <- & <- & <- & <-).
  repeat split.
Qed.

(** A progress update of job [jobId]: percent and stage label (and the
    time stamp), nothing else. *)
Definition isProgress (jobId : Id) (u : Id * JobData) (w : Z * string) : Prop :=
  fst u = jobId
  /\ d_status (snd u) = None
  /\ d_progressPercent (snd u) = Some (fst w)
  /\ d_currentStage (snd u) = Some (snd w)
  /\ d_errorCode (snd u) = None
  /\ d_errorMessage (snd u) = None.

Definition Progresses (jobId : Id) (us : list (Id * JobData))
           (ws : list (Z * string)) : Prop :=
  Forall2 (isProgress jobId) us ws.

Lemma Progresses_app jobId us1 us2 ws1 ws2 :
  Progresses jobId us1 ws1 -> Progresses jobId us2 ws2 ->
  Progresses jobId (us1 ++ us2) (ws1 ++ ws2).
Proof. apply Forall2_app. Qed.

Lemma Progresses_nil jobId : Progresses jobId [] [].
Proof. constructor. Qed.

Lemma Progresses_one jobId p st now :
  Progresses jobId
    [(jobId, mkJobData None (Some st) (Some p) None None (Some now))]
    [(p, st)].
Proof. repeat constructor. Qed.

(** [xs.map((x, i) => f(start + i, x))]. *)
Fixpoint mapFrom {A B} (start : nat) (f : nat -> A -> B) (xs : list A) : list B :=
  match xs with
  | [] => []
  | x :: rest => f start x :: mapFrom (S start) f rest
  end.

Lemma mapFrom_length {A B} (f : nat -> A -> B) xs i :
  List.length (mapFrom i f xs) = List.length xs.
Proof. revert i; induction xs; simpl; auto. Qed.

(** *** Helpers and inner loops *)

Import JobRunner.

Lemma sat_updateProgress jobId p st s (Q : Result unit -> Delta -> Prop) :
  (forall d, Adds d [] [] [] [] [] [] 0 -> dEvents d = [] -> dCalls d = 0%nat ->
             Progresses jobId (dUpdates d) [(p, st)] -> Q (Ok tt) d) ->
  sat (updateProgress jobId p st) s Q.
Proof.
  intros HQ. unfold updateProgress.
  apply sat_bind. eapply sat_of_runs; [apply runs_newDate |].
  eapply sat_of_runs; [apply runs_job_update |].
  apply HQ; try reflexivity.
  - repeat split.
  - apply Progresses_one.
Qed.

Lemma sat_logEvent jobId stage level msg data s
      (Q : Result unit -> Delta -> Prop) :
  Q (Ok tt) (dEvent (mkJobEvent jobId stage level msg data)) ->
  sat (logEvent jobId stage level msg data) s Q.
Proof. intros HQ. eapply sat_of_runs; [apply runs_jobEvent_create | exact HQ]. Qed.

Lemma sat_call {A} (method : nat -> Result A) s
      (Q : Result A -> Delta -> Prop) :
  Q (method (providerCalls s)) dCall -> sat (call method) s Q.
Proof. intros HQ. eapply sat_of_runs; [apply runs_call | exact HQ]. Qed.

Lemma runs_forEach_lessons {A} (f : A -> Lesson) xs s :
  runs (forEach xs (fun x => Prisma.lesson_create (f x))) s (Ok tt)
       (dLessonRows (map f xs)).
Proof.
  revert s. induction xs as [| x xs IH]; intros s; simpl.
  - apply runs_ret.
  - eapply runs_eq.
    + eapply runs_bind; [apply runs_lesson_create | apply IH].
    + reflexivity.
Qed.

Lemma runs_forEach_questions {A} (f : A -> QuizQuestion) xs s :
  runs (forEach xs (fun x => Prisma.quizQuestion_create (f x))) s (Ok tt)
       (dQuestionRows (map f xs)).
Proof.
  revert s. induction xs as [| x xs IH]; intros s; simpl.
  - apply runs_ret.
  - eapply runs_eq.
    + eapply runs_bind; [apply runs_quizQuestion_create | apply IH].
    + reflexivity.
Qed.

Lemma runs_forIndexed_questions {A} (f : nat -> A -> QuizQuestion) xs i s :
  runs (forIndexed i xs (fun j x => Prisma.quizQuestion_create (f j x))) s
       (Ok tt) (dQuestionRows (mapFrom i f xs)).
Proof.
  revert i s. induction xs as [| x xs IH]; intros i s; simpl.
  - apply runs_ret.
  - eapply runs_eq.
    + eapply runs_bind; [apply runs_quizQuestion_create | apply IH].
    + reflexivity.
Qed.

Lemma runs_forIndexed_resources {A} (f : nat -> A -> Resource) xs i s :
  runs (forIndexed i xs (fun j x => Prisma.resource_create (f j x))) s
       (Ok tt) (dResourceRows (mapFrom i f xs)).
Proof.
  revert i s. induction xs as [| x xs IH]; intros i s; simpl.
  - apply runs_ret.
  - eapply runs_eq.
    + eapply runs_bind; [apply runs_resource_create | apply IH].
    + reflexivity.
Qed.

(** ** Summaries of the pipeline stages *)

Ltac delta_simpl :=
  cbn [dModules dLessons dQuizzes dQuestions dResources dEvents dUpdates
       dCourses dIds dTicks dCalls dplus dzero dModule dLessonRows dQuiz
       dQuestionRows dResourceRows dEvent dUpdate dCourse dTick dCall].

Ltac use_adds :=
  repeat match goal with
         | H : Adds _ _ _ _ _ _ _ _ |- _ => destruct H as (? & ? & ? & ? & ? & ? & ?)
         end.

Ltac rew_fields :=
  repeat match goal with
         | H : ?proj ?d = _ |- context [?proj ?d] => rewrite H
         end.

Ltac dsimp :=
  use_adds; delta_simpl; rew_fields;
  cbn [app Nat.add]; rewrite ?app_nil_r, ?Nat.add_0_r.

Ltac norm_calls :=
  repeat rewrite providerCalls_extend;
  dsimp; rewrite ?Nat.add_1_r.

Ltac wp_step :=
  lazymatch goal with
  | |- sat (bind _ _) _ _ => apply sat_bind
  | |- sat (tryCatch _ _) _ _ => apply sat_try
  | |- sat (ret _) _ _ => eapply sat_of_runs; [apply runs_ret |]
  | |- sat (throw _) _ _ => eapply sat_of_runs; [apply runs_throw |]
  | |- sat (logEvent _ _ _ _ _) _ _ => apply sat_logEvent
  | |- sat (call _) _ _ => apply sat_call
  | |- sat newDate _ _ => eapply sat_of_runs; [apply runs_newDate |]
  | |- sat (Prisma.job_update _ _) _ _ =>
      eapply sat_of_runs; [apply runs_job_update |]
  | |- sat (Prisma.module_create _ _) _ _ =>
      eapply sat_of_runs; [apply runs_module_create |]
  | |- sat (Prisma.quiz_create _ _) _ _ =>
      eapply sat_of_runs; [apply runs_quiz_create |]
  | |- sat (Prisma.course_update _ _) _ _ =>
      eapply sat_of_runs; [apply runs_course_update |]
  | |- sat (Prisma.module_findMany _) _ _ =>
      eapply sat_of_runs; [apply runs_module_findMany |]
  | |- sat Prisma.job_findFirst_queued _ _ =>
      eapply sat_of_runs; [apply runs_findFirst |]
  | |- sat (updateProgress _ _ _) _ _ =>
      apply sat_updateProgress; intros ? ? ? ? ?
  end; cbv beta iota.

Ltac wp := repeat wp_step.

Section Summaries.

Variable env : Env.
Variable jobId : Id.
Variable course : Course.

(** *** Stage 1 *)

Definition skeletonCall (p : LLMProvider) (k : nat) : Result CourseSkeleton :=
  generateCourseSkeleton p k (course_topic course) (course_level course)
                         (course_timePerDay course).

(** The result of the three attempts, the first made as provider call
    number [k] of the process. *)

Definition skeletonOutcome (p : LLMProvider) (k : nat) : Result CourseSkeleton :=
  match skeletonCall p k with
  | Ok sk => Ok sk
  | Throw _ => match skeletonCall p (S k) with
               | Ok sk => Ok sk
               | Throw _ => skeletonCall (createLLMProvider env) (S (S k))
               end
  end.

Definition skeletonCalls (p : LLMProvider) (k : nat) : nat :=
  match skeletonCall p k with
  | Ok _ => 1
  | Throw _ => match skeletonCall p (S k) with Ok _ => 2 | Throw _ => 3 end
  end.

Definition skeletonProgress (p : LLMProvider) (k : nat) : list (Z * string) :=
  match skeletonCall p k with
  | Ok _ => []
  | Throw _ => [(12, "Stage 1: Retrying with repair")]
  end.

Definition skeletonEvents (p : LLMProvider) (k : nat) : list JobEvent :=
  match skeletonCall p k with
  | Ok sk =>
      [mkJobEvent jobId "Stage 1" lvl_info "Course skeleton generated"
         (Some [("modules", JNum (Z.of_nat (List.length (sk_modules sk))))])]
  | Throw e =>
      mkJobEvent jobId "Stage 1" lvl_warn "LLM failed, attempting repair"
                 (Some [("error", JStr (err_message e))])
      :: match skeletonCall p (S k) with
         | Ok _ =>
             [mkJobEvent jobId "Stage 1" lvl_info "Repair succeeded" None]
         | Throw _ =>
             [mkJobEvent jobId "Stage 1" lvl_warn "Using fallback generator"
                         None]
         end
  end.

Lemma sat_generateSkeleton p s (Q : Result CourseSkeleton -> Delta -> Prop) :
  (forall d, Adds d [] [] [] [] [] [] 0 ->
     Progresses jobId (dUpdates d) (skeletonProgress p (providerCalls s)) ->
     dEvents d = skeletonEvents p (providerCalls s) ->
     dCalls d = skeletonCalls p (providerCalls s) ->
     Q (skeletonOutcome p (providerCalls s)) d) ->
  sat (generateSkeleton env jobId course p) s Q.
Proof.
  intros HQ. unfold generateSkeleton.
  unfold skeletonOutcome, skeletonProgress, skeletonEvents, skeletonCalls in HQ.
  wp. fold (skeletonCall p (providerCalls s)).
  destruct (skeletonCall p (providerCalls s)) as [sk | e1] eqn:E1.
  - wp. apply HQ; [repeat split | constructor | reflexivity | reflexivity].
  - wp. norm_calls. fold (skeletonCall p (S (providerCalls s))).
    destruct (skeletonCall p (S (providerCalls s))) as [sk | e2] eqn:E2.
    + wp. apply HQ.
      * unfold Adds; dsimp; repeat split.
      * dsimp. assumption.
      * dsimp. reflexivity.
      * dsimp. reflexivity.
    + wp. norm_calls. apply HQ.
      * unfold Adds; dsimp; repeat split.
      * dsimp. assumption.
      * dsimp. reflexivity.
      * dsimp. reflexivity.
Qed.

Fixpoint moduleRows (next : nat) (mods : list ModuleData) : list ModuleRow :=
  match mods with
  | [] => []
  | m :: rest =>
      mkModule next (course_id course) (md_order m) (md_title m)
               (md_description m) (md_outcomes m)
      :: moduleRows (S next) rest
  end.

Lemma sat_saveModules_aux mods s (Q : Result unit -> Delta -> Prop) :
  (forall d, Adds d (moduleRows (nextId s) mods) [] [] [] [] []
                  (List.length mods) ->
             dUpdates d = [] -> dEvents d = [] -> dCalls d = 0%nat ->
             Q (Ok tt) d) ->
  sat (forEach mods
        (fun moduleData =>
           _ <- Prisma.module_create (course_id course) moduleData ;; ret tt))
      s Q.
Proof.
  revert s Q. induction mods as [| m mods IH]; intros s Q HQ; simpl forEach.
  - wp. apply HQ; repeat split.
  - wp. apply IH. intros d Hd Hu He Hc.
    revert Hd. repeat rewrite nextId_extend. dsimp. rewrite Nat.add_1_r.
    intros Hd.
    apply HQ.
    + unfold Adds; dsimp; repeat split.
    + dsimp. reflexivity.
    + dsimp. reflexivity.
    + dsimp. reflexivity.
Qed.

Lemma sat_saveModules sk s (Q : Result unit -> Delta -> Prop) :
  (forall d, Adds d (moduleRows (nextId s) (sk_modules sk)) [] [] [] [] []
                  (List.length (sk_modules sk)) ->
             dUpdates d = [] -> dEvents d = [] -> dCalls d = 0%nat ->
             Q (Ok tt) d) ->
  sat (saveModules course sk) s Q.
Proof. apply sat_saveModules_aux. Qed.

(** *** Stage 2 *)

Definition lessonsCall (llm : LLMProvider) (m : ModuleRow) (k : nat) :=
  generateLessons llm k (course_topic course)
    (mkModuleData (mod_order m) (mod_title m) (mod_description m)
                  (mod_outcomes m))
    (course_timePerDay course).

Definition lessonsFor (llm : LLMProvider) (k : nat) (m : ModuleRow) : list Lesson :=
  match lessonsCall llm m k with
  | Ok ls => map (lessonRow m) (ml_steps ls)
  | Throw _ => map (fallbackLesson course m) [1; 2; 3; 4]
  end.

Definition lessonsEvent (llm : LLMProvider) (k : nat) (m : ModuleRow)
  : JobEvent :=
  match lessonsCall llm m k with
  | Ok ls =>
      mkJobEvent jobId "Stage 2" lvl_info
        ("Module " +++ JsNumber.toString (mod_order m) +++ " lessons created")
        (Some [("count", JNum (Z.of_nat (List.length (ml_steps ls))))])
  | Throw e =>
      mkJobEvent jobId "Stage 2" lvl_warn
        ("Module " +++ JsNumber.toString (mod_order m)
                   +++ " lessons failed, using fallback")
        (Some [("error", JStr (err_message e))])
  end.

Fixpoint lessonsEvents (llm : LLMProvider) (k : nat) (ms : list ModuleRow)
  : list JobEvent :=
  match ms with
  | [] => []
  | m :: rest => lessonsEvent llm k m :: lessonsEvents llm (S k) rest
  end.

Fixpoint lessonsLoop (llm : LLMProvider) (k : nat) (ms : list ModuleRow)
  : list Lesson :=
  match ms with
  | [] => []
  | m :: rest => lessonsFor llm k m ++ lessonsLoop llm (S k) rest
  end.

Definition lessonsLabel (m : ModuleRow) : string :=
  "Stage 2: Module " +++ JsNumber.toString (mod_order m) +++ " lessons".

Lemma sat_lessonsStep llm n i m s (Q : Result unit -> Delta -> Prop) :
  (forall d, Adds d [] (lessonsFor llm (providerCalls s) m) [] [] [] [] 0 ->
             dCalls d = 1%nat ->
             dEvents d = [lessonsEvent llm (providerCalls s) m] ->
             Progresses jobId (dUpdates d)
                        [(moduleProgress 25 15 i n, lessonsLabel m)] ->
             Q (Ok tt) d) ->
  sat (lessonsStep jobId course llm n i m) s Q.
Proof.
  intros HQ. unfold lessonsStep. unfold lessonsFor, lessonsEvent in HQ.
  wp. norm_calls. fold (lessonsCall llm m (providerCalls s)).
  destruct (lessonsCall llm m (providerCalls s)) as [ls | e] eqn:E.
  - wp. eapply sat_of_runs; [apply runs_forEach_lessons |]. cbv beta iota.
    wp. apply HQ.
    + unfold Adds; dsimp; repeat split.
    + dsimp. reflexivity.
    + dsimp. reflexivity.
    + dsimp. assumption.
  - wp. eapply sat_of_runs; [apply runs_forEach_lessons |].
    apply HQ.
    + unfold Adds; dsimp; repeat split.
    + dsimp. reflexivity.
    + dsimp. reflexivity.
    + dsimp. assumption.
Qed.

Lemma sat_lessonsLoop llm n ms i s (Q : Result unit -> Delta -> Prop) :
  (forall d, Adds d [] (lessonsLoop llm (providerCalls s) ms) [] [] [] [] 0 ->
             dCalls d = List.length ms ->
             dEvents d = lessonsEvents llm (providerCalls s) ms ->
             Progresses jobId (dUpdates d)
               (mapFrom i (fun i m => (moduleProgress 25 15 i n, lessonsLabel m))
                        ms) ->
             Q (Ok tt) d) ->
  sat (forIndexed i ms (lessonsStep jobId course llm n)) s Q.
Proof.
  revert i s Q. induction ms as [| m ms IH]; intros i s Q HQ; simpl forIndexed.
  - wp. apply HQ; [repeat split | reflexivity | reflexivity | constructor].
  - wp. apply sat_lessonsStep. intros d1 Hd1 Hc1 He1 Hp1.
    apply IH. intros d2 Hd2 Hc2 He2 Hp2.
    revert Hd2 He2. norm_calls. intros Hd2 He2.
    apply HQ.
    + unfold Adds; dsimp; repeat split.
    + dsimp. reflexivity.
    + dsimp. reflexivity.
    + dsimp. apply (Progresses_app _ _ _ [_]); assumption.
Qed.

(** *** Stage 3 *)

Definition quizCall (llm : LLMProvider) (m : ModuleRow) (k : nat) :=
  generateQuiz llm k (course_topic course)
    (mod_order m, mod_title m, mod_description m).

Definition quizFor (llm : LLMProvider) (k next : nat) (m : ModuleRow)
  : Quiz * list QuizQuestion :=
  match quizCall llm m k with
  | Ok qd =>
      let quiz := mkQuiz next (mod_id m)
                         (Z.of_nat (List.length (mq_questions qd))) in
      (quiz, mapFrom 0 (questionRow quiz) (mq_questions qd))
  | Throw _ =>
      let quiz := mkQuiz next (mod_id m) 3 in
      (quiz, map (fallbackQuestion m quiz) [1; 2; 3])
  end.

Definition quizEvent (llm : LLMProvider) (k : nat) (m : ModuleRow) : JobEvent :=
  match quizCall llm m k with
  | Ok qd =>
      mkJobEvent jobId "Stage 3" lvl_info
        ("Module " +++ JsNumber.toString (mod_order m) +++ " quiz created")
        (Some [("questions",
                JNum (Z.of_nat (List.length (mq_questions qd))))])
  | Throw e =>
      mkJobEvent jobId "Stage 3" lvl_warn
        ("Module " +++ JsNumber.toString (mod_order m)
                   +++ " quiz failed, using fallback")
        (Some [("error", JStr (err_message e))])
  end.

Fixpoint quizEvents (llm : LLMProvider) (k : nat) (ms : list ModuleRow)
  : list JobEvent :=
  match ms with
  | [] => []
  | m :: rest => quizEvent llm k m :: quizEvents llm (S k) rest
  end.

Fixpoint quizLoop (llm : LLMProvider) (k next : nat) (ms : list ModuleRow)
  : list (Quiz * list QuizQuestion) :=
  match ms with
  | [] => []
  | m :: rest => quizFor llm k next m :: quizLoop llm (S k) (S next) rest
  end.

Definition quizLabel (m : ModuleRow) : string :=
  "Stage 3: Module " +++ JsNumber.toString (mod_order m) +++ " quiz".

Lemma sat_quizStep llm n i m s (Q : Result unit -> Delta -> Prop) :
  (forall d, Adds d [] [] [fst (quizFor llm (providerCalls s) (nextId s) m)]
                  (snd (quizFor llm (providerCalls s) (nextId s) m)) [] [] 1 ->
             dCalls d = 1%nat ->
             dEvents d = [quizEvent llm (providerCalls s) m] ->
             Progresses jobId (dUpdates d)
                        [(moduleProgress 45 25 i n, quizLabel m)] ->
             Q (Ok tt) d) ->
  sat (quizStep jobId course llm n i m) s Q.
Proof.
  intros HQ. unfold quizStep. unfold quizFor, quizEvent in HQ.
  wp. norm_calls. fold (quizCall llm m (providerCalls s)).
  destruct (quizCall llm m (providerCalls s)) as [qd | e] eqn:E.
  - wp. eapply sat_of_runs; [apply runs_forIndexed_questions |]. cbv beta iota.
    wp. repeat rewrite nextId_extend. dsimp.
    apply HQ.
    + unfold Adds; dsimp; repeat split.
    + dsimp. reflexivity.
    + dsimp. reflexivity.
    + dsimp. assumption.
  - wp. eapply sat_of_runs; [apply runs_forEach_questions |].
    repeat rewrite nextId_extend. dsimp.
    apply HQ.
    + unfold Adds; dsimp; repeat split.
    + dsimp. reflexivity.
    + dsimp. reflexivity.
    + dsimp. assumption.
Qed.

Lemma sat_quizLoop llm n ms i s (Q : Result unit -> Delta -> Prop) :
  (forall d, Adds d [] [] (map fst (quizLoop llm (providerCalls s) (nextId s) ms))
                  (List.concat (map snd (quizLoop llm (providerCalls s) (nextId s) ms)))
                  [] [] (List.length ms) ->
             dCalls d = List.length ms ->
             dEvents d = quizEvents llm (providerCalls s) ms ->
             Progresses jobId (dUpdates d)
               (mapFrom i (fun i m => (moduleProgress 45 25 i n, quizLabel m))
                        ms) ->
             Q (Ok tt) d) ->
  sat (forIndexed i ms (quizStep jobId course llm n)) s Q.
Proof.
  revert i s Q. induction ms as [| m ms IH]; intros i s Q HQ; simpl forIndexed.
  - wp. apply HQ; [repeat split | reflexivity | reflexivity | constructor].
  - wp. apply sat_quizStep. intros d1 Hd1 Hc1 He1 Hp1.
    apply IH. intros d2 Hd2 Hc2 He2 Hp2.
    revert Hd2 He2. rewrite nextId_extend. norm_calls. intros Hd2 He2.
    apply HQ.
    + unfold Adds; dsimp; repeat split.
    + dsimp. reflexivity.
    + dsimp. reflexivity.
    + dsimp. apply (Progresses_app _ _ _ [_]); assumption.
Qed.

(** *** Stage 4 *)

Definition videosCall (yt : YouTubeProvider) (m : ModuleRow) (k : nat) :=
  searchVideos yt k (searchQuery course m) 3.

Definition resourcesFor (yt : YouTubeProvider) (k : nat) (m : ModuleRow)
  : list Resource :=
  match videosCall yt m k with
  | Ok videos => mapFrom 0 (resourceRow m) videos
  | Throw _ => []
  end.

Definition resourcesEvent (yt : YouTubeProvider) (k : nat) (m : ModuleRow)
  : JobEvent :=
  match videosCall yt m k with
  | Ok videos =>
      mkJobEvent jobId "Stage 4" lvl_info
        ("Module " +++ JsNumber.toString (mod_order m) +++ " resources added")
        (Some [("count", JNum (Z.of_nat (List.length videos)))])
  | Throw e =>
      mkJobEvent jobId "Stage 4" lvl_warn
        ("Module " +++ JsNumber.toString (mod_order m)
                   +++ " resources failed (non-fatal)")
        (Some [("error", JStr (err_message e));
               ("errorCode", JStr ErrorCode.YOUTUBE_PROVIDER_FAILURE)])
  end.

Fixpoint resourcesLoop (yt : YouTubeProvider) (k : nat) (ms : list ModuleRow)
  : list Resource :=
  match ms with
  | [] => []
  | m :: rest => resourcesFor yt k m ++ resourcesLoop yt (S k) rest
  end.

Fixpoint resourcesEvents (yt : YouTubeProvider) (k : nat) (ms : list ModuleRow)
  : list JobEvent :=
  match ms with
  | [] => []
  | m :: rest => resourcesEvent yt k m :: resourcesEvents yt (S k) rest
  end.

Definition resourcesLabel (m : ModuleRow) : string :=
  "Stage 4: Module " +++ JsNumber.toString (mod_order m) +++ " resources".

Lemma sat_resourcesStep yt n i m s (Q : Result unit -> Delta -> Prop) :
  (forall d, Adds d [] [] [] [] (resourcesFor yt (providerCalls s) m) [] 0 ->
             dCalls d = 1%nat ->
             dEvents d = [resourcesEvent yt (providerCalls s) m] ->
             Progresses jobId (dUpdates d)
                        [(moduleProgress 75 20 i n, resourcesLabel m)] ->
             Q (Ok tt) d) ->
  sat (resourcesStep jobId course yt n i m) s Q.
Proof.
  intros HQ. unfold resourcesStep. unfold resourcesFor, resourcesEvent in HQ.
  wp. norm_calls. fold (videosCall yt m (providerCalls s)).
  destruct (videosCall yt m (providerCalls s)) as [vs | e] eqn:E.
  - wp. eapply sat_of_runs; [apply runs_forIndexed_resources |]. cbv beta iota.
    wp. apply HQ.
    + unfold Adds; dsimp; repeat split.
    + dsimp. reflexivity.
    + dsimp. reflexivity.
    + dsimp. assumption.
  - wp. apply HQ.
    + unfold Adds; dsimp; repeat split.
    + dsimp. reflexivity.
    + dsimp. reflexivity.
    + dsimp. assumption.
Qed.

Lemma sat_resourcesLoop yt n ms i s (Q : Result unit -> Delta -> Prop) :
  (forall d, Adds d [] [] [] [] (resourcesLoop yt (providerCalls s) ms) [] 0 ->
             dCalls d = List.length ms ->
             dEvents d = resourcesEvents yt (providerCalls s) ms ->
             Progresses jobId (dUpdates d)
               (mapFrom i (fun i m => (moduleProgress 75 20 i n, resourcesLabel m))
                        ms) ->
             Q (Ok tt) d) ->
  sat (forIndexed i ms (resourcesStep jobId course yt n)) s Q.
Proof.
  revert i s Q. induction ms as [| m ms IH]; intros i s Q HQ; simpl forIndexed.
  - wp. apply HQ; [repeat split | reflexivity | reflexivity | constructor].
  - wp. apply sat_resourcesStep. intros d1 Hd1 Hc1 He1 Hp1.
    apply IH. intros d2 Hd2 Hc2 He2 Hp2.
    revert Hd2 He2. norm_calls. intros Hd2 He2.
    apply HQ.
    + unfold Adds; dsimp; repeat split.
    + dsimp. reflexivity.
    + dsimp. reflexivity.
    + dsimp. apply (Progresses_app _ _ _ [_]); assumption.
Qed.


(** *** The whole pipeline *)

Definition stage1Progress (p : LLMProvider) (k : nat) : list (Z * string) :=
  [(10, "Stage 1: Generating course skeleton")] ++ skeletonProgress p k.

Definition pipelineProgress (ms : list ModuleRow) : list (Z * string) :=
  let n := List.length ms in
  [(20, "Stage 1: Complete")] ++ [(25, "Stage 2: Generating lessons")]
  ++ mapFrom 0 (fun i m => (moduleProgress 25 15 i n, lessonsLabel m)) ms
  ++ [(40, "Stage 2: Complete")] ++ [(45, "Stage 3: Generating quizzes")]
  ++ mapFrom 0 (fun i m => (moduleProgress 45 25 i n, quizLabel m)) ms
  ++ [(70, "Stage 3: Complete")] ++ [(75, "Stage 4: Finding video resources")]
  ++ mapFrom 0 (fun i m => (moduleProgress 75 20 i n, resourcesLabel m)) ms
  ++ [(95, "Stage 4: Complete")] ++ [(98, "Stage 5: Finalizing")]
  ++ [(100, "Stage 5: Complete")].

Definition stageEvent (stage message : string) : JobEvent :=
  mkJobEvent jobId stage lvl_info message None.

(** What [runStages] adds to the store [s], by the outcome of stage 1. *)
Definition StagesPost (s : Store) (r : Result unit) (d : Delta) : Prop :=
  let p := createLLMProvider env in
  let yt := createYouTubeProvider env in
  let k := providerCalls s in
  Progresses jobId (dUpdates d)
    (stage1Progress p k
     ++ match skeletonOutcome p k with
        | Ok sk =>
            pipelineProgress
              (Prisma.sortByOrder
                 (filter (Prisma.ofCourse (course_id course))
                         (modules s ++ moduleRows (nextId s) (sk_modules sk))))
        | Throw _ => []
        end)
  /\
  match skeletonOutcome p k with
  | Throw e =>
      r = Throw e
      /\ Adds d [] [] [] [] [] [] 0
      /\ dEvents d =
         [stageEvent "Stage 1" "Starting course skeleton generation"]
         ++ skeletonEvents p k
  | Ok sk =>
      let rows := moduleRows (nextId s) (sk_modules sk) in
      let ms := Prisma.sortByOrder
                  (filter (Prisma.ofCourse (course_id course))
                          (modules s ++ rows)) in
      let k2 := (k + skeletonCalls p k)%nat in
      let k3 := (k2 + List.length ms)%nat in
      let k4 := (k3 + List.length ms)%nat in
      let qz := quizLoop p k3 (nextId s + List.length (sk_modules sk)) ms in
      r = Ok tt
      /\ Adds d rows (lessonsLoop p k2 ms) (map fst qz)
              (List.concat (map snd qz)) (resourcesLoop yt k4 ms)
              [(course_id course, "active")]
              (List.length (sk_modules sk) + List.length ms)
      /\ dEvents d =
         [stageEvent "Stage 1" "Starting course skeleton generation"]
         ++ skeletonEvents p k
         ++ [stageEvent "Stage 2" "Starting lesson generation for all modules"]
         ++ lessonsEvents p k2 ms
         ++ [stageEvent "Stage 3" "Starting quiz generation for all modules"]
         ++ quizEvents p k3 ms
         ++ [stageEvent "Stage 4" "Starting YouTube resource search"]
         ++ resourcesEvents yt k4 ms
         ++ [stageEvent "Stage 5" "Finalizing course";
             mkJobEvent jobId "Stage 5" lvl_info "Course activated"
               (Some [("courseId", JNum (Z.of_nat (course_id course)))])]
  end.

Lemma sat_runStages s : sat (runStages env jobId course) s (StagesPost s).
Proof.
  unfold runStages, StagesPost. cbv zeta.
  wp. apply sat_generateSkeleton. intros dSk HdSk HpSk HeSk HcSk.
  revert HpSk HeSk HcSk. norm_calls. intros HpSk HeSk HcSk.
  destruct (skeletonOutcome (createLLMProvider env) (providerCalls s))
    as [sk | e] eqn:E.
  - wp. apply sat_saveModules. intros dMods HdMods HuMods HeMods HcMods.
    revert HdMods. repeat rewrite nextId_extend. dsimp. intros HdMods.
    wp. repeat rewrite modules_extend. dsimp.
    set (ms := Prisma.sortByOrder _).
    wp. apply sat_lessonsLoop. intros dLes HdLes HcLes HeLes HpLes.
    revert HdLes HeLes. norm_calls. intros HdLes HeLes.
    wp. apply sat_quizLoop. intros dQz HdQz HcQz HeQz HpQz.
    revert HdQz HeQz. repeat rewrite nextId_extend. norm_calls. intros HdQz HeQz.
    wp. apply sat_resourcesLoop. intros dRes HdRes HcRes HeRes HpRes.
    revert HdRes HeRes. norm_calls. intros HdRes HeRes.
    wp. split; [| split; [reflexivity | split]].
    + dsimp. unfold stage1Progress, pipelineProgress. cbv zeta.
      fold ms. rewrite <- app_assoc.
      repeat (apply Progresses_app; [assumption |]). assumption.
    + fold ms. unfold Adds; dsimp; repeat split.
    + fold ms. dsimp. reflexivity.
  - wp. split; [| split; [reflexivity | split]].
    + dsimp. unfold stage1Progress.
      apply Progresses_app; assumption.
    + unfold Adds; dsimp; repeat split.
    + dsimp. reflexivity.
Qed.
End Summaries.

(** ** The dispatcher *)

Definition jobOf (id : Id) (s : Store) : option Job := Prisma.findJob id (jobs s).

Definition courseOfJob (id : Id) (s : Store) : option Course :=
  match jobOf id s with
  | Some j =>
      match job_courseId j with
      | Some c => Prisma.findCourse c (courses s)
      | None => None
      end
  | None => None
  end.

Definition applyUpdates (us : list (Id * JobData)) (j : Job) : Job :=
  fold_left (fun j u => Prisma.updateRow (fst u) (snd u) j) us j.

Definition ExecPost (env : Env) (jobId : Id) (s : Store)
           (r : Result unit) (d : Delta) : Prop :=
  match courseOfJob jobId s with
  | Some course => StagesPost env jobId course s r d
  | None => r = Throw (new_Error "Job or course not found") /\ d = dzero
  end.

Lemma sat_executeGenerateCourse env jobId s :
  sat (executeGenerateCourse env jobId) s (ExecPost env jobId s).
Proof.
  unfold executeGenerateCourse, ExecPost, courseOfJob, jobOf.
  apply sat_bind.
  eapply sat_of_runs.
  { unfold runs, Prisma.job_findUnique. rewrite extend_dzero. reflexivity. }
  cbv beta iota. rewrite extend_dzero.
  destruct (Prisma.findJob jobId (jobs s)) as [j |].
  - destruct (job_courseId j) as [c |].
    + destruct (Prisma.findCourse c (courses s)) as [course |].
      * eapply sat_mono; [apply sat_runStages |].
        intros r d H. rewrite dplus_dzero_l. exact H.
      * wp. split; reflexivity.
    + wp. split; reflexivity.
  - wp. split; reflexivity.
Qed.

Definition completedEvent (id : Id) : JobEvent :=
  mkJobEvent id "Completed" lvl_info "Job completed successfully" None.

Definition failedCode (error : JsError) : string :=
  orDefault (err_code error) ErrorCode.JOB_RUNNER_FAILURE.

Definition failedMessage (error : JsError) : string :=
  orDefault (Some (err_message error)) "Unknown error".

Definition failedEvent (id : Id) (error : JsError) : JobEvent :=
  mkJobEvent id "Failed" lvl_error (failedMessage error)
    (Some [("errorCode", JStr (failedCode error));
           ("stack", optStr (err_stack error))]).

(** The terminal write and event, by the result of the pipeline. *)
Definition finishDelta (id : Id) (r : Result unit) (now : Z) : Delta :=
  match r with
  | Ok _ => dTick ⊕ (dUpdate id (markSucceeded now) ⊕ dEvent (completedEvent id))
  | Throw error =>
      dTick ⊕ (dUpdate id (markFailed (failedCode error) (failedMessage error) now)
               ⊕ dEvent (failedEvent id error))
  end.

Definition ProcessPost (env : Env) (s : Store) (r : Result unit) (d : Delta) : Prop :=
  r = Ok tt /\
  match Prisma.oldest (filter Prisma.isQueued (jobs s)) with
  | None => d = dzero
  | Some job =>
      let id := job_id job in
      let s1 := extend s (dUpdate id markRunning) in
      exists rE dE now,
        (if String.eqb (job_type job) "GENERATE_COURSE"
         then ExecPost env id s1 rE dE
         else rE = Ok tt /\ dE = dzero)
        /\ d = dUpdate id markRunning ⊕ (dE ⊕ finishDelta id rE now)
  end.

Lemma sat_processNextJob env s :
  sat (processNextJob env) s (ProcessPost env s).
Proof.
  unfold processNextJob, ProcessPost.
  wp. rewrite extend_dzero.
  destruct (Prisma.oldest (filter Prisma.isQueued (jobs s))) as [job |].
  - wp.
    destruct (String.eqb (job_type job) "GENERATE_COURSE").
    + eapply sat_mono; [apply sat_executeGenerateCourse |].
      intros rE dE HE. destruct rE as [[] | error].
      * wp. split; [reflexivity |]. rewrite dplus_dzero_l.
        eexists (Ok tt), dE, _. split; [exact HE |]. reflexivity.
      * wp. split; [reflexivity |]. rewrite dplus_dzero_l.
        eexists (Throw error), dE, _. split; [exact HE |]. reflexivity.
    + wp. split; [reflexivity |]. rewrite dplus_dzero_l.
      eexists (Ok tt), dzero, _. split; [split; reflexivity |]. reflexivity.
  - wp. split; reflexivity.
Qed.

(** ** Job rows under replayed updates *)

Lemma updateRow_id id d j : job_id (Prisma.updateRow id d j) = job_id j.
Proof. unfold Prisma.updateRow. destruct (Nat.eqb (job_id j) id); reflexivity. Qed.

Lemma findJob_map id id' d l :
  Prisma.findJob id (map (Prisma.updateRow id' d) l)
  = option_map (Prisma.updateRow id' d) (Prisma.findJob id l).
Proof.
  unfold Prisma.findJob. induction l as [| j l IH]; simpl; [reflexivity |].
  rewrite updateRow_id. destruct (Nat.eqb (job_id j) id); [reflexivity | exact IH].
Qed.

Lemma findJob_replay id us l :
  Prisma.findJob id (replay us l)
  = option_map (applyUpdates us) (Prisma.findJob id l).
Proof.
  unfold replay, applyUpdates. revert l.
  induction us as [| u us IH]; intros l; simpl.
  - destruct (Prisma.findJob id l); reflexivity.
  - rewrite IH, findJob_map. destruct (Prisma.findJob id l); reflexivity.
Qed.

Lemma applyUpdates_app us1 us2 j :
  applyUpdates (us1 ++ us2) j = applyUpdates us2 (applyUpdates us1 j).
Proof. unfold applyUpdates. apply fold_left_app. Qed.

Lemma applyUpdates_other id us j :
  Forall (fun u => fst u = id) us -> job_id j <> id -> applyUpdates us j = j.
Proof.
  unfold applyUpdates. intros H Hne. induction H as [| u us Hu _ IH]; simpl.
  - reflexivity.
  - unfold Prisma.updateRow at 2. rewrite Hu.
    destruct (Nat.eqb_spec (job_id j) id); [contradiction | exact IH].
Qed.

Lemma findJob_In l j :
  NoDup (map job_id l) -> In j l -> Prisma.findJob (job_id j) l = Some j.
Proof.
  unfold Prisma.findJob. induction l as [| x l IH]; simpl; intros Hnd Hin.
  - contradiction.
  - inversion Hnd as [| ? ? Hx Hnd']; subst.
    destruct Hin as [-> | Hin].
    + now rewrite Nat.eqb_refl.
    + destruct (Nat.eqb_spec (job_id x) (job_id j)) as [E | _].
      * exfalso. apply Hx. rewrite E. now apply in_map.
      * now apply IH.
Qed.

Lemma oldest_In l j : Prisma.oldest l = Some j -> In j l.
Proof.
  revert j. induction l as [| x l IH]; simpl; intros j H; [discriminate |].
  destruct (Prisma.oldest l) as [k |].
  - destruct (job_createdAt x <=? job_createdAt k); inversion H; subst; auto.
  - inversion H; auto.
Qed.

Lemma claimed_queued s job :
  Prisma.oldest (filter Prisma.isQueued (jobs s)) = Some job ->
  In job (jobs s) /\ job_status job = queued.
Proof.
  intros H. apply oldest_In, filter_In in H. destruct H as [Hin Hq].
  split; [exact Hin |]. unfold Prisma.isQueued in Hq.
  destruct (job_status job); simpl in Hq; congruence.
Qed.

Lemma Progresses_targets id us ws :
  Progresses id us ws -> Forall (fun u => fst u = id) us.
Proof.
  induction 1 as [| u w us ws Hu _ IH]; constructor; [apply Hu | exact IH].
Qed.

(** The updates of one run of [processNextJob] that claims [job]: the
    claim, progress updates, and one terminal write. *)
Definition RunUpdates (job : Job) (us : list (Id * JobData))
           (ws : list (Z * string)) (fin : JobData) : Prop :=
  exists usP,
    us = (job_id job, markRunning) :: usP ++ [(job_id job, fin)]
    /\ Progresses (job_id job) usP ws.

Lemma StagesPost_progress env jobId course s r d :
  StagesPost env jobId course s r d ->
  exists ws, Progresses jobId (dUpdates d) ws.
Proof. intros [H _]. eauto. Qed.

Lemma ExecPost_progress env jobId s r d :
  ExecPost env jobId s r d -> exists ws, Progresses jobId (dUpdates d) ws.
Proof.
  unfold ExecPost. destruct (courseOfJob jobId s).
  - apply StagesPost_progress.
  - intros [_ ->]. exists []. constructor.
Qed.

Lemma ProcessPost_updates env s r d job :
  ProcessPost env s r d ->
  Prisma.oldest (filter Prisma.isQueued (jobs s)) = Some job ->
  exists ws fin, RunUpdates job (dUpdates d) ws fin
    /\ ((exists now, fin = markSucceeded now)
        \/ (exists c m now, fin = markFailed c m now)).
Proof.
  unfold ProcessPost. intros [_ H] Hj. rewrite Hj in H.
  destruct H as (rE & dE & now & HE & ->).
  assert (exists ws, Progresses (job_id job) (dUpdates dE) ws) as [ws Hws].
  { destruct (String.eqb (job_type job) "GENERATE_COURSE").
    - eapply ExecPost_progress; eauto.
    - destruct HE as [_ ->]. exists []. constructor. }
  destruct rE as [[] | error]; cbn [finishDelta].
  - exists ws, (markSucceeded now). split; [| left; eauto].
    exists (dUpdates dE). split; [| exact Hws]. dsimp. reflexivity.
  - exists ws, (markFailed (failedCode error) (failedMessage error) now).
    split; [| right; eauto].
    exists (dUpdates dE). split; [| exact Hws]. dsimp. reflexivity.
Qed.

Lemma process_elim env s :
  exists d, exec (processNextJob env) s = extend s d
            /\ ProcessPost env s (outcome (processNextJob env) s) d.
Proof. apply sat_elim, sat_processNextJob. Qed.

Lemma jobOf_extend id s d :
  jobOf id (extend s d) = option_map (applyUpdates (dUpdates d)) (jobOf id s).
Proof. unfold jobOf. cbn [jobs extend]. apply findJob_replay. Qed.

(** The [prisma.job.update] calls made between two stores. *)
Definition newUpdates (s s' : Store) : list (Id * JobData) :=
  skipn (List.length (jobUpdates s)) (jobUpdates s').

Definition statusWrites (us : list (Id * JobData)) : list (Id * JobStatus) :=
  flat_map (fun u => match d_status (snd u) with
                     | Some st => [(fst u, st)]
                     | None => []
                     end) us.

Definition progressWrites (id : Id) (us : list (Id * JobData))
  : list (Z * string) :=
  flat_map (fun u =>
              if Nat.eqb (fst u) id then
                match d_progressPercent (snd u), d_currentStage (snd u) with
                | Some p, Some st => [(p, st)]
                | _, _ => []
                end
              else []) us.

Lemma newUpdates_extend s d : newUpdates s (extend s d) = dUpdates d.
Proof.
  unfold newUpdates. cbn [jobUpdates extend].
  rewrite skipn_app, skipn_all, Nat.sub_diag. reflexivity.
Qed.

Lemma statusWrites_app us1 us2 :
  statusWrites (us1 ++ us2) = statusWrites us1 ++ statusWrites us2.
Proof. apply flat_map_app. Qed.

Lemma progressWrites_app id us1 us2 :
  progressWrites id (us1 ++ us2) = progressWrites id us1 ++ progressWrites id us2.
Proof. apply flat_map_app. Qed.

Lemma Progresses_statusWrites id us ws :
  Progresses id us ws -> statusWrites us = [].
Proof.
  unfold statusWrites.
  induction 1 as [| u w us ws (_ & Hs & _) _ IH]; cbn [flat_map];
    [reflexivity |].
  now rewrite Hs.
Qed.

Lemma Progresses_progressWrites id us ws :
  Progresses id us ws -> progressWrites id us = ws.
Proof.
  unfold progressWrites.
  induction 1 as [| u w us ws (Hi & _ & Hp & Hst & _) _ IH]; cbn [flat_map];
    [reflexivity |].
  rewrite Hi, Nat.eqb_refl, Hp, Hst, IH. destruct w; reflexivity.
Qed.

Lemma last_cons {A} (a : A) l d : last (a :: l) d = last l a.
Proof.
  revert a d. induction l as [| b l IH]; intros a d; [reflexivity |].
  change (last (a :: b :: l) d) with (last (b :: l) d).
  rewrite !IH. reflexivity.
Qed.

Definition shown (w : Z * string) : Z * option string := (fst w, Some (snd w)).

(** Progress updates overwrite percent and stage label and leave the
    other columns of the row alone (the time stamp apart). *)
Lemma applyUpdates_progress id us ws :
  Progresses id us ws ->
  forall j, job_id j = id ->
    let j' := applyUpdates us j in
    job_id j' = id /\ job_type j' = job_type j
    /\ job_status j' = job_status j
    /\ job_errorCode j' = job_errorCode j
    /\ job_errorMessage j' = job_errorMessage j
    /\ job_courseId j' = job_courseId j
    /\ job_createdAt j' = job_createdAt j
    /\ (job_progressPercent j', job_currentStage j')
       = last (map shown ws) (job_progressPercent j, job_currentStage j).
Proof.
  induction 1 as [| u w us ws (Hi & Hs & Hp & Hst & Hc & Hm) _ IH];
    intros j Hj; cbv zeta.
  - simpl. repeat split; auto.
  - change (applyUpdates (u :: us) j)
      with (applyUpdates us (Prisma.updateRow (fst u) (snd u) j)).
    unfold Prisma.updateRow. rewrite Hi, Hj, Nat.eqb_refl.
    specialize (IH (applyData (snd u) j) Hj). cbv zeta in IH.
    destruct IH as (I1 & I2 & I3 & I4 & I5 & I6 & I7 & I8).
    rewrite I1, I2, I3, I4, I5, I6, I7, I8.
    unfold applyData.
    cbn [job_id job_type job_status job_progressPercent job_currentStage
         job_errorCode job_errorMessage job_courseId job_createdAt map].
    rewrite Hs, Hp, Hst, Hc, Hm, last_cons. cbn [orKeep orKeepOpt].
    repeat split; auto.
Qed.

Lemma applyUpdates_run job usP ws fin :
  Progresses (job_id job) usP ws ->
  applyUpdates ((job_id job, markRunning) :: usP ++ [(job_id job, fin)]) job
  = applyData fin (applyUpdates usP (applyData markRunning job)).
Proof.
  intros HP.
  assert (Prisma.updateRow (job_id job) markRunning job
          = applyData markRunning job) as E1.
  { unfold Prisma.updateRow. now rewrite Nat.eqb_refl. }
  unfold applyUpdates. cbn [fold_left fst snd].
  rewrite fold_left_app. cbn [fold_left fst snd]. rewrite E1.
  fold (applyUpdates usP (applyData markRunning job)).
  destruct (applyUpdates_progress _ _ _ HP (applyData markRunning job) eq_refl)
    as (E2 & _).
  unfold Prisma.updateRow. now rewrite E2, Nat.eqb_refl.
Qed.

Lemma run_elim env s job :
  NoDup (map job_id (jobs s)) ->
  Prisma.oldest (filter Prisma.isQueued (jobs s)) = Some job ->
  exists usP ws fin,
    newUpdates s (exec (processNextJob env) s)
    = (job_id job, markRunning) :: usP ++ [(job_id job, fin)]
    /\ Progresses (job_id job) usP ws
    /\ ((exists now, fin = markSucceeded now)
        \/ (exists c m now, fin = markFailed c m now))
    /\ jobOf (job_id job) (exec (processNextJob env) s)
       = Some (applyData fin (applyUpdates usP (applyData markRunning job))).
Proof.
  intros Hnd Hj.
  destruct (process_elim env s) as (d & -> & HP).
  destruct (ProcessPost_updates _ _ _ _ _ HP Hj)
    as (ws & fin & (usP & Hus & HusP) & Hfin).
  exists usP, ws, fin. rewrite newUpdates_extend, jobOf_extend.
  repeat split; auto.
  unfold jobOf. destruct (claimed_queued _ _ Hj) as [Hin _].
  rewrite (findJob_In _ _ Hnd Hin). cbn [option_map].
  rewrite Hus. f_equal. now apply applyUpdates_run with (ws := ws).
Qed.

(** C10: the write that fails a job sets status, errorCode, errorMessage
    and updatedAt and nothing else, so the failed row keeps the percent and
    the stage label of the last progress update of the run. *)
Theorem failed_job_keeps_progress env s job :
  NoDup (map job_id (jobs s)) ->
  Prisma.oldest (filter Prisma.isQueued (jobs s)) = Some job ->
  let s' := exec (processNextJob env) s in
  forall j', jobOf (job_id job) s' = Some j' -> job_status j' = failed ->
  exists before usP ws code msg now,
    newUpdates s s'
    = (job_id job, markRunning) :: usP ++ [(job_id job, markFailed code msg now)]
    /\ progressWrites (job_id job) (newUpdates s s') = (0, "Starting") :: ws
    /\ before = applyUpdates ((job_id job, markRunning) :: usP) job
    /\ j' = mkJob (job_id before) (job_type before) failed
                  (job_progressPercent before) (job_currentStage before)
                  (Some code) (Some msg)
                  (job_courseId before) (job_createdAt before) now
    /\ (job_progressPercent j', job_currentStage j')
       = shown (last ws (0, "Starting")).
Proof.
  intros Hnd Hj s' j' Hrow Hfailed.
  destruct (run_elim env s job Hnd Hj)
    as (usP & ws & fin & Hus & HusP & Hfin & Hrow').
  fold s' in Hus, Hrow'. rewrite Hrow in Hrow'. inversion Hrow'; subst j'.
  destruct Hfin as [(now & ->) | (c & m & now & ->)]; [discriminate |].
  exists (applyUpdates ((job_id job, markRunning) :: usP) job), usP, ws, c, m, now.
  assert (applyUpdates ((job_id job, markRunning) :: usP) job
          = applyUpdates usP (applyData markRunning job)) as Hb.
  { change (applyUpdates usP (Prisma.updateRow (job_id job) markRunning job)
            = applyUpdates usP (applyData markRunning job)).
    unfold Prisma.updateRow. now rewrite Nat.eqb_refl. }
  rewrite Hb.
  destruct (applyUpdates_progress _ _ _ HusP (applyData markRunning job) eq_refl)
    as (I1 & I2 & I3 & I4 & I5 & I6 & I7 & I8).
  split; [exact Hus |]. split.
  { rewrite Hus.
    change ((job_id job, markRunning)
              :: usP ++ [(job_id job, markFailed c m now)])
      with ([(job_id job, markRunning)] ++ usP
              ++ [(job_id job, markFailed c m now)]).
    rewrite !progressWrites_app, (Progresses_progressWrites _ _ _ HusP).
    unfold progressWrites. cbn [flat_map fst snd]. rewrite Nat.eqb_refl.
    cbn. now rewrite app_nil_r. }
  split; [reflexivity |]. split; [reflexivity |].
  unfold applyData at 1 3.
  cbn [job_progressPercent job_currentStage markFailed d_progressPercent
       d_currentStage orKeep orKeepOpt].
  rewrite I8. cbn. clear.
  induction ws as [| w ws IH] using rev_ind; [reflexivity |].
  rewrite map_app. cbn [map]. rewrite !last_last. reflexivity.
Qed.

(** ** One run of the dispatcher on a claimed job *)

Lemma StagesPost_claim env jobId course s id x r d :
  StagesPost env jobId course (extend s (dUpdate id x)) r d ->
  StagesPost env jobId course s r d.
Proof.
  unfold StagesPost.
  rewrite providerCalls_extend, nextId_extend, modules_extend.
  cbn [dCalls dIds dModules dUpdate]. now rewrite app_nil_r, !Nat.add_0_r.
Qed.

Lemma courseOfJob_claim s job :
  jobOf (job_id job) s = Some job ->
  courseOfJob (job_id job) (extend s (dUpdate (job_id job) markRunning))
  = courseOfJob (job_id job) s.
Proof.
  intros H. unfold courseOfJob. rewrite jobOf_extend, H.
  cbn [option_map dUpdates dUpdate applyUpdates fold_left fst snd].
  unfold Prisma.updateRow. rewrite Nat.eqb_refl. reflexivity.
Qed.

(** The result and the additions of the pipeline for the claimed job. *)
Definition PipelinePost (env : Env) (s : Store) (job : Job)
           (rE : Result unit) (dE : Delta) : Prop :=
  if String.eqb (job_type job) "GENERATE_COURSE" then
    match courseOfJob (job_id job) s with
    | Some course => StagesPost env (job_id job) course s rE dE
    | None => rE = Throw (new_Error "Job or course not found") /\ dE = dzero
    end
  else rE = Ok tt /\ dE = dzero.

Definition finalStatus (rE : Result unit) : JobStatus :=
  match rE with Ok _ => succeeded | Throw _ => failed end.

Lemma run_master env s job :
  NoDup (map job_id (jobs s)) ->
  Prisma.oldest (filter Prisma.isQueued (jobs s)) = Some job ->
  exists rE dE now ws,
    exec (processNextJob env) s
    = extend s (dUpdate (job_id job) markRunning
                ⊕ (dE ⊕ finishDelta (job_id job) rE now))
    /\ PipelinePost env s job rE dE
    /\ Progresses (job_id job) (dUpdates dE) ws
    /\ progressWrites (job_id job) (newUpdates s (exec (processNextJob env) s))
       = [(0, "Starting")] ++ ws
         ++ match rE with Ok _ => [(100, "Completed")] | Throw _ => [] end
    /\ exists j', jobOf (job_id job) (exec (processNextJob env) s) = Some j'
                  /\ job_status j' = finalStatus rE
                  /\ (job_progressPercent j', job_currentStage j')
                     = shown (last (ws ++ match rE with
                                          | Ok _ => [(100, "Completed")]
                                          | Throw _ => []
                                          end) (0, "Starting")).
Proof.
  intros Hnd Hj.
  destruct (claimed_queued _ _ Hj) as [Hin _].
  pose proof (findJob_In _ _ Hnd Hin) as Hfind. fold (jobOf (job_id job) s) in Hfind.
  destruct (process_elim env s) as (d & Hexec & [_ HP]).
  rewrite Hj in HP. cbv zeta in HP. destruct HP as (rE & dE & now & HE & ->).
  assert (PipelinePost env s job rE dE) as HPipe.
  { unfold PipelinePost.
    destruct (String.eqb (job_type job) "GENERATE_COURSE"); [| exact HE].
    unfold ExecPost in HE. rewrite (courseOfJob_claim _ _ Hfind) in HE.
    destruct (courseOfJob (job_id job) s); [| exact HE].
    eapply StagesPost_claim; eauto. }
  assert (exists ws, Progresses (job_id job) (dUpdates dE) ws) as [ws Hws].
  { unfold PipelinePost in HPipe.
    destruct (String.eqb (job_type job) "GENERATE_COURSE").
    - destruct (courseOfJob (job_id job) s).
      + eapply StagesPost_progress; eauto.
      + destruct HPipe as [_ ->]. exists []. constructor.
    - destruct HPipe as [_ ->]. exists []. constructor. }
  exists rE, dE, now, ws. rewrite Hexec, newUpdates_extend, jobOf_extend, Hfind.
  split; [reflexivity |]. split; [exact HPipe |]. split; [exact Hws |].
  set (fin := match rE with
              | Ok _ => markSucceeded now
              | Throw error => markFailed (failedCode error) (failedMessage error) now
              end).
  assert (dUpdates (dUpdate (job_id job) markRunning
                    ⊕ (dE ⊕ finishDelta (job_id job) rE now))
          = (job_id job, markRunning) :: dUpdates dE ++ [(job_id job, fin)]) as Hus.
  { subst fin. destruct rE as [[] | error]; cbn [finishDelta]; dsimp; reflexivity. }
  rewrite Hus. split.
  - change ((job_id job, markRunning) :: dUpdates dE ++ [(job_id job, fin)])
      with ([(job_id job, markRunning)] ++ dUpdates dE ++ [(job_id job, fin)]).
    rewrite !progressWrites_app, (Progresses_progressWrites _ _ _ Hws).
    unfold progressWrites. cbn [flat_map fst snd]. rewrite Nat.eqb_refl.
    subst fin. destruct rE as [[] | error]; reflexivity.
  - cbn [option_map]. eexists. split; [reflexivity |].
    rewrite (applyUpdates_run _ _ _ _ Hws).
    destruct (applyUpdates_progress _ _ _ Hws (applyData markRunning job) eq_refl)
      as (I1 & I2 & I3 & I4 & I5 & I6 & I7 & I8).
    split.
    + subst fin. destruct rE as [[] | error]; reflexivity.
    + unfold applyData at 1 3.
      cbn [job_progressPercent job_currentStage].
      subst fin. destruct rE as [[] | error].
      * cbn [markSucceeded d_progressPercent d_currentStage orKeep orKeepOpt].
        rewrite last_last. reflexivity.
      * cbn [markFailed d_progressPercent d_currentStage orKeep orKeepOpt].
        rewrite I8, app_nil_r. cbn. clear.
        induction ws as [| w ws IH] using rev_ind; [reflexivity |].
        rewrite map_app. cbn [map]. rewrite !last_last. reflexivity.
Qed.

(** ** The provider contracts *)

(** The content provider validates what it returns against the schemas
    ("invalid shape is treated identically to a provider failure"). *)
Definition SkeletonContract (p : LLMProvider) : Prop :=
  forall k topic level timePerDay sk,
    generateCourseSkeleton p k topic level timePerDay = Ok sk ->
    Schemas.CourseSkeletonSchema sk = true.

Definition LessonsContract (p : LLMProvider) : Prop :=
  forall k topic m timePerDay ls,
    generateLessons p k topic m timePerDay = Ok ls ->
    Schemas.ModuleLessonsSchema ls = true.

Definition QuizContract (p : LLMProvider) : Prop :=
  forall k topic m qz,
    generateQuiz p k topic m = Ok qz -> Schemas.ModuleQuizSchema qz = true.

Definition LLMContract (p : LLMProvider) : Prop :=
  SkeletonContract p /\ LessonsContract p /\ QuizContract p.

(** [search(query, maxResults)] returns at most [maxResults] videos. *)
Definition YouTubeContract (yt : YouTubeProvider) : Prop :=
  forall k query maxResults videos,
    searchVideos yt k query maxResults = Ok videos ->
    Z.of_nat (List.length videos) <= maxResults.

(** The course of the claimed job is a draft: it has no module yet. *)
Definition Draft (s : Store) (course : Course) : Prop :=
  filter (Prisma.ofCourse (course_id course)) (modules s) = [].

Lemma skeletonOutcome_schema env course k sk :
  SkeletonContract (createLLMProvider env) ->
  skeletonOutcome env course (createLLMProvider env) k = Ok sk ->
  List.length (sk_modules sk) = 5%nat.
Proof.
  intros HC H.
  assert (Schemas.CourseSkeletonSchema sk = true) as Hs.
  { unfold skeletonOutcome, skeletonCall in H.
    destruct (generateCourseSkeleton (createLLMProvider env) k _ _ _) eqn:E1.
    - inversion H; subst. eapply HC; eauto.
    - destruct (generateCourseSkeleton (createLLMProvider env) (S k) _ _ _) eqn:E2.
      + inversion H; subst. eapply HC; eauto.
      + eapply HC; eauto. }
  unfold Schemas.CourseSkeletonSchema, Schemas.size in Hs.
  apply andb_prop in Hs. destruct Hs as [_ Hs]. apply Z.eqb_eq in Hs. lia.
Qed.

Lemma moduleRows_length course next mods :
  List.length (moduleRows course next mods) = List.length mods.
Proof. revert next; induction mods; simpl; auto. Qed.

Lemma filter_moduleRows course next mods :
  filter (Prisma.ofCourse (course_id course)) (moduleRows course next mods)
  = moduleRows course next mods.
Proof.
  revert next. induction mods as [| m mods IH]; intros next; simpl; [reflexivity |].
  unfold Prisma.ofCourse at 1. cbn [mod_courseId]. rewrite Nat.eqb_refl.
  now rewrite IH.
Qed.

Lemma insertByOrder_perm m l : Permutation (Prisma.insertByOrder m l) (m :: l).
Proof.
  induction l as [| x l IH]; simpl; [reflexivity |].
  destruct (mod_order m <=? mod_order x); [reflexivity |].
  rewrite IH. apply perm_swap.
Qed.

Lemma sortByOrder_perm l : Permutation (Prisma.sortByOrder l) l.
Proof.
  induction l as [| x l IH]; simpl; [reflexivity |].
  rewrite insertByOrder_perm. now constructor.
Qed.

(** The modules read back after stage 1, for a draft course. *)
Definition savedModules (course : Course) (s : Store) (sk : CourseSkeleton)
  : list ModuleRow :=
  Prisma.sortByOrder
    (filter (Prisma.ofCourse (course_id course))
            (modules s ++ moduleRows course (nextId s) (sk_modules sk))).

Lemma savedModules_perm course s sk :
  Draft s course ->
  Permutation (savedModules course s sk)
              (moduleRows course (nextId s) (sk_modules sk)).
Proof.
  intros HD. unfold savedModules.
  rewrite sortByOrder_perm, filter_app, HD, filter_moduleRows. reflexivity.
Qed.

Lemma savedModules_length course s sk :
  Draft s course ->
  List.length (savedModules course s sk) = List.length (sk_modules sk).
Proof.
  intros HD. rewrite (Permutation_length (savedModules_perm _ _ _ HD)).
  apply moduleRows_length.
Qed.

(** ** Progress values *)

Fixpoint nondecreasing (l : list Z) : Prop :=
  match l with
  | a :: (b :: _) as rest => a <= b /\ nondecreasing rest
  | _ => True
  end.

(** The stage a progress label belongs to, by its prefix. *)
Definition stageOf (label : string) : option nat :=
  if prefix "Stage 1" label then Some 1%nat
  else if prefix "Stage 2" label then Some 2%nat
  else if prefix "Stage 3" label then Some 3%nat
  else if prefix "Stage 4" label then Some 4%nat
  else if prefix "Stage 5" label then Some 5%nat
  else None.

Definition stageRange (k : nat) : Z * Z :=
  match k with
  | 1%nat => (0, 20)
  | 2%nat => (20, 40)
  | 3%nat => (40, 70)
  | 4%nat => (70, 95)
  | _ => (95, 100)
  end.

Definition inStageRange (w : Z * string) : bool :=
  match stageOf (snd w) with
  | Some k => (fst (stageRange k) <=? fst w) && (fst w <=? snd (stageRange k))
  | None => true
  end.

Definition pipelinePercents : list Z :=
  [20; 25; 28; 31; 34; 37; 40; 40; 45; 50; 55; 60; 65; 70; 70;
   75; 79; 83; 87; 91; 95; 95; 98; 100].

Lemma pipeline_five ms :
  List.length ms = 5%nat ->
  map fst (pipelineProgress ms) = pipelinePercents
  /\ forallb inStageRange (pipelineProgress ms) = true
  /\ In (20, "Stage 1: Complete") (pipelineProgress ms)
  /\ In (40, "Stage 2: Complete") (pipelineProgress ms)
  /\ In (70, "Stage 3: Complete") (pipelineProgress ms)
  /\ In (95, "Stage 4: Complete") (pipelineProgress ms)
  /\ In (100, "Stage 5: Complete") (pipelineProgress ms).
Proof.
  intros H.
  destruct ms as [| m1 [| m2 [| m3 [| m4 [| m5 [| m6 ms]]]]]]; try discriminate.
  split; [vm_compute; reflexivity |].
  split; [vm_compute; reflexivity |].
  vm_compute. intuition.
Qed.

Lemma Progresses_unique id us ws ws' :
  Progresses id us ws -> Progresses id us ws' -> ws = ws'.
Proof.
  intros H H'. rewrite <- (Progresses_progressWrites _ _ _ H).
  apply (Progresses_progressWrites _ _ _ H').
Qed.

(** The progress writes of the pipeline for the claimed job, as a function
    of what the content provider answers in stage 1. *)
Definition runProgress (env : Env) (s : Store) (job : Job) : list (Z * string) :=
  if String.eqb (job_type job) "GENERATE_COURSE" then
    match courseOfJob (job_id job) s with
    | Some course =>
        let p := createLLMProvider env in
        stage1Progress course p (providerCalls s)
        ++ match skeletonOutcome env course p (providerCalls s) with
           | Ok sk => pipelineProgress (savedModules course s sk)
           | Throw _ => []
           end
    | None => []
    end
  else [].

(** Whether the pipeline returns normally. *)
Definition runReturns (env : Env) (s : Store) (job : Job) : bool :=
  if String.eqb (job_type job) "GENERATE_COURSE" then
    match courseOfJob (job_id job) s with
    | Some course =>
        isOk (skeletonOutcome env course (createLLMProvider env)
                              (providerCalls s))
    | None => false
    end
  else true.

Lemma run_progress env s job :
  NoDup (map job_id (jobs s)) ->
  Prisma.oldest (filter Prisma.isQueued (jobs s)) = Some job ->
  let s' := exec (processNextJob env) s in
  progressWrites (job_id job) (newUpdates s s')
  = [(0, "Starting")] ++ runProgress env s job
    ++ (if runReturns env s job then [(100, "Completed")] else [])
  /\ exists j', jobOf (job_id job) s' = Some j'
       /\ job_status j' = (if runReturns env s job then succeeded else failed)
       /\ (job_progressPercent j', job_currentStage j')
          = shown (last (runProgress env s job
                         ++ (if runReturns env s job
                             then [(100, "Completed")] else []))
                        (0, "Starting")).
Proof.
  intros Hnd Hj s'.
  destruct (run_master env s job Hnd Hj)
    as (rE & dE & now & ws & _ & HPipe & Hws & Hlog & j' & Hrow & Hst & Hshown).
  fold s' in Hlog, Hrow.
  assert (ws = runProgress env s job /\ isOk rE = runReturns env s job)
    as [-> Hret].
  { unfold PipelinePost in HPipe. unfold runProgress, runReturns.
    destruct (String.eqb (job_type job) "GENERATE_COURSE").
    - destruct (courseOfJob (job_id job) s) as [course |].
      + destruct HPipe as [HP HR]. cbv zeta in HP, HR.
        split; [eapply Progresses_unique; eauto |].
        unfold savedModules.
        destruct (skeletonOutcome env course (createLLMProvider env)
                                  (providerCalls s)).
        * destruct HR as [-> _]. reflexivity.
        * destruct HR as [-> _]. reflexivity.
      + destruct HPipe as [-> ->]. inversion Hws. auto.
    - destruct HPipe as [-> ->]. inversion Hws. auto. }
  assert (match rE with Ok _ => [(100, "Completed")] | Throw _ => [] end
          = if runReturns env s job then [(100, "Completed")] else []) as E.
  { rewrite <- Hret. destruct rE; reflexivity. }
  rewrite E in Hlog, Hshown. split; [exact Hlog |].
  exists j'. split; [exact Hrow |]. split; [| exact Hshown].
  rewrite Hst, <- Hret. destruct rE; reflexivity.
Qed.

Definition retried (env : Env) (course : Course) (s : Store) : bool :=
  negb (isOk (skeletonCall course (createLLMProvider env) (providerCalls s))).

Lemma stage1_percents env course s :
  map fst (stage1Progress course (createLLMProvider env) (providerCalls s))
  = 10 :: (if retried env course s then [12] else []).
Proof.
  unfold stage1Progress, skeletonProgress, retried.
  destruct (skeletonCall course (createLLMProvider env) (providerCalls s));
    reflexivity.
Qed.

Lemma stage1_ranges course p k :
  forallb inStageRange (stage1Progress course p k) = true.
Proof.
  unfold stage1Progress, skeletonProgress.
  destruct (skeletonCall course p k); reflexivity.
Qed.

Lemma skeleton_throw_retried env course s e :
  skeletonOutcome env course (createLLMProvider env) (providerCalls s) = Throw e ->
  retried env course s = true.
Proof.
  unfold skeletonOutcome, retried.
  destruct (skeletonCall course (createLLMProvider env) (providerCalls s));
    [discriminate | reflexivity].
Qed.

(** The percents written by a run, given the contract of stage 1. *)
Definition runPercents (env : Env) (s : Store) (job : Job) : list Z :=
  if String.eqb (job_type job) "GENERATE_COURSE" then
    match courseOfJob (job_id job) s with
    | Some course =>
        [0; 10] ++ (if retried env course s then [12] else [])
        ++ (if runReturns env s job then pipelinePercents ++ [100] else [])
    | None => [0]
    end
  else [0; 100].

Lemma run_percents env s job :
  NoDup (map job_id (jobs s)) ->
  Prisma.oldest (filter Prisma.isQueued (jobs s)) = Some job ->
  SkeletonContract (createLLMProvider env) ->
  (forall course, courseOfJob (job_id job) s = Some course -> Draft s course) ->
  map fst (progressWrites (job_id job)
                          (newUpdates s (exec (processNextJob env) s)))
  = runPercents env s job.
Proof.
  intros Hnd Hj HC HD.
  destruct (run_progress env s job Hnd Hj) as [-> _].
  unfold runPercents, runProgress, runReturns.
  destruct (String.eqb (job_type job) "GENERATE_COURSE"); [| reflexivity].
  destruct (courseOfJob (job_id job) s) as [course |] eqn:Hc; [| reflexivity].
  rewrite !map_app, stage1_percents.
  destruct (skeletonOutcome env course (createLLMProvider env) (providerCalls s))
    as [sk | e] eqn:E.
  - assert (List.length (savedModules course s sk) = 5%nat) as H5.
    { rewrite savedModules_length by auto.
      eapply skeletonOutcome_schema; eauto. }
    destruct (pipeline_five _ H5) as (-> & _).
    cbn [isOk]. destruct (retried env course s); reflexivity.
  - cbn [isOk]. destruct (retried env course s); reflexivity.
Qed.

(** C4: the percents written for a job, from the claim to the terminal
    write, never decrease, and a job that succeeds ends at 100. *)
Theorem progress_never_decreases env s job :
  NoDup (map job_id (jobs s)) ->
  Prisma.oldest (filter Prisma.isQueued (jobs s)) = Some job ->
  SkeletonContract (createLLMProvider env) ->
  (forall course, courseOfJob (job_id job) s = Some course -> Draft s course) ->
  let s' := exec (processNextJob env) s in
  let percents := map fst (progressWrites (job_id job) (newUpdates s s')) in
  nondecreasing percents
  /\ forall j', jobOf (job_id job) s' = Some j' -> job_status j' = succeeded ->
                last percents 0 = 100 /\ job_progressPercent j' = 100.
Proof.
  intros Hnd Hj HC HD s' percents.
  assert (percents = runPercents env s job) as Hp by now apply run_percents.
  destruct (run_progress env s job Hnd Hj) as [Hlog (j & Hrow & Hst & Hshown)].
  fold s' in Hlog, Hrow. split.
  - rewrite Hp. unfold runPercents.
    destruct (String.eqb (job_type job) "GENERATE_COURSE");
      [| simpl; lia].
    destruct (courseOfJob (job_id job) s) as [course |]; [| exact I].
    destruct (retried env course s), (runReturns env s job);
      simpl; repeat split; lia.
  - intros j' Hrow' Hsucc. rewrite Hrow in Hrow'. inversion Hrow'; subst j'.
    destruct (runReturns env s job) eqn:Hret;
      [| rewrite Hst in Hsucc; discriminate].
    split.
    + subst percents. rewrite Hlog, !map_app. cbn [map fst].
      rewrite app_assoc, last_last. reflexivity.
    + rewrite last_last in Hshown. now inversion Hshown.
Qed.

(** C3: every progress value written under a "Stage k" label lies in the
    range of stage k (0-20, 20-40, 40-70, 70-95, 95-100); 12 is written
    exactly when the first skeleton attempt fails; with five modules the
    values are 28, 31, 34, 37, 40 in stage 2, 50, 55, 60, 65, 70 in stage 3
    and 79, 83, 87, 91, 95 in stage 4, and each stage completes on the upper
    end of its range. *)
Theorem progress_follows_stage_ranges env s job course :
  NoDup (map job_id (jobs s)) ->
  Prisma.oldest (filter Prisma.isQueued (jobs s)) = Some job ->
  job_type job = "GENERATE_COURSE" ->
  courseOfJob (job_id job) s = Some course ->
  SkeletonContract (createLLMProvider env) ->
  Draft s course ->
  let s' := exec (processNextJob env) s in
  let ws := progressWrites (job_id job) (newUpdates s s') in
  forallb inStageRange ws = true
  /\ hd_error ws = Some (0, "Starting")
  /\ (In (12, "Stage 1: Retrying with repair") ws <-> retried env course s = true)
  /\ forall j', jobOf (job_id job) s' = Some j' ->
       match job_status j' with
       | succeeded =>
           map fst ws
           = [0; 10] ++ (if retried env course s then [12] else [])
             ++ [20; 25; 28; 31; 34; 37; 40; 40; 45; 50; 55; 60; 65; 70; 70;
                 75; 79; 83; 87; 91; 95; 95; 98; 100; 100]
           /\ In (20, "Stage 1: Complete") ws
           /\ In (40, "Stage 2: Complete") ws
           /\ In (70, "Stage 3: Complete") ws
           /\ In (95, "Stage 4: Complete") ws
           /\ In (100, "Stage 5: Complete") ws
       | _ => map fst ws = [0; 10; 12]
       end.
Proof.
  intros Hnd Hj Hty Hc HC HD s' ws.
  assert (map fst ws = runPercents env s job) as Hp.
  { apply run_percents; auto. intros c Hc'. rewrite Hc in Hc'.
    now inversion Hc'; subst. }
  destruct (run_progress env s job Hnd Hj) as [Hlog (j & Hrow & Hst & _)].
  fold s' in Hlog, Hrow. fold ws in Hlog.
  unfold runPercents in Hp. unfold runProgress, runReturns in *.
  rewrite Hty, Hc in *. cbn [String.eqb Ascii.eqb Bool.eqb] in *.
  cbv zeta in Hlog.
  destruct (skeletonOutcome env course (createLLMProvider env) (providerCalls s))
    as [sk | e] eqn:E; cbn [isOk] in *.
  - assert (List.length (savedModules course s sk) = 5%nat) as H5.
    { rewrite savedModules_length by auto.
      eapply skeletonOutcome_schema; eauto. }
    destruct (pipeline_five _ H5) as (P1 & P2 & P3 & P4 & P5 & P6 & P7).
    split; [| split; [| split]].
    + rewrite Hlog, !forallb_app, stage1_ranges, P2. reflexivity.
    + rewrite Hlog. reflexivity.
    + split.
      * intros Hin. apply (in_map fst) in Hin. rewrite Hp in Hin.
        destruct (retried env course s); [reflexivity |].
        cbn in Hin. repeat (destruct Hin as [Hin | Hin]; [discriminate |]).
        contradiction.
      * intros Hr. rewrite Hlog. apply in_or_app. right.
        apply in_or_app. left. apply in_or_app. left.
        unfold stage1Progress, skeletonProgress. unfold retried in Hr.
        destruct (skeletonCall course (createLLMProvider env) (providerCalls s));
          [discriminate | right; left; reflexivity].
    + intros j' Hrow'. rewrite Hrow in Hrow'. inversion Hrow'; subst j'.
      rewrite Hst. split; [rewrite Hp; destruct (retried env course s); reflexivity |].
      rewrite Hlog.
      repeat split; apply in_or_app; right; apply in_or_app; left;
        apply in_or_app; right; assumption.
  - pose proof (skeleton_throw_retried _ _ _ _ E) as Hr. rewrite Hr in *.
    split; [| split; [| split]].
    + rewrite Hlog, !forallb_app, stage1_ranges. reflexivity.
    + rewrite Hlog. reflexivity.
    + split; [reflexivity |]. intros _. rewrite Hlog.
      apply in_or_app. right. apply in_or_app. left. apply in_or_app. left.
      unfold stage1Progress, skeletonProgress. unfold retried in Hr.
      destruct (skeletonCall course (createLLMProvider env) (providerCalls s));
        [discriminate | right; left; reflexivity].
    + intros j' Hrow'. rewrite Hrow in Hrow'. inversion Hrow'; subst j'.
      rewrite Hst. exact Hp.
Qed.

(** ** The course tree *)

Definition modulesOf (courseId : Id) (s : Store) : list ModuleRow :=
  filter (Prisma.ofCourse courseId) (modules s).

Definition lessonsOf (moduleId : Id) (s : Store) : list Lesson :=
  filter (fun l => Nat.eqb (les_moduleId l) moduleId) (lessons s).

Definition quizzesOf (moduleId : Id) (s : Store) : list Quiz :=
  filter (fun q => Nat.eqb (quiz_moduleId q) moduleId) (quizzes s).

Definition questionsOf (quizId : Id) (s : Store) : list QuizQuestion :=
  filter (fun q => Nat.eqb (qq_quizId q) quizId) (quizQuestions s).

Definition resourcesOf (moduleId : Id) (s : Store) : list Resource :=
  filter (fun r => Nat.eqb (res_moduleId r) moduleId) (resources s).

(** Generated identifiers are fresh: no row refers to an identifier that
    has not been handed out yet. *)
Definition Fresh (s : Store) : Prop :=
  Forall (fun l => (les_moduleId l < nextId s)%nat) (lessons s)
  /\ Forall (fun q => (quiz_moduleId q < nextId s)%nat) (quizzes s)
  /\ Forall (fun q => (qq_quizId q < nextId s)%nat) (quizQuestions s)
  /\ Forall (fun r => (res_moduleId r < nextId s)%nat) (resources s).


(** *** Rows added per module *)

Lemma filter_all {A} (f : A -> bool) l :
  Forall (fun x => f x = true) l -> filter f l = l.
Proof.
  induction 1 as [| x l Hx _ IH]; simpl; [reflexivity |]. now rewrite Hx, IH.
Qed.

Lemma filter_none {A} (f : A -> bool) l :
  Forall (fun x => f x = false) l -> filter f l = [].
Proof.
  induction 1 as [| x l Hx _ IH]; simpl; [reflexivity |]. now rewrite Hx, IH.
Qed.

(** A loop that adds one chunk of rows per module. *)
Fixpoint chunkLoop {B} (chunk : nat -> ModuleRow -> list B) (k : nat)
         (ms : list ModuleRow) : list B :=
  match ms with
  | [] => []
  | m :: rest => chunk k m ++ chunkLoop chunk (S k) rest
  end.

Section Chunks.
Context {B : Type} (key : B -> nat) (chunk : nat -> ModuleRow -> list B).
Hypothesis chunk_key :
  forall k m, Forall (fun b => key b = mod_id m) (chunk k m).

Lemma chunkLoop_keys k ms :
  Forall (fun b => In (key b) (map mod_id ms)) (chunkLoop chunk k ms).
Proof.
  revert k. induction ms as [| m ms IH]; intros k; simpl; [constructor |].
  apply Forall_app. split.
  - eapply Forall_impl; [| apply chunk_key]. intros b Hb. now left.
  - eapply Forall_impl; [| apply IH]. intros b Hb. now right.
Qed.

End Chunks.

Section Content.
Variable course : Course.

Lemma lessonsLoop_chunks llm k ms :
  lessonsLoop course llm k ms = chunkLoop (lessonsFor course llm) k ms.
Proof. revert k; induction ms; intros k; simpl; [| rewrite IHms]; reflexivity. Qed.

Lemma resourcesLoop_chunks yt k ms :
  resourcesLoop course yt k ms = chunkLoop (resourcesFor course yt) k ms.
Proof. revert k; induction ms; intros k; simpl; [| rewrite IHms]; reflexivity. Qed.

Lemma lessonsFor_key llm k m :
  Forall (fun l => les_moduleId l = mod_id m) (lessonsFor course llm k m).
Proof.
  unfold lessonsFor. destruct (lessonsCall course llm m k).
  - apply Forall_map, Forall_forall. reflexivity.
  - repeat constructor.
Qed.


Lemma mapFrom_Forall {A C} (P : C -> Prop) (f : nat -> A -> C) xs i :
  (forall j x, P (f j x)) -> Forall P (mapFrom i f xs).
Proof.
  intros H. revert i. induction xs; intros i; simpl; constructor; auto.
Qed.

Lemma resourcesFor_key yt k m :
  Forall (fun r => res_moduleId r = mod_id m) (resourcesFor course yt k m).
Proof.
  unfold resourcesFor. destruct (videosCall course yt m k).
  - apply mapFrom_Forall. reflexivity.
  - constructor.
Qed.

Lemma resourcesFor_length yt k m :
  YouTubeContract yt ->
  (List.length (resourcesFor course yt k m) <= 3)%nat.
Proof.
  intros HC. unfold resourcesFor, videosCall.
  destruct (searchVideos yt k _ 3) as [vs | e] eqn:E.
  - apply HC in E. rewrite mapFrom_length. lia.
  - simpl. lia.
Qed.

(** The quiz of a module and its questions. *)
Lemma quizFor_facts llm k next m :
  let q := fst (quizFor course llm k next m) in
  let qs := snd (quizFor course llm k next m) in
  quiz_id q = next /\ quiz_moduleId q = mod_id m
  /\ Forall (fun x => qq_quizId x = next) qs
  /\ quiz_totalQuestions q = Z.of_nat (List.length qs)
  /\ (QuizContract llm ->
      (5 <= List.length qs <= 15)%nat \/ List.length qs = 3%nat).
Proof.
  unfold quizFor, quizCall.
  destruct (generateQuiz llm k _ _) as [qd | e] eqn:E; cbn [fst snd].
  - repeat split; try reflexivity.
    + apply mapFrom_Forall. reflexivity.
    + cbn. now rewrite mapFrom_length.
    + intros HC. left. apply HC in E. unfold Schemas.ModuleQuizSchema in E.
      apply andb_prop in E. destruct E as [_ E].
      unfold Schemas.between, Schemas.size in E. apply andb_prop in E.
      destruct E as [E1 E2]. apply Z.leb_le in E1, E2.
      rewrite mapFrom_length. lia.
  - repeat split; try reflexivity.
    + repeat constructor.
    + intros _. now right.
Qed.

Lemma quizLoop_quizzes llm k next ms :
  Forall (fun q => In (quiz_moduleId q) (map mod_id ms))
         (map fst (quizLoop course llm k next ms)).
Proof.
  revert k next. induction ms as [| m ms IH]; intros k next; simpl;
    constructor.
  - left. symmetry. apply quizFor_facts.
  - eapply Forall_impl; [| apply IH]. intros q Hq. now right.
Qed.

Lemma quizLoop_ids llm k next ms :
  Forall (fun q => (next <= quiz_id q)%nat)
         (map fst (quizLoop course llm k next ms))
  /\ Forall (fun x => (next <= qq_quizId x)%nat)
            (List.concat (map snd (quizLoop course llm k next ms))).
Proof.
  revert k next. induction ms as [| m ms IH]; intros k next; simpl.
  - split; constructor.
  - destruct (IH (S k) (S next)) as [I1 I2].
    destruct (quizFor_facts llm k next m) as (F1 & _ & F3 & _).
    split.
    + constructor; [lia |]. eapply Forall_impl; [| exact I1].
      intros q Hq. simpl in Hq. lia.
    + apply Forall_app. split.
      * eapply Forall_impl; [| exact F3]. intros x Hx. simpl in Hx. lia.
      * eapply Forall_impl; [| exact I2]. intros x Hx. simpl in Hx. lia.
Qed.


Lemma moduleRows_ids next mods :
  map mod_id (moduleRows course next mods) = seq next (List.length mods).
Proof.
  revert next. induction mods as [| m mods IH]; intros next; simpl;
    [reflexivity |]. now rewrite IH.
Qed.

End Content.

(** *** The store after a run that obtains a skeleton *)

(** The store is ready for the dispatcher to run [job] on [course]. *)
Record Ready (s : Store) (job : Job) (course : Course) : Prop := mkReady {
  ready_unique : NoDup (map job_id (jobs s));
  ready_claimed : Prisma.oldest (filter Prisma.isQueued (jobs s)) = Some job;
  ready_type : job_type job = "GENERATE_COURSE";
  ready_course : courseOfJob (job_id job) s = Some course;
  ready_draft : Draft s course;
  ready_fresh : Fresh s
}.

Lemma run_content env s job course sk :
  Ready s job course ->
  skeletonOutcome env course (createLLMProvider env) (providerCalls s) = Ok sk ->
  let s' := exec (processNextJob env) s in
  let p := createLLMProvider env in
  let yt := createYouTubeProvider env in
  let ms := savedModules course s sk in
  let k2 := (providerCalls s + skeletonCalls course p (providerCalls s))%nat in
  let k3 := (k2 + List.length ms)%nat in
  let k4 := (k3 + List.length ms)%nat in
  let qz := quizLoop course p k3 (nextId s + List.length (sk_modules sk)) ms in
  modules s' = modules s ++ moduleRows course (nextId s) (sk_modules sk)
  /\ lessons s' = lessons s ++ lessonsLoop course p k2 ms
  /\ quizzes s' = quizzes s ++ map fst qz
  /\ quizQuestions s' = quizQuestions s ++ List.concat (map snd qz)
  /\ resources s' = resources s ++ resourcesLoop course yt k4 ms
  /\ (exists pre post,
         jobEvents s'
         = jobEvents s ++ pre
           ++ skeletonEvents (job_id job) course p (providerCalls s)
           ++ [stageEvent (job_id job) "Stage 2"
                          "Starting lesson generation for all modules"]
           ++ lessonsEvents (job_id job) course p k2 ms
           ++ [stageEvent (job_id job) "Stage 3"
                          "Starting quiz generation for all modules"]
           ++ quizEvents (job_id job) course p k3 ms
           ++ [stageEvent (job_id job) "Stage 4"
                          "Starting YouTube resource search"]
           ++ resourcesEvents (job_id job) course yt k4 ms ++ post)
  /\ option_map job_status (jobOf (job_id job) s') = Some succeeded.
Proof.
  intros [Hnd Hj Hty Hc HD HF] Hsk. cbv zeta.
  destruct (run_master env s job Hnd Hj)
    as (rE & dE & now & ws & Hexec & HPipe & _ & _ & j' & Hrow & Hst & _).
  unfold PipelinePost in HPipe. rewrite Hty, Hc in HPipe.
  cbn [String.eqb Ascii.eqb Bool.eqb] in HPipe.
  destruct HPipe as [_ HPipe]. cbv zeta in HPipe. rewrite Hsk in HPipe.
  fold (savedModules course s sk) in HPipe.
  destruct HPipe as (-> & HA & HE).
  rewrite Hrow, Hexec. cbn [option_map]. rewrite Hst. cbn [finalStatus].
  unfold extend. cbn [modules lessons quizzes quizQuestions resources jobEvents].
  cbn [finishDelta]. destruct HA as (A1 & A2 & A3 & A4 & A5 & _).
  delta_simpl. rewrite A1, A2, A3, A4, A5, HE. cbn [app].
  rewrite !app_nil_r.
  do 5 (split; [reflexivity |]). split; [| reflexivity].
  exists [stageEvent (job_id job) "Stage 1" "Starting course skeleton generation"],
         [stageEvent (job_id job) "Stage 5" "Finalizing course";
          mkJobEvent (job_id job) "Stage 5" lvl_info "Course activated"
            (Some [("courseId", JNum (Z.of_nat (course_id course)))]);
          completedEvent (job_id job)].
  repeat (progress (rewrite <- ?app_assoc; cbn [app])).
  reflexivity.
Qed.

Lemma runReturns_skeleton env s job course :
  job_type job = "GENERATE_COURSE" ->
  courseOfJob (job_id job) s = Some course ->
  runReturns env s job = true ->
  exists sk,
    skeletonOutcome env course (createLLMProvider env) (providerCalls s) = Ok sk.
Proof.
  intros Hty Hc. unfold runReturns. rewrite Hty, Hc.
  cbn [String.eqb Ascii.eqb Bool.eqb].
  destruct (skeletonOutcome env course (createLLMProvider env) (providerCalls s));
    [eauto | discriminate].
Qed.

Lemma succeeded_skeleton env s job course j' :
  Ready s job course ->
  jobOf (job_id job) (exec (processNextJob env) s) = Some j' ->
  job_status j' = succeeded ->
  exists sk,
    skeletonOutcome env course (createLLMProvider env) (providerCalls s) = Ok sk.
Proof.
  intros [Hnd Hj Hty Hc HD HF] Hrow Hsucc.
  destruct (run_progress env s job Hnd Hj) as [_ (j & Hrow' & Hst & _)].
  rewrite Hrow in Hrow'. inversion Hrow'; subst j.
  apply runReturns_skeleton with (job := job); auto.
  destruct (runReturns env s job); [reflexivity |].
  rewrite Hst in Hsucc. discriminate.
Qed.




(** *** The rows and the event of the module at a given position *)

Section ChunksAt.
Context {B : Type} (key : B -> nat) (chunk : nat -> ModuleRow -> list B).
Hypothesis chunk_key :
  forall k m, Forall (fun b => key b = mod_id m) (chunk k m).

Lemma chunkLoop_filter_nth ms k i m :
  NoDup (map mod_id ms) -> nth_error ms i = Some m ->
  filter (fun b => Nat.eqb (key b) (mod_id m)) (chunkLoop chunk k ms)
  = chunk (k + i)%nat m.
Proof.
  revert k i. induction ms as [| m0 ms IH]; intros k i Hnd Hi.
  - destruct i; discriminate.
  - simpl in Hnd. inversion Hnd as [| ? ? Hnotin Hnd']; subst.
    simpl. rewrite filter_app. destruct i as [| i]; simpl in Hi.
    + inversion Hi; subst m0. rewrite Nat.add_0_r, filter_all, filter_none.
      * apply app_nil_r.
      * eapply Forall_impl; [| apply (chunkLoop_keys key chunk chunk_key)].
        intros b Hb. apply Nat.eqb_neq. intros E. apply Hnotin. now rewrite <- E.
      * eapply Forall_impl; [| apply chunk_key]. intros b Hb.
        now apply Nat.eqb_eq.
    + rewrite (IH (S k) i Hnd' Hi), filter_none.
      * simpl. f_equal. lia.
      * eapply Forall_impl; [| apply chunk_key]. intros b Hb.
        apply Nat.eqb_neq. intros E. apply Hnotin. rewrite <- Hb, E.
        apply in_map. eapply nth_error_In; eauto.
Qed.

End ChunksAt.

Lemma lessonsEvents_nth jobId course llm ms k i m :
  nth_error ms i = Some m ->
  nth_error (lessonsEvents jobId course llm k ms) i
  = Some (lessonsEvent jobId course llm (k + i) m).
Proof.
  revert k i. induction ms as [| m0 ms IH]; intros k [| i] Hi;
    try discriminate; simpl in *.
  - inversion Hi; subst. now rewrite Nat.add_0_r.
  - rewrite (IH (S k) i Hi). do 2 f_equal. lia.
Qed.

Lemma resourcesEvents_nth jobId course yt ms k i m :
  nth_error ms i = Some m ->
  nth_error (resourcesEvents jobId course yt k ms) i
  = Some (resourcesEvent jobId course yt (k + i) m).
Proof.
  revert k i. induction ms as [| m0 ms IH]; intros k [| i] Hi;
    try discriminate; simpl in *.
  - inversion Hi; subst. now rewrite Nat.add_0_r.
  - rewrite (IH (S k) i Hi). do 2 f_equal. lia.
Qed.

(** The modules of the course after a run that obtains a skeleton. *)
Lemma run_modules env s job course sk :
  Ready s job course ->
  skeletonOutcome env course (createLLMProvider env) (providerCalls s) = Ok sk ->
  let ms := savedModules course s sk in
  Permutation (modulesOf (course_id course) (exec (processNextJob env) s)) ms
  /\ NoDup (map mod_id ms)
  /\ forall m, In m ms -> (nextId s <= mod_id m)%nat.
Proof.
  intros HR Hsk ms.
  destruct (run_content env s job course sk HR Hsk) as (Hm & _).
  destruct HR as [_ _ _ _ HD _].
  assert (Permutation ms (moduleRows course (nextId s) (sk_modules sk)))
    as Hperm by now apply savedModules_perm.
  split; [| split].
  - unfold modulesOf. rewrite Hm, filter_app, HD, filter_moduleRows.
    now symmetry.
  - eapply Permutation_NoDup; [apply Permutation_map; symmetry; exact Hperm |].
    rewrite moduleRows_ids. apply seq_NoDup.
  - intros m Hin. apply (Permutation_in _ Hperm) in Hin.
    apply (in_map mod_id) in Hin. rewrite moduleRows_ids in Hin.
    apply in_seq in Hin. lia.
Qed.

(** C9: the runner asks the video provider for 3 videos per module, so
    every module of the course of a succeeded job has at most 3 resources. *)
Theorem at_most_three_resources env s job course :
  Ready s job course ->
  YouTubeContract (createYouTubeProvider env) ->
  let s' := exec (processNextJob env) s in
  forall j', jobOf (job_id job) s' = Some j' -> job_status j' = succeeded ->
  forall m, In m (modulesOf (course_id course) s') ->
    (List.length (resourcesOf (mod_id m) s') <= 3)%nat.
Proof.
  intros HR HY s' j' Hrow Hsucc m Hin.
  destruct (succeeded_skeleton env s job course j' HR Hrow Hsucc) as [sk Hsk].
  destruct (run_modules env s job course sk HR Hsk) as (Hperm & Hnd & Hids).
  destruct (run_content env s job course sk HR Hsk)
    as (_ & _ & _ & _ & Hr & _).
  fold s' in Hr, Hperm. apply (Permutation_in _ Hperm) in Hin.
  destruct (In_nth_error _ _ Hin) as [i Hi].
  unfold resourcesOf. rewrite Hr, filter_app, resourcesLoop_chunks.
  rewrite (chunkLoop_filter_nth res_moduleId
             (resourcesFor course (createYouTubeProvider env))
             (resourcesFor_key course (createYouTubeProvider env))
             _ _ i m Hnd Hi).
  rewrite filter_none.
  - apply resourcesFor_length, HY.
  - destruct HR as [_ _ _ _ _ (_ & _ & _ & Fr)].
    eapply Forall_impl; [| exact Fr]. intros l Hlt. apply Nat.eqb_neq.
    simpl in Hlt. pose proof (Hids m Hin). lia.
Qed.

(** [Math.floor(timePerDay / 4)] on the budgets the request schema allows. *)
Definition quarterOk (t : Z) : bool :=
  JsNumber.floor (JsNumber.div (JsNumber.num t) (JsNumber.num 4)) =? t / 4.

Lemma floor_quarter t :
  5 <= t <= 480 ->
  JsNumber.floor (JsNumber.div (JsNumber.num t) (JsNumber.num 4)) = t / 4.
Proof.
  intros Ht.
  assert (forallb quarterOk (map Z.of_nat (seq 5 476)) = true) as H
      by (vm_compute; reflexivity).
  rewrite forallb_forall in H. apply Z.eqb_eq. apply H.
  replace t with (Z.of_nat (Z.to_nat t)) by lia.
  apply in_map, in_seq. lia.
Qed.

(** ** Idempotent submission *)

Section IntakeFacts.

Import Submission.
Variables (z_uuid z_datetime : string -> bool).

Abbreviation submit := (Submission.submit z_uuid z_datetime).
Abbreviation step := (Submission.step z_uuid z_datetime).
Abbreviation run := (Submission.run z_uuid z_datetime).
Abbreviation valid := (Schemas.GeneratePathRequestSchema z_uuid z_datetime).

(** The rows a run of operations creates through the submissions that
    carry [key], counted in one table. *)
Fixpoint createdFor (table : Store -> nat) (key : string) (ops : list Op)
         (s : Store) : nat :=
  match ops with
  | [] => 0
  | op :: rest =>
      (match op with
       | Submit r =>
           if String.eqb (req_idempotencyKey r) key
           then table (step s op) - table s
           else 0
       | Dispatch _ => 0
       end
       + createdFor table key rest (step s op))%nat
  end.

Lemma lookupKey_app key l l' id :
  lookupKey key l = Some id -> lookupKey key (l ++ l') = Some id.
Proof.
  induction l as [| [k v] l IH]; simpl; [discriminate |].
  destruct (String.eqb k key); auto.
Qed.

Lemma lookupKey_new key l id :
  lookupKey key l = None -> lookupKey key (l ++ [(key, id)]) = Some id.
Proof.
  induction l as [| [k v] l IH]; simpl.
  - now rewrite String.eqb_refl.
  - destruct (String.eqb k key); [discriminate | auto].
Qed.

Lemma submit_existing r s id :
  valid r = true ->
  lookupKey (req_idempotencyKey r) (idempotencyKeys s) = Some id ->
  submit r s = (Ok (mkResponse id true), s).
Proof.
  intros Hv Hk. unfold Submission.submit, bind, reserve, ret.
  now rewrite Hv, Hk.
Qed.

Lemma submit_invalid r s :
  valid r = false -> submit r s = (Throw VALIDATION_ERROR, s).
Proof. intros Hv. unfold Submission.submit. now rewrite Hv. Qed.

Lemma submit_new r s :
  valid r = true ->
  lookupKey (req_idempotencyKey r) (idempotencyKeys s) = None ->
  let s' := exec (submit r) s in
  outcome (submit r) s = Ok (mkResponse (nextId s) false)
  /\ idempotencyKeys s' = idempotencyKeys s ++ [(req_idempotencyKey r, nextId s)]
  /\ (exists c, courses s' = courses s ++ [c])
  /\ (exists j, jobs s' = jobs s ++ [j] /\ job_id j = nextId s
                /\ job_status j = queued).
Proof.
  intros Hv Hk. unfold exec, outcome, Submission.submit, bind, reserve, ret.
  rewrite Hv, Hk. cbn. repeat split; eauto.
Qed.

Lemma step_keeps_key key id s op :
  lookupKey key (idempotencyKeys s) = Some id ->
  lookupKey key (idempotencyKeys (step s op)) = Some id.
Proof.
  intros Hk. destruct op as [r | env]; simpl.
  - destruct (valid r) eqn:Hv.
    + destruct (lookupKey (req_idempotencyKey r) (idempotencyKeys s))
        as [id' |] eqn:Hr.
      * unfold exec. now rewrite (submit_existing r s id' Hv Hr).
      * destruct (submit_new r s Hv Hr) as (_ & -> & _).
        now apply lookupKey_app.
    + unfold exec. now rewrite (submit_invalid r s Hv).
  - destruct (process_elim env s) as (d & -> & _). exact Hk.
Qed.

Lemma run_keeps_key key id ops s :
  lookupKey key (idempotencyKeys s) = Some id ->
  lookupKey key (idempotencyKeys (run ops s)) = Some id.
Proof.
  revert s. induction ops as [| op ops IH]; intros s Hk; simpl; [exact Hk |].
  apply IH. now apply step_keeps_key.
Qed.

Lemma createdFor_reserved table key id ops s :
  lookupKey key (idempotencyKeys s) = Some id ->
  createdFor table key ops s = 0%nat.
Proof.
  revert s. induction ops as [| op ops IH]; intros s Hk; [reflexivity |].
  cbn [createdFor]. rewrite (IH _ (step_keeps_key key id s op Hk)).
  destruct op as [r | env]; [| reflexivity].
  destruct (String.eqb (req_idempotencyKey r) key) eqn:E; [| reflexivity].
  apply String.eqb_eq in E. subst key. simpl.
  destruct (valid r) eqn:Hv; unfold exec.
  - rewrite (submit_existing r s id Hv Hk). simpl. lia.
  - rewrite (submit_invalid r s Hv). simpl. lia.
Qed.

Lemma createdFor_once (table : Store -> nat) key ops s :
  (forall r s, valid r = true ->
     lookupKey (req_idempotencyKey r) (idempotencyKeys s) = None ->
     table (exec (submit r) s) = S (table s)) ->
  (createdFor table key ops s <= 1)%nat.
Proof.
  intros Hone. revert s. induction ops as [| op ops IH]; intros s;
    cbn [createdFor]; [lia |].
  destruct op as [r | env]; [| apply IH].
  destruct (String.eqb (req_idempotencyKey r) key) eqn:E; [| apply IH].
  apply String.eqb_eq in E. subst key.
  destruct (valid r) eqn:Hv.
  - destruct (lookupKey (req_idempotencyKey r) (idempotencyKeys s))
      as [id |] eqn:Hk.
    + rewrite (createdFor_reserved table _ id ops);
        [| now apply step_keeps_key].
      simpl. unfold exec. rewrite (submit_existing r s id Hv Hk). simpl. lia.
    + rewrite (createdFor_reserved table _ (nextId s) ops).
      * simpl. rewrite (Hone r s Hv Hk). lia.
      * simpl. destruct (submit_new r s Hv Hk) as (_ & -> & _).
        now apply lookupKey_new.
  - specialize (IH (step s (Submit r))). simpl in *. unfold exec in *.
    rewrite (submit_invalid r s Hv) in *. simpl in *. lia.
Qed.

(** C8: of two valid submissions with the same key, whatever happens in
    between, the second one returns the job id of the first and changes
    nothing; over any run of operations the submissions with one key create
    at most one course and at most one job. *)
Theorem same_key_same_job r1 r2 mid s :
  valid r1 = true -> valid r2 = true ->
  req_idempotencyKey r1 = req_idempotencyKey r2 ->
  let s1 := exec (submit r1) s in
  let s2 := run mid s1 in
  (exists id existing,
      outcome (submit r1) s = Ok (mkResponse id existing)
      /\ outcome (submit r2) s2 = Ok (mkResponse id true)
      /\ exec (submit r2) s2 = s2)
  /\ forall ops s0,
       (createdFor (fun s => List.length (courses s)) (req_idempotencyKey r1)
                   ops s0 <= 1)%nat
       /\ (createdFor (fun s => List.length (jobs s)) (req_idempotencyKey r1)
                      ops s0 <= 1)%nat.
Proof.
  intros Hv1 Hv2 Hkey s1 s2. split.
  - assert (exists id existing,
               outcome (submit r1) s = Ok (mkResponse id existing)
               /\ lookupKey (req_idempotencyKey r1) (idempotencyKeys s1)
                  = Some id) as (id & ex & Hout & Hk).
    { destruct (lookupKey (req_idempotencyKey r1) (idempotencyKeys s))
        as [id |] eqn:Hk; subst s1.
      - exists id, true. unfold outcome, exec.
        rewrite (submit_existing r1 s id Hv1 Hk). auto.
      - exists (nextId s), false.
        destruct (submit_new r1 s Hv1 Hk) as (Hout & -> & _).
        split; [exact Hout | now apply lookupKey_new]. }
    exists id, ex. split; [exact Hout |].
    apply (run_keeps_key _ _ mid) in Hk. fold s2 in Hk. rewrite Hkey in Hk.
    unfold outcome, exec. rewrite (submit_existing r2 s2 id Hv2 Hk). auto.
  - intros ops s0. split; apply createdFor_once; intros r s' Hv Hk.
    + destruct (submit_new r s' Hv Hk) as (_ & _ & (c & ->) & _).
      rewrite length_app. simpl. lia.
    + destruct (submit_new r s' Hv Hk) as (_ & _ & _ & (j & -> & _)).
      rewrite length_app. simpl. lia.
Qed.

End IntakeFacts.

(* ================================================================== *)
(** * Worked runs *)

(** ** Providers, environments and a store with one queued job *)

Definition sampleModule (k : Z) : ModuleData :=
  mkModuleData k ("Module " +++ JsNumber.toString k) "A description of it"
               ["one"; "two"].

Definition unavailable {A} : Result A :=
  Throw (mkError (Some "LLM_PROVIDER_FAILURE") "provider unavailable" None).

(** A provider validates what it is about to return. *)
Definition validated {A} (schema : A -> bool) (a : A) : Result A :=
  if schema a then Ok a
  else Throw (mkError (Some "LLM_SCHEMA_INVALID") "invalid shape" None).

Definition sampleStep (k : Z) : LessonStep :=
  mkLessonStep k "Lesson title" learn 10 None.

Definition sampleQuestion (k : Z) : QuizQuestionData :=
  mkQuizQuestionData short "What is the question?" None "answer"
                     "Because it is so." easy [].

(** A deterministic content provider that always answers. *)
Definition mockLLM : LLMProvider :=
  mkLLMProvider
    (fun _ topic level _ =>
       validated Schemas.CourseSkeletonSchema
         (mkCourseSkeleton topic level (map sampleModule [1; 2; 3; 4; 5])))
    (fun _ _ m _ =>
       validated Schemas.ModuleLessonsSchema
         (mkModuleLessons (md_order m) (map sampleStep [1; 2; 3])))
    (fun _ _ m =>
       validated Schemas.ModuleQuizSchema
         (mkModuleQuiz (fst (fst m)) (map sampleQuestion [1; 2; 3; 4; 5]))).

(** A content provider that is down. *)
Definition downLLM : LLMProvider :=
  mkLLMProvider (fun _ _ _ _ => unavailable) (fun _ _ _ _ => unavailable)
                (fun _ _ _ => unavailable).

(** A content provider that answers for the skeleton only. *)
Definition skeletonOnlyLLM : LLMProvider :=
  mkLLMProvider (generateCourseSkeleton mockLLM)
                (fun _ _ _ _ => unavailable) (fun _ _ _ => unavailable).

Definition sampleVideo (query : string) (k : Z) : Video :=
  mkVideo query "https://youtube.com/watch?v=mock" None None None None.

Definition mockYouTube : YouTubeProvider :=
  mkYouTubeProvider
    (fun _ query maxResults =>
       if maxResults <? 0 then unavailable
       else Ok (firstn (Z.to_nat maxResults)
                       (map (sampleVideo query) [1; 2; 3; 4; 5]))).

Definition downYouTube : YouTubeProvider :=
  mkYouTubeProvider (fun _ _ _ => unavailable).

(** No key configured: the mocks serve. *)
Definition envMock : Env :=
  mkEnv None None downLLM mockLLM downYouTube mockYouTube.

(** Keys configured, both services down. *)
Definition envDown : Env :=
  mkEnv (Some "sk-live") (Some "yt-live") downLLM mockLLM downYouTube mockYouTube.

(** Keys configured, the content service answers for the skeleton only and
    the video service is down. *)
Definition envDegraded : Env :=
  mkEnv (Some "sk-live") (Some "yt-live") skeletonOnlyLLM mockLLM
        downYouTube mockYouTube.

Definition draftCourse : Course :=
  mkCourse 0%nat "Docker Containers" "beginner" 20 "draft".

Definition queuedJob : Job :=
  mkJob 1%nat "GENERATE_COURSE" queued 0 None None None (Some 0%nat) 0 0.

Definition store0 : Store :=
  mkStore [queuedJob] [draftCourse] [] [] [] [] [] [] [] 2%nat 1 0%nat [].

(** The row of a job after a run of the dispatcher. *)
Definition rowAfter (env : Env) (s : Store) (id : Id) : Job :=
  match jobOf id (exec (processNextJob env) s) with
  | Some j => j
  | None => queuedJob
  end.

Lemma validated_ok {A} (schema : A -> bool) a b :
  validated schema a = Ok b -> schema b = true.
Proof.
  unfold validated. destruct (schema a) eqn:E; [| discriminate].
  intros H. inversion H; subst. exact E.
Qed.

Lemma mockLLM_contract : LLMContract mockLLM.
Proof.
  repeat split.
  - intros k topic level t sk H. exact (validated_ok _ _ _ H).
  - intros k topic m t ls H. exact (validated_ok _ _ _ H).
  - intros k topic m qz H. exact (validated_ok _ _ _ H).
Qed.

Lemma skeletonOnlyLLM_contract : LLMContract skeletonOnlyLLM.
Proof.
  repeat split.
  - intros k topic level t sk H. exact (validated_ok _ _ _ H).
  - intros k topic m t ls H. discriminate.
  - intros k topic m qz H. discriminate.
Qed.

Lemma mockYouTube_contract : YouTubeContract mockYouTube.
Proof.
  intros k q n vs H. cbn in H. destruct (n <? 0) eqn:E; [discriminate |].
  apply Z.ltb_ge in E. inversion H; subst.
  rewrite length_firstn. lia.
Qed.


Lemma store0_ready : Ready store0 queuedJob draftCourse.
Proof.
  split; try reflexivity.
  - repeat constructor. intros [].
  - repeat split; constructor.
Qed.

(** ** Stage 1 with the configured provider down *)

(** C2: with a key configured and the content service down, the third
    attempt of stage 1 asks the configured provider again, not the mock:
    the job fails after three provider calls, with the two warn events of
    the retry and of the fallback, although the mock provider answers the
    same request. *)
Theorem fallback_attempt_asks_configured_provider_again :
  let s' := exec (processNextJob envDown) store0 in
  isOk (generateCourseSkeleton (MockLLMProvider envDown) 2
          (course_topic draftCourse) (course_level draftCourse)
          (course_timePerDay draftCourse)) = true
  /\ option_map job_status (jobOf 1%nat s') = Some failed
  /\ option_map job_errorCode (jobOf 1%nat s')
     = Some (Some "LLM_PROVIDER_FAILURE")
  /\ providerCalls s' = 3%nat
  /\ map ev_message
         (filter (fun e => EventLevel_eqb (ev_level e) lvl_warn) (jobEvents s'))
     = ["LLM failed, attempting repair"; "Using fallback generator"]
  /\ modules s' = [].
Proof. vm_compute. repeat split. Qed.

(** ** A run that degrades to the fallback content *)



(** ** The theorems at work *)

Definition sampleSkeleton : CourseSkeleton :=
  mkCourseSkeleton "Docker Containers" "beginner"
                   (map sampleModule [1; 2; 3; 4; 5]).

Lemma store0_unique : NoDup (map job_id (jobs store0)).
Proof. repeat constructor. intros []. Qed.


Definition firstModule : ModuleRow :=
  mkModule 2%nat 0%nat 1 "Module 1" "A description of it" ["one"; "two"].

Lemma at_most_three_resources_witness :
  (List.length (resourcesOf (mod_id firstModule)
                            (exec (processNextJob envMock) store0)) <= 3)%nat.
Proof.
  apply (at_most_three_resources envMock store0 queuedJob draftCourse
           store0_ready mockYouTube_contract
           (rowAfter envMock store0 1%nat)).
  - vm_compute. reflexivity.
  - vm_compute. reflexivity.
  - vm_compute. left. reflexivity.
Defined.

Lemma progress_follows_stage_ranges_witness :
  forallb inStageRange
    (progressWrites (job_id queuedJob)
       (newUpdates store0 (exec (processNextJob envDegraded) store0))) = true.
Proof.
  exact (proj1 (progress_follows_stage_ranges envDegraded store0 queuedJob
                  draftCourse store0_unique eq_refl eq_refl eq_refl
                  (proj1 skeletonOnlyLLM_contract) eq_refl)).
Defined.

Lemma store0_draft :
  forall course, courseOfJob (job_id queuedJob) store0 = Some course ->
                 Draft store0 course.
Proof. intros course H. reflexivity. Qed.

Lemma progress_never_decreases_witness :
  nondecreasing
    (map fst (progressWrites (job_id queuedJob)
                (newUpdates store0 (exec (processNextJob envMock) store0)))).
Proof.
  exact (proj1 (progress_never_decreases envMock store0 queuedJob store0_unique
                  eq_refl (proj1 mockLLM_contract) store0_draft)).
Defined.

Lemma downRun_row :
  jobOf (job_id queuedJob) (exec (processNextJob envDown) store0)
  = Some (rowAfter envDown store0 1%nat).
Proof. vm_compute. reflexivity. Qed.

Lemma failed_job_keeps_progress_witness :
  exists ws,
    progressWrites (job_id queuedJob)
      (newUpdates store0 (exec (processNextJob envDown) store0))
    = (0, "Starting") :: ws
    /\ (job_progressPercent (rowAfter envDown store0 1%nat),
        job_currentStage (rowAfter envDown store0 1%nat))
       = shown (last ws (0, "Starting")).
Proof.
  assert (job_status (rowAfter envDown store0 1%nat) = failed) as Hfailed
      by (vm_compute; reflexivity).
  destruct (failed_job_keeps_progress envDown store0 queuedJob store0_unique
              eq_refl (rowAfter envDown store0 1%nat) downRun_row Hfailed)
    as (before & usP & ws & code & msg & now & _ & Hws & _ & _ & Hshown).
  exists ws. split; assumption.
Defined.

Lemma degradedRun_skeleton :
  skeletonOutcome envDegraded draftCourse (createLLMProvider envDegraded)
                  (providerCalls store0) = Ok sampleSkeleton.
Proof. vm_compute. reflexivity. Qed.

Lemma draftCourse_budget : 5 <= course_timePerDay draftCourse <= 480.
Proof. cbn. lia. Qed.

Lemma degradedRun_first :
  nth_error (savedModules draftCourse store0 sampleSkeleton) 0
  = Some firstModule.
Proof. vm_compute. reflexivity. Qed.

Definition unavailableError : JsError :=
  mkError (Some "LLM_PROVIDER_FAILURE") "provider unavailable" None.

(** Two submissions with one key, and a run of the dispatcher in between. *)
Definition uuidShape (s : string) : bool := Nat.eqb (String.length s) 36.

Definition firstRequest : GeneratePathRequest :=
  mkRequest "Docker Containers" (Some "beginner") (Some 20) None None
            "2f1c7f0a-5b0e-4c57-9a3d-6e1b8f4c2d10".

Definition secondRequest : GeneratePathRequest :=
  mkRequest "Docker Containers" None None None None
            "2f1c7f0a-5b0e-4c57-9a3d-6e1b8f4c2d10".

Lemma same_key_same_job_witness :
  let submit := Submission.submit uuidShape (fun _ => true) in
  let s1 := exec (submit firstRequest) emptyStore in
  let s2 := Submission.run uuidShape (fun _ => true)
                           [Submission.Dispatch envMock] s1 in
  exists id existing,
    outcome (submit firstRequest) emptyStore
    = Ok (Submission.mkResponse id existing)
    /\ outcome (submit secondRequest) s2 = Ok (Submission.mkResponse id true)
    /\ exec (submit secondRequest) s2 = s2.
Proof.
  exact (proj1 (same_key_same_job uuidShape (fun _ => true) firstRequest
                  secondRequest [Submission.Dispatch envMock] emptyStore
                  eq_refl eq_refl eq_refl)).
Defined.

(* ================================================================== *)
(** * Further properties of the runner *)

(** ** The polling loop ([poll] in [src/lib/job-runner.ts]) *)



(** ** What a run leaves alone *)

Lemma applyUpdates_id us j : job_id (applyUpdates us j) = job_id j.
Proof.
  unfold applyUpdates. revert j.
  induction us as [| u us IH]; intros j; simpl; [reflexivity |].
  now rewrite IH, updateRow_id.
Qed.

Lemma replay_map us l : replay us l = map (applyUpdates us) l.
Proof.
  unfold replay, applyUpdates. revert l.
  induction us as [| u us IH]; intros l; simpl.
  - now rewrite map_id.
  - rewrite IH, map_map. reflexivity.
Qed.

Lemma replay_ids us l : map job_id (replay us l) = map job_id l.
Proof.
  rewrite replay_map, map_map. apply map_ext. intros j. apply applyUpdates_id.
Qed.


(** The updates of a run go to the job it claims. *)
Lemma run_targets env s d job :
  ProcessPost env s (outcome (processNextJob env) s) d ->
  Prisma.oldest (filter Prisma.isQueued (jobs s)) = Some job ->
  Forall (fun u => fst u = job_id job) (dUpdates d).
Proof.
  intros HP Hj.
  destruct (ProcessPost_updates _ _ _ _ _ HP Hj)
    as (ws & fin & (usP & -> & HusP) & _).
  constructor; [reflexivity |]. apply Forall_app. split.
  - eapply Progresses_targets; eauto.
  - constructor; [reflexivity | constructor].
Qed.

(** X1: a run of the dispatcher appends to the content tables and to the
    event log and does nothing else to them: no row is deleted, changed or
    moved; the job table keeps its rows' identifiers, in order; the key
    registry is not touched. *)
Theorem run_only_appends env s :
  let s' := exec (processNextJob env) s in
  (exists ms, modules s' = modules s ++ ms)
  /\ (exists ls, lessons s' = lessons s ++ ls)
  /\ (exists qs, quizzes s' = quizzes s ++ qs)
  /\ (exists qqs, quizQuestions s' = quizQuestions s ++ qqs)
  /\ (exists rs, resources s' = resources s ++ rs)
  /\ (exists es, jobEvents s' = jobEvents s ++ es)
  /\ map job_id (jobs s') = map job_id (jobs s)
  /\ map course_id (courses s') = map course_id (courses s)
  /\ idempotencyKeys s' = idempotencyKeys s.
Proof.
  intros s'. subst s'. destruct (process_elim env s) as (d & -> & _).
  cbn [extend modules lessons quizzes quizQuestions resources jobEvents
       idempotencyKeys courses jobs].
  do 6 (split; [eauto |]). split; [apply replay_ids |]. split; [| reflexivity].
  unfold replayCourses. generalize (courses s).
  induction (dCourses d) as [| u us IH]; intros l; simpl; [reflexivity |].
  rewrite IH, map_map. apply map_ext. intros c.
  unfold Prisma.setCourseStatus. destruct (Nat.eqb (course_id c) (fst u));
    reflexivity.
Qed.

Lemma unclaimed_row env s job j :
  NoDup (map job_id (jobs s)) ->
  Prisma.oldest (filter Prisma.isQueued (jobs s)) = Some job ->
  In j (jobs s) -> j <> job ->
  jobOf (job_id j) (exec (processNextJob env) s) = Some j.
Proof.
  intros Hnd Hj Hin Hne.
  destruct (process_elim env s) as (d & -> & HP).
  rewrite jobOf_extend. unfold jobOf. rewrite (findJob_In _ _ Hnd Hin). simpl.
  f_equal. apply applyUpdates_other with (id := job_id job).
  - eapply run_targets; eauto.
  - intros E. apply Hne.
    destruct (claimed_queued _ _ Hj) as [Hjin _].
    assert (Prisma.findJob (job_id j) (jobs s) = Some job) as H1.
    { rewrite E. now apply findJob_In. }
    rewrite (findJob_In _ _ Hnd Hin) in H1. now inversion H1.
Qed.

(** X2: a run changes the row of the job it claims and no other: every
    other job, queued, running or terminal, keeps its row. *)
Theorem other_jobs_keep_their_rows env s job j :
  NoDup (map job_id (jobs s)) ->
  Prisma.oldest (filter Prisma.isQueued (jobs s)) = Some job ->
  In j (jobs s) -> j <> job ->
  jobOf (job_id j) (exec (processNextJob env) s) = Some j.
Proof. apply unclaimed_row. Qed.

(** ** First in, first out *)

Lemma oldest_min l j :
  Prisma.oldest l = Some j ->
  forall k, In k l -> job_createdAt j <= job_createdAt k.
Proof.
  revert j. induction l as [| x l IH]; simpl; intros j H k Hk; [contradiction |].
  destruct (Prisma.oldest l) as [m |] eqn:E.
  - specialize (IH m eq_refl).
    destruct (job_createdAt x <=? job_createdAt m) eqn:C;
      inversion H; subst; destruct Hk as [<- | Hk].
    + lia.
    + apply Z.leb_le in C. specialize (IH k Hk). lia.
    + apply Z.leb_gt in C. lia.
    + now apply IH.
  - inversion H; subst. destruct l; [| simpl in E; destruct (Prisma.oldest l);
      [destruct (_ <=? _) |]; discriminate].
    destruct Hk as [<- | []]. lia.
Qed.

Lemma oldest_some l j : In j l -> exists k, Prisma.oldest l = Some k.
Proof.
  destruct l as [| x l]; [contradiction |]. intros _. simpl.
  destruct (Prisma.oldest l) as [m |]; [| eauto].
  destruct (job_createdAt x <=? job_createdAt m); eauto.
Qed.

Lemma isQueued_true j : Prisma.isQueued j = true <-> job_status j = queued.
Proof. unfold Prisma.isQueued. destruct (job_status j); simpl; split; congruence. Qed.

(** X3: when some job is queued, the run claims a queued job that was
    created no later than any other queued job, and every write of the run
    to the job table is to that job. *)
Theorem oldest_queued_job_is_claimed env s j :
  NoDup (map job_id (jobs s)) ->
  In j (jobs s) -> job_status j = queued ->
  let s' := exec (processNextJob env) s in
  exists job,
    In job (jobs s) /\ job_status job = queued
    /\ job_createdAt job <= job_createdAt j
    /\ hd_error (statusWrites (newUpdates s s')) = Some (job_id job, running)
    /\ Forall (fun u => fst u = job_id job) (newUpdates s s').
Proof.
  intros Hnd Hin Hq s'.
  assert (In j (filter Prisma.isQueued (jobs s))) as Hf
      by (apply filter_In; split; [exact Hin | now apply isQueued_true]).
  destruct (oldest_some _ _ Hf) as [job Hj].
  exists job. destruct (claimed_queued _ _ Hj) as [Hjin Hjq].
  split; [exact Hjin |]. split; [exact Hjq |].
  split; [exact (oldest_min _ _ Hj j Hf) |].
  subst s'. destruct (process_elim env s) as (d & -> & HP).
  rewrite newUpdates_extend. split; [| eapply run_targets; eauto].
  destruct (ProcessPost_updates _ _ _ _ _ HP Hj)
    as (ws & fin & (usP & -> & HusP) & _).
  reflexivity.
Qed.

(** ** Draining the queue *)














(** ** Provider calls of a run *)

(** The provider calls of the pipeline: the attempts of stage 1 and, once
    there is a skeleton, one call per module in each of the stages 2, 3
    and 4. *)
Definition stagesCalls (env : Env) (course : Course) (s : Store) : nat :=
  let p := createLLMProvider env in
  (skeletonCalls course p (providerCalls s)
   + match skeletonOutcome env course p (providerCalls s) with
     | Ok sk => 3 * List.length (savedModules course s sk)
     | Throw _ => 0
     end)%nat.

Lemma sat_runStages_calls env jobId course s :
  sat (runStages env jobId course) s
      (fun _ d => dCalls d = stagesCalls env course s).
Proof.
  unfold runStages, stagesCalls. cbv zeta.
  wp. apply sat_generateSkeleton. intros dSk HdSk HpSk HeSk HcSk.
  revert HpSk HeSk HcSk. norm_calls. intros HpSk HeSk HcSk.
  destruct (skeletonOutcome env course (createLLMProvider env) (providerCalls s))
    as [sk | e] eqn:E.
  - wp. apply sat_saveModules. intros dMods HdMods HuMods HeMods HcMods.
    revert HdMods. repeat rewrite nextId_extend. dsimp. intros HdMods.
    wp. repeat rewrite modules_extend. dsimp.
    fold (savedModules course s sk).
    set (ms := savedModules course s sk).
    wp. apply sat_lessonsLoop. intros dLes HdLes HcLes HeLes HpLes.
    wp. apply sat_quizLoop. intros dQz HdQz HcQz HeQz HpQz.
    wp. apply sat_resourcesLoop. intros dRes HdRes HcRes HeRes HpRes.
    wp. dsimp. lia.
  - wp. dsimp. lia.
Qed.

Lemma stagesCalls_claim env course s id x :
  stagesCalls env course (extend s (dUpdate id x)) = stagesCalls env course s.
Proof.
  unfold stagesCalls, savedModules.
  rewrite providerCalls_extend, nextId_extend, modules_extend.
  cbn [dCalls dIds dModules dUpdate]. now rewrite app_nil_r, !Nat.add_0_r.
Qed.

(** The provider calls of a run of the dispatcher that claims [job]. *)
Definition runCalls (env : Env) (s : Store) (job : Job) : nat :=
  if String.eqb (job_type job) "GENERATE_COURSE" then
    match courseOfJob (job_id job) s with
    | Some course => stagesCalls env course s
    | None => 0
    end
  else 0.

Lemma sat_executeGenerateCourse_calls env jobId s :
  sat (executeGenerateCourse env jobId) s
      (fun _ d => dCalls d = match courseOfJob jobId s with
                             | Some course => stagesCalls env course s
                             | None => 0%nat
                             end).
Proof.
  unfold executeGenerateCourse, courseOfJob, jobOf.
  apply sat_bind.
  eapply sat_of_runs.
  { unfold runs, Prisma.job_findUnique. rewrite extend_dzero. reflexivity. }
  cbv beta iota. rewrite extend_dzero.
  destruct (Prisma.findJob jobId (jobs s)) as [j |].
  - destruct (job_courseId j) as [c |].
    + destruct (Prisma.findCourse c (courses s)) as [course |].
      * eapply sat_mono; [apply sat_runStages_calls |].
        intros r d H. rewrite dplus_dzero_l. exact H.
      * wp. reflexivity.
    + wp. reflexivity.
  - wp. reflexivity.
Qed.

Lemma run_calls env s job :
  NoDup (map job_id (jobs s)) ->
  Prisma.oldest (filter Prisma.isQueued (jobs s)) = Some job ->
  providerCalls (exec (processNextJob env) s)
  = (providerCalls s + runCalls env s job)%nat.
Proof.
  intros Hnd Hj.
  destruct (claimed_queued _ _ Hj) as [Hin _].
  pose proof (findJob_In _ _ Hnd Hin) as Hfind.
  fold (jobOf (job_id job) s) in Hfind.
  assert (sat (processNextJob env) s
              (fun _ d => dCalls d = runCalls env s job)) as H.
  { unfold processNextJob, runCalls. wp. rewrite extend_dzero, Hj. wp.
    destruct (String.eqb (job_type job) "GENERATE_COURSE").
    - eapply sat_mono; [apply sat_executeGenerateCourse_calls |].
      intros rE dE HE. rewrite (courseOfJob_claim _ _ Hfind) in HE.
      assert (dCalls dE = match courseOfJob (job_id job) s with
                          | Some course => stagesCalls env course s
                          | None => 0%nat
                          end) as HE'.
      { rewrite HE. destruct (courseOfJob (job_id job) s); [| reflexivity].
        apply stagesCalls_claim. }
      destruct rE as [[] | error]; wp; dsimp; lia.
    - wp. dsimp. reflexivity. }
  apply sat_elim in H. destruct H as (d & -> & Hd).
  now rewrite providerCalls_extend, Hd.
Qed.

(** ** The store after a run *)

Definition finalEvent (id : Id) (r : Result unit) : JobEvent :=
  match r with
  | Ok _ => completedEvent id
  | Throw error => failedEvent id error
  end.

Definition finalData (r : Result unit) (now : Z) : JobData :=
  match r with
  | Ok _ => markSucceeded now
  | Throw error => markFailed (failedCode error) (failedMessage error) now
  end.

(** The tables after a run that claims [job], by the result [rE] and the
    additions [dE] of the pipeline. *)
Lemma run_tables env s job :
  NoDup (map job_id (jobs s)) ->
  Prisma.oldest (filter Prisma.isQueued (jobs s)) = Some job ->
  let s' := exec (processNextJob env) s in
  exists rE dE now usP ws,
    PipelinePost env s job rE dE
    /\ dUpdates dE = usP /\ Progresses (job_id job) usP ws
    /\ jobOf (job_id job) s'
       = Some (applyData (finalData rE now)
                 (applyUpdates usP (applyData markRunning job)))
    /\ modules s' = modules s ++ dModules dE
    /\ lessons s' = lessons s ++ dLessons dE
    /\ quizzes s' = quizzes s ++ dQuizzes dE
    /\ quizQuestions s' = quizQuestions s ++ dQuestions dE
    /\ resources s' = resources s ++ dResources dE
    /\ courses s' = replayCourses (dCourses dE) (courses s)
    /\ jobEvents s'
       = jobEvents s ++ dEvents dE ++ [finalEvent (job_id job) rE].
Proof.
  intros Hnd Hj s'. subst s'.
  destruct (claimed_queued _ _ Hj) as [Hin _].
  destruct (run_master env s job Hnd Hj)
    as (rE & dE & now & ws & Hexec & HPipe & Hws & _).
  exists rE, dE, now, (dUpdates dE), ws. rewrite Hexec.
  split; [exact HPipe |]. split; [reflexivity |]. split; [exact Hws |].
  split.
  { rewrite jobOf_extend. unfold jobOf. rewrite (findJob_In _ _ Hnd Hin).
    cbn [option_map]. f_equal.
    rewrite <- (applyUpdates_run job (dUpdates dE) ws (finalData rE now) Hws).
    f_equal. destruct rE as [[] | error]; cbn [finishDelta finalData];
      delta_simpl; cbn [app]; rewrite ?app_nil_r; reflexivity. }
  cbn [extend modules lessons quizzes quizQuestions resources courses jobEvents].
  destruct rE as [[] | error]; cbn [finishDelta finalEvent]; delta_simpl;
    cbn [app]; rewrite ?app_nil_r; repeat split; reflexivity.
Qed.

(** ** Jobs the pipeline does not run *)

(** X5: a job of a type other than GENERATE_COURSE is marked succeeded at
    100 percent at once: no provider is called, nothing is added to the
    course tables, and the only event is the completion event. *)
Theorem other_job_types_succeed_without_work env s job :
  NoDup (map job_id (jobs s)) ->
  Prisma.oldest (filter Prisma.isQueued (jobs s)) = Some job ->
  job_type job <> "GENERATE_COURSE" ->
  let s' := exec (processNextJob env) s in
  (exists now,
      jobOf (job_id job) s'
      = Some (mkJob (job_id job) (job_type job) succeeded 100 (Some "Completed")
                    (job_errorCode job) (job_errorMessage job)
                    (job_courseId job) (job_createdAt job) now))
  /\ jobEvents s' = jobEvents s ++ [completedEvent (job_id job)]
  /\ providerCalls s' = providerCalls s
  /\ modules s' = modules s /\ lessons s' = lessons s
  /\ quizzes s' = quizzes s /\ quizQuestions s' = quizQuestions s
  /\ resources s' = resources s /\ courses s' = courses s.
Proof.
  intros Hnd Hj Hty s'.
  pose proof (run_calls env s job Hnd Hj) as Hcalls.
  destruct (run_tables env s job Hnd Hj)
    as (rE & dE & now & usP & ws & HPipe & Hus & _ & Hrow & Hm & Hl & Hq & Hqq
        & Hr & Hc & He).
  fold s' in Hcalls, Hrow, Hm, Hl, Hq, Hqq, Hr, Hc, He.
  unfold PipelinePost in HPipe. unfold runCalls in Hcalls.
  apply String.eqb_neq in Hty. rewrite Hty in HPipe, Hcalls.
  destruct HPipe as [-> ->]. subst usP.
  cbn [dzero dModules dLessons dQuizzes dQuestions dResources dCourses dEvents
       dUpdates replayCourses fold_left] in *.
  rewrite app_nil_r in Hm, Hl, Hq, Hqq, Hr. rewrite Nat.add_0_r in Hcalls.
  split; [exists now; exact Hrow |]. repeat split; assumption.
Qed.

(** X6: a GENERATE_COURSE job whose course cannot be read (the job has no
    course, or the course row is gone) fails with code JOB_RUNNER_FAILURE
    and message "Job or course not found", at 0 percent in stage
    "Starting": no provider is called and nothing is created. *)
Theorem job_without_course_fails env s job :
  NoDup (map job_id (jobs s)) ->
  Prisma.oldest (filter Prisma.isQueued (jobs s)) = Some job ->
  job_type job = "GENERATE_COURSE" ->
  courseOfJob (job_id job) s = None ->
  let s' := exec (processNextJob env) s in
  (exists now,
      jobOf (job_id job) s'
      = Some (mkJob (job_id job) (job_type job) failed 0 (Some "Starting")
                    (Some "JOB_RUNNER_FAILURE") (Some "Job or course not found")
                    (job_courseId job) (job_createdAt job) now))
  /\ (exists data,
        jobEvents s'
        = jobEvents s
          ++ [mkJobEvent (job_id job) "Failed" lvl_error
                         "Job or course not found" data])
  /\ providerCalls s' = providerCalls s
  /\ modules s' = modules s /\ lessons s' = lessons s
  /\ quizzes s' = quizzes s /\ quizQuestions s' = quizQuestions s
  /\ resources s' = resources s /\ courses s' = courses s.
Proof.
  intros Hnd Hj Hty Hcourse s'.
  pose proof (run_calls env s job Hnd Hj) as Hcalls.
  destruct (run_tables env s job Hnd Hj)
    as (rE & dE & now & usP & ws & HPipe & Hus & _ & Hrow & Hm & Hl & Hq & Hqq
        & Hr & Hc & He).
  fold s' in Hcalls, Hrow, Hm, Hl, Hq, Hqq, Hr, Hc, He.
  unfold PipelinePost in HPipe. unfold runCalls in Hcalls.
  rewrite Hty, Hcourse in HPipe, Hcalls. cbn [String.eqb Ascii.eqb Bool.eqb] in *.
  destruct HPipe as [-> ->]. subst usP.
  cbn [dzero dModules dLessons dQuizzes dQuestions dResources dCourses dEvents
       dUpdates replayCourses fold_left] in *.
  rewrite app_nil_r in Hm, Hl, Hq, Hqq, Hr. rewrite Nat.add_0_r in Hcalls.
  split; [exists now; exact Hrow |]. split; [eexists; exact He |].
  repeat split; assumption.
Qed.

(** ** Runs of the pipeline *)

Lemma replayCourses_one id status l :
  replayCourses [(id, status)] l = map (Prisma.setCourseStatus id status) l.
Proof. reflexivity. Qed.

(** X7: when all three skeleton attempts throw an error object, the job
    fails clean: the row carries the code and message of the third error
    (JOB_RUNNER_FAILURE and "Unknown error" when the error has none),
    exactly three provider calls were made, no module, lesson, quiz,
    question or resource was created and the courses are as they were. *)
Theorem exhausted_skeleton_attempts_fail_clean env s job course e1 e2 e3 :
  NoDup (map job_id (jobs s)) ->
  Prisma.oldest (filter Prisma.isQueued (jobs s)) = Some job ->
  job_type job = "GENERATE_COURSE" ->
  courseOfJob (job_id job) s = Some course ->
  let p := createLLMProvider env in
  let k := providerCalls s in
  skeletonCall course p k = Throw e1 ->
  skeletonCall course p (S k) = Throw e2 ->
  skeletonCall course p (S (S k)) = Throw e3 ->
  let s' := exec (processNextJob env) s in
  (exists j',
      jobOf (job_id job) s' = Some j'
      /\ job_status j' = failed
      /\ job_errorCode j'
         = Some (orDefault (err_code e3) "JOB_RUNNER_FAILURE")
      /\ job_errorMessage j'
         = Some (orDefault (Some (err_message e3)) "Unknown error"))
  /\ providerCalls s' = (k + 3)%nat
  /\ modules s' = modules s /\ lessons s' = lessons s
  /\ quizzes s' = quizzes s /\ quizQuestions s' = quizQuestions s
  /\ resources s' = resources s /\ courses s' = courses s.
Proof.
  intros Hnd Hj Hty Hcourse p k E1 E2 E3 s'.
  pose proof (run_calls env s job Hnd Hj) as Hcalls.
  destruct (run_tables env s job Hnd Hj)
    as (rE & dE & now & usP & ws & HPipe & Hus & Hws & Hrow & Hm & Hl & Hq & Hqq
        & Hr & Hc & He).
  fold s' in Hcalls, Hrow, Hm, Hl, Hq, Hqq, Hr, Hc, He.
  unfold PipelinePost in HPipe. unfold runCalls, stagesCalls in Hcalls.
  rewrite Hty, Hcourse in HPipe, Hcalls.
  cbn [String.eqb Ascii.eqb Bool.eqb] in HPipe, Hcalls.
  destruct HPipe as [_ HPipe]. cbv zeta in HPipe, Hcalls.
  fold p k in HPipe, Hcalls.
  assert (skeletonOutcome env course p k = Throw e3) as E.
  { unfold skeletonOutcome. fold p. rewrite E1, E2. exact E3. }
  rewrite E in HPipe, Hcalls.
  destruct HPipe as (-> & HA & _).
  destruct HA as (A1 & A2 & A3 & A4 & A5 & A6 & _).
  rewrite A1 in Hm. rewrite A2 in Hl. rewrite A3 in Hq. rewrite A4 in Hqq.
  rewrite A5 in Hr. rewrite A6 in Hc. rewrite app_nil_r in Hm, Hl, Hq, Hqq, Hr.
  unfold skeletonCalls in Hcalls. rewrite E1, E2 in Hcalls.
  rewrite Nat.add_0_r in Hcalls.
  split.
  - eexists. split; [exact Hrow |]. repeat split.
  - repeat split; assumption.
Qed.

(** X8: a GENERATE_COURSE job that succeeds sets the status of its course
    to "active", keeps the other columns of that course and leaves every
    other course alone. *)
Theorem succeeded_run_activates_the_course env s job course j' :
  NoDup (map job_id (jobs s)) ->
  Prisma.oldest (filter Prisma.isQueued (jobs s)) = Some job ->
  job_type job = "GENERATE_COURSE" ->
  courseOfJob (job_id job) s = Some course ->
  let s' := exec (processNextJob env) s in
  jobOf (job_id job) s' = Some j' -> job_status j' = succeeded ->
  courses s'
  = map (fun c => if Nat.eqb (course_id c) (course_id course)
                  then mkCourse (course_id c) (course_topic c) (course_level c)
                                (course_timePerDay c) "active"
                  else c)
        (courses s).
Proof.
  intros Hnd Hj Hty Hcourse s' Hrow' Hsucc.
  destruct (run_tables env s job Hnd Hj)
    as (rE & dE & now & usP & ws & HPipe & Hus & Hws & Hrow & _ & _ & _ & _
        & _ & Hc & _).
  fold s' in Hrow, Hc.
  rewrite Hrow' in Hrow. inversion Hrow as [Hj']. clear Hrow.
  unfold PipelinePost in HPipe. rewrite Hty, Hcourse in HPipe.
  cbn [String.eqb Ascii.eqb Bool.eqb] in HPipe.
  destruct HPipe as [_ HPipe]. cbv zeta in HPipe.
  destruct (skeletonOutcome env course (createLLMProvider env) (providerCalls s))
    as [sk | e] eqn:E.
  - destruct HPipe as (_ & HA & _).
    destruct HA as (_ & _ & _ & _ & _ & A6 & _).
    rewrite A6 in Hc. exact Hc.
  - destruct HPipe as (-> & _). rewrite Hj' in Hsucc. discriminate.
Qed.

(** X9: a run that succeeds makes one to three skeleton calls and then
    exactly one call per module in each of the stages 2, 3 and 4 (no call
    is retried there): with a provider that returns five modules, between
    16 and 18 provider calls in all. *)
Theorem provider_calls_of_a_succeeded_run env s job course j' :
  Ready s job course ->
  SkeletonContract (createLLMProvider env) ->
  let s' := exec (processNextJob env) s in
  jobOf (job_id job) s' = Some j' -> job_status j' = succeeded ->
  let attempts :=
    skeletonCalls course (createLLMProvider env) (providerCalls s) in
  providerCalls s' = (providerCalls s + attempts + 3 * 5)%nat
  /\ (1 <= attempts <= 3)%nat.
Proof.
  intros [Hnd Hj Hty Hcourse HD HF] HC s' Hrow' Hsucc attempts.
  pose proof (run_calls env s job Hnd Hj) as Hcalls.
  destruct (run_tables env s job Hnd Hj)
    as (rE & dE & now & usP & ws & HPipe & Hus & Hws & Hrow & _).
  fold s' in Hcalls, Hrow.
  rewrite Hrow' in Hrow. inversion Hrow as [Hj']. clear Hrow.
  unfold PipelinePost in HPipe. unfold runCalls, stagesCalls in Hcalls.
  rewrite Hty, Hcourse in HPipe, Hcalls.
  cbn [String.eqb Ascii.eqb Bool.eqb] in HPipe, Hcalls.
  destruct HPipe as [_ HPipe]. cbv zeta in HPipe, Hcalls.
  fold attempts in Hcalls.
  destruct (skeletonOutcome env course (createLLMProvider env) (providerCalls s))
    as [sk | e] eqn:E.
  - rewrite (savedModules_length _ _ _ HD) in Hcalls.
    rewrite (skeletonOutcome_schema _ _ _ _ HC E) in Hcalls.
    split; [lia |]. unfold attempts, skeletonCalls.
    destruct (skeletonCall _ _ _); [lia |].
    destruct (skeletonCall _ _ _); lia.
  - destruct HPipe as (-> & _). rewrite Hj' in Hsucc. discriminate.
Qed.

(** ** What the stages store *)

Lemma quizLoop_filter_nth course llm ms k next i m :
  NoDup (map mod_id ms) -> nth_error ms i = Some m ->
  filter (fun q => Nat.eqb (quiz_moduleId q) (mod_id m))
         (map fst (quizLoop course llm k next ms))
  = [fst (quizFor course llm (k + i) (next + i) m)]
  /\ filter (fun x => Nat.eqb (qq_quizId x) (next + i))
            (List.concat (map snd (quizLoop course llm k next ms)))
     = snd (quizFor course llm (k + i) (next + i) m).
Proof.
  revert k next i. induction ms as [| m0 ms IH]; intros k next i Hnd Hi.
  - destruct i; discriminate.
  - simpl in Hnd. inversion Hnd as [| ? ? Hnotin Hnd']; subst.
    destruct (quizFor_facts course llm k next m0) as (F1 & F2 & F3 & _).
    cbv zeta in F1, F2, F3.
    cbn [quizLoop map List.concat].
    destruct i as [| i]; simpl in Hi.
    + inversion Hi; subst m0. rewrite !Nat.add_0_r.
      cbn [filter]. rewrite filter_app, F2, Nat.eqb_refl. split.
      * f_equal. apply filter_none.
        eapply Forall_impl; [| apply quizLoop_quizzes]. intros q Hq.
        apply Nat.eqb_neq. intros E. apply Hnotin. now rewrite <- E.
      * rewrite filter_all, filter_none.
        -- apply app_nil_r.
        -- eapply Forall_impl;
             [| apply (quizLoop_ids course llm (S k) (S next) ms)].
           intros x Hx. apply Nat.eqb_neq. simpl in Hx. lia.
        -- eapply Forall_impl; [| exact F3]. intros x Hx. now apply Nat.eqb_eq.
    + destruct (IH (S k) (S next) i Hnd' Hi) as (H1 & H2).
      replace (k + S i)%nat with (S k + i)%nat by lia.
      replace (next + S i)%nat with (S next + i)%nat by lia.
      cbn [filter]. rewrite filter_app, H1, H2.
      destruct (Nat.eqb_spec (quiz_moduleId (fst (quizFor course llm k next m0)))
                             (mod_id m)) as [E | _].
      * exfalso. apply Hnotin. rewrite <- F2, E. apply in_map.
        eapply nth_error_In; eauto.
      * split; [reflexivity |]. rewrite filter_none; [reflexivity |].
        eapply Forall_impl; [| exact F3]. intros x Hx.
        apply Nat.eqb_neq. simpl in Hx. lia.
Qed.

Lemma quizEvents_nth jobId course llm ms k i m :
  nth_error ms i = Some m ->
  nth_error (quizEvents jobId course llm k ms) i
  = Some (quizEvent jobId course llm (k + i) m).
Proof.
  revert k i. induction ms as [| m0 ms IH]; intros k [| i] Hi;
    try discriminate; simpl in *.
  - inversion Hi; subst. now rewrite Nat.add_0_r.
  - rewrite (IH (S k) i Hi). do 2 f_equal. lia.
Qed.

(** The rows of one module after a run that obtains a skeleton. *)
Lemma run_module_rows env s job course sk i m :
  Ready s job course ->
  skeletonOutcome env course (createLLMProvider env) (providerCalls s) = Ok sk ->
  let s' := exec (processNextJob env) s in
  let p := createLLMProvider env in
  let yt := createYouTubeProvider env in
  let ms := savedModules course s sk in
  let k2 := (providerCalls s + skeletonCalls course p (providerCalls s))%nat in
  let k3 := (k2 + List.length ms)%nat in
  let k4 := (k3 + List.length ms)%nat in
  let quizId := (nextId s + List.length (sk_modules sk) + i)%nat in
  nth_error ms i = Some m ->
  lessonsOf (mod_id m) s' = lessonsFor course p (k2 + i) m
  /\ quizzesOf (mod_id m) s' = [fst (quizFor course p (k3 + i) quizId m)]
  /\ questionsOf quizId s' = snd (quizFor course p (k3 + i) quizId m)
  /\ resourcesOf (mod_id m) s' = resourcesFor course yt (k4 + i) m
  /\ In (lessonsEvent (job_id job) course p (k2 + i) m) (jobEvents s')
  /\ In (quizEvent (job_id job) course p (k3 + i) m) (jobEvents s')
  /\ In (resourcesEvent (job_id job) course yt (k4 + i) m) (jobEvents s').
Proof.
  intros HR Hsk s' p yt ms k2 k3 k4 quizId Hi.
  destruct (run_modules env s job course sk HR Hsk) as (Hperm & Hnd & Hids).
  destruct (run_content env s job course sk HR Hsk)
    as (_ & Hl & Hq & Hqq & Hr & (pre & post & Hev) & _).
  fold s' p yt ms k2 k3 k4 in Hl, Hq, Hqq, Hr, Hev, Hperm, Hnd, Hids.
  pose proof (Hids m (nth_error_In _ _ Hi)) as Hid.
  destruct HR as [_ _ _ _ _ (Fl & Fq & Fqq & Fr)].
  destruct (quizLoop_filter_nth course p ms k3
              (nextId s + List.length (sk_modules sk)) i m Hnd Hi) as (Q1 & Q2).
  fold quizId in Q1, Q2.
  assert (forall A (key : A -> nat) (l : list A) (n : nat),
             Forall (fun x => (key x < nextId s)%nat) l -> (nextId s <= n)%nat ->
             filter (fun x => Nat.eqb (key x) n) l = []) as Hold.
  { intros A key l n HF Hn. apply filter_none.
    eapply Forall_impl; [| exact HF]. intros x Hx. apply Nat.eqb_neq.
    simpl in Hx. lia. }
  repeat split.
  - unfold lessonsOf. rewrite Hl, filter_app, lessonsLoop_chunks.
    rewrite (chunkLoop_filter_nth les_moduleId (lessonsFor course p)
               (lessonsFor_key course p) ms k2 i m Hnd Hi).
    now rewrite (Hold _ les_moduleId _ _ Fl Hid).
  - unfold quizzesOf. rewrite Hq, filter_app, Q1.
    now rewrite (Hold _ quiz_moduleId _ _ Fq Hid).
  - unfold questionsOf. rewrite Hqq, filter_app, Q2.
    rewrite (Hold _ qq_quizId _ quizId Fqq); [reflexivity |].
    unfold quizId. lia.
  - unfold resourcesOf. rewrite Hr, filter_app, resourcesLoop_chunks.
    rewrite (chunkLoop_filter_nth res_moduleId (resourcesFor course yt)
               (resourcesFor_key course yt) ms k4 i m Hnd Hi).
    now rewrite (Hold _ res_moduleId _ _ Fr Hid).
  - rewrite Hev, !in_app_iff. do 4 right. left.
    eapply nth_error_In. now apply lessonsEvents_nth.
  - rewrite Hev, !in_app_iff. do 6 right. left.
    eapply nth_error_In. now apply quizEvents_nth.
  - rewrite Hev, !in_app_iff. do 8 right. left.
    eapply nth_error_In. now apply resourcesEvents_nth.
Qed.

Lemma mapFrom_map {A B C} (g : B -> C) (f : nat -> A -> B) xs i :
  map g (mapFrom i f xs) = mapFrom i (fun j x => g (f j x)) xs.
Proof. revert i; induction xs as [| x xs IH]; intros i; simpl; [| rewrite IH]; reflexivity. Qed.

Lemma mapFrom_const {A C} (h : A -> C) xs i :
  mapFrom i (fun _ x => h x) xs = map h xs.
Proof. revert i; induction xs as [| x xs IH]; intros i; simpl; [| rewrite IH]; reflexivity. Qed.

Lemma mapFrom_numbers {A} (xs : list A) i :
  mapFrom i (fun j _ => Z.of_nat j + 1) xs
  = map Z.of_nat (seq (S i) (List.length xs)).
Proof.
  revert i; induction xs as [| x xs IH]; intros i; simpl; [reflexivity |].
  rewrite IH. f_equal. lia.
Qed.

(** X10: when the quiz generation of a module throws, the module gets the
    fallback quiz: one quiz of 3 questions, each a multiple-choice question
    "Question j about {module title}?" with four options and answer
    "Option A", numbered 1 to 3, and a warn event records the failure. *)
Theorem quiz_failure_gives_fallback_quiz env s job course sk :
  Ready s job course ->
  skeletonOutcome env course (createLLMProvider env) (providerCalls s) = Ok sk ->
  let s' := exec (processNextJob env) s in
  let p := createLLMProvider env in
  let ms := savedModules course s sk in
  let k3 := (providerCalls s + skeletonCalls course p (providerCalls s)
             + List.length ms)%nat in
  forall i m e,
    nth_error ms i = Some m ->
    generateQuiz p (k3 + i) (course_topic course)
                 (mod_order m, mod_title m, mod_description m) = Throw e ->
    let quizId := (nextId s + List.length (sk_modules sk) + i)%nat in
    let question j :=
      mkQuizQuestion quizId mcq
        ("Question " +++ JsNumber.toString j +++ " about " +++ mod_title m +++ "?")
        (Some ["Option A"; "Option B"; "Option C"; "Option D"])
        "Option A" "Explanation for this question." medium [] j in
    quizzesOf (mod_id m) s' = [mkQuiz quizId (mod_id m) 3]
    /\ questionsOf quizId s' = [question 1; question 2; question 3]
    /\ In (mkJobEvent (job_id job) "Stage 3" lvl_warn
             ("Module " +++ JsNumber.toString (mod_order m)
                        +++ " quiz failed, using fallback")
             (Some [("error", JStr (err_message e))]))
          (jobEvents s').
Proof.
  intros HR Hsk s' p ms k3 i m e Hi Hcall quizId question.
  destruct (run_module_rows env s job course sk i m HR Hsk Hi)
    as (_ & Hq & Hqq & _ & _ & Hev & _).
  fold s' p ms k3 quizId in Hq, Hqq, Hev.
  unfold quizFor, quizEvent in *.
  change (generateQuiz p (k3 + i) (course_topic course)
            (mod_order m, mod_title m, mod_description m))
    with (quizCall course p m (k3 + i)) in Hcall.
  rewrite Hcall in Hq, Hqq, Hev. repeat split; assumption.
Qed.

(** X22: when the lesson generation of a module throws an error object,
    the module gets exactly the four fallback lessons: orders 1 to 4, titles
    "{module title} - Part j", each a quarter of the daily budget (rounded
    down), typed learn, practice, learn, apply and without content, and a
    warn event records the failure. *)
Theorem lesson_failure_gives_fallback_lessons env s job course sk :
  Ready s job course ->
  skeletonOutcome env course (createLLMProvider env) (providerCalls s) = Ok sk ->
  5 <= course_timePerDay course <= 480 ->
  let s' := exec (processNextJob env) s in
  let p := createLLMProvider env in
  let ms := savedModules course s sk in
  let k2 := (providerCalls s + skeletonCalls course p (providerCalls s))%nat in
  forall i m e,
    nth_error ms i = Some m ->
    generateLessons p (k2 + i) (course_topic course)
      (mkModuleData (mod_order m) (mod_title m) (mod_description m)
                    (mod_outcomes m))
      (course_timePerDay course) = Throw e ->
    let minutes := course_timePerDay course / 4 in
    lessonsOf (mod_id m) s'
    = [mkLesson (mod_id m) 1 (mod_title m +++ " - Part 1") learn minutes None;
       mkLesson (mod_id m) 2 (mod_title m +++ " - Part 2") practice minutes None;
       mkLesson (mod_id m) 3 (mod_title m +++ " - Part 3") learn minutes None;
       mkLesson (mod_id m) 4 (mod_title m +++ " - Part 4") apply_ minutes None]
    /\ In (mkJobEvent (job_id job) "Stage 2" lvl_warn
             ("Module " +++ JsNumber.toString (mod_order m)
                        +++ " lessons failed, using fallback")
             (Some [("error", JStr (err_message e))]))
          (jobEvents s').
Proof.
  intros HR Hsk Ht s' p ms k2 i m e Hi Hcall minutes.
  destruct (run_module_rows env s job course sk i m HR Hsk Hi)
    as (Hl & _ & _ & _ & Hev & _).
  fold s' p ms k2 in Hl, Hev.
  unfold lessonsFor, lessonsEvent in *.
  change (generateLessons p (k2 + i) (course_topic course)
            (mkModuleData (mod_order m) (mod_title m) (mod_description m)
                          (mod_outcomes m))
            (course_timePerDay course))
    with (lessonsCall course p m (k2 + i)) in Hcall.
  rewrite Hcall in Hl, Hev. split; [| exact Hev].
  rewrite Hl. unfold fallbackLesson.
  cbn [map app Z.eqb Z.rem Z.quotrem Pos.eqb]. rewrite (floor_quarter _ Ht).
  reflexivity.
Qed.

(** X23: the search of stage 4 asks for at most 3 videos with the query
    "{topic} {module title} tutorial"; when it throws an error object, the
    module gets no resource and a warn event with the error message and the
    code YOUTUBE_PROVIDER_FAILURE records the failure. *)
Theorem video_search_failure_leaves_no_resource env s job course sk :
  Ready s job course ->
  skeletonOutcome env course (createLLMProvider env) (providerCalls s) = Ok sk ->
  let s' := exec (processNextJob env) s in
  let p := createLLMProvider env in
  let ms := savedModules course s sk in
  let k4 := (providerCalls s + skeletonCalls course p (providerCalls s)
             + List.length ms + List.length ms)%nat in
  forall i m e,
    nth_error ms i = Some m ->
    searchVideos (createYouTubeProvider env) (k4 + i)
      (course_topic course +++ " " +++ mod_title m +++ " tutorial") 3
    = Throw e ->
    resourcesOf (mod_id m) s' = []
    /\ In (mkJobEvent (job_id job) "Stage 4" lvl_warn
             ("Module " +++ JsNumber.toString (mod_order m)
                        +++ " resources failed (non-fatal)")
             (Some [("error", JStr (err_message e));
                    ("errorCode", JStr "YOUTUBE_PROVIDER_FAILURE")]))
          (jobEvents s').
Proof.
  intros HR Hsk s' p ms k4 i m e Hi Hcall.
  destruct (run_module_rows env s job course sk i m HR Hsk Hi)
    as (_ & _ & _ & Hr & _ & _ & Hev).
  fold s' p ms k4 in Hr, Hev.
  unfold resourcesFor, resourcesEvent in *.
  change (searchVideos (createYouTubeProvider env) (k4 + i)
            (course_topic course +++ " " +++ mod_title m +++ " tutorial") 3)
    with (videosCall course (createYouTubeProvider env) m (k4 + i)) in Hcall.
  rewrite Hcall in Hr, Hev. split; assumption.
Qed.

(** X11: the lessons a module gets when its generation succeeds are the
    steps the provider returned, in the provider's order and with its
    numbers, titles, types and minutes, the content defaulting to the empty
    string: the runner stores them as they come, whatever their number. *)
Theorem generated_lessons_are_stored_as_returned env s job course sk :
  Ready s job course ->
  skeletonOutcome env course (createLLMProvider env) (providerCalls s) = Ok sk ->
  let s' := exec (processNextJob env) s in
  let p := createLLMProvider env in
  let ms := savedModules course s sk in
  let k2 := (providerCalls s + skeletonCalls course p (providerCalls s))%nat in
  forall i m ls,
    nth_error ms i = Some m ->
    generateLessons p (k2 + i) (course_topic course)
      (mkModuleData (mod_order m) (mod_title m) (mod_description m)
                    (mod_outcomes m))
      (course_timePerDay course) = Ok ls ->
    lessonsOf (mod_id m) s'
    = map (fun l => mkLesson (mod_id m) (ls_order l) (ls_title l) (ls_type l)
                             (ls_estimatedMinutes l)
                             (Some (match ls_content l with
                                    | Some c => if String.eqb c "" then "" else c
                                    | None => ""
                                    end)))
          (ml_steps ls)
    /\ In (mkJobEvent (job_id job) "Stage 2" lvl_info
             ("Module " +++ JsNumber.toString (mod_order m) +++ " lessons created")
             (Some [("count", JNum (Z.of_nat (List.length (ml_steps ls))))]))
          (jobEvents s').
Proof.
  intros HR Hsk s' p ms k2 i m ls Hi Hcall.
  destruct (run_module_rows env s job course sk i m HR Hsk Hi)
    as (Hl & _ & _ & _ & Hev & _).
  fold s' p ms k2 in Hl, Hev.
  unfold lessonsFor, lessonsEvent in *.
  change (generateLessons p (k2 + i) (course_topic course)
            (mkModuleData (mod_order m) (mod_title m) (mod_description m)
                          (mod_outcomes m))
            (course_timePerDay course))
    with (lessonsCall course p m (k2 + i)) in Hcall.
  rewrite Hcall in Hl, Hev. split; assumption.
Qed.

(** X12: the quiz a module gets when its generation succeeds has
    totalQuestions equal to the number of questions returned, and its
    questions are the returned ones, in order, numbered from 1. *)
Theorem generated_quiz_is_stored_as_returned env s job course sk :
  Ready s job course ->
  skeletonOutcome env course (createLLMProvider env) (providerCalls s) = Ok sk ->
  let s' := exec (processNextJob env) s in
  let p := createLLMProvider env in
  let ms := savedModules course s sk in
  let k3 := (providerCalls s + skeletonCalls course p (providerCalls s)
             + List.length ms)%nat in
  forall i m qd,
    nth_error ms i = Some m ->
    generateQuiz p (k3 + i) (course_topic course)
                 (mod_order m, mod_title m, mod_description m) = Ok qd ->
    let quizId := (nextId s + List.length (sk_modules sk) + i)%nat in
    let n := List.length (mq_questions qd) in
    quizzesOf (mod_id m) s' = [mkQuiz quizId (mod_id m) (Z.of_nat n)]
    /\ map (fun x => mkQuizQuestionData (qq_type x) (qq_question x)
                       (qq_options x) (qq_answerKey x) (qq_explanation x)
                       (qq_difficulty x) (qq_tags x))
           (questionsOf quizId s')
       = mq_questions qd
    /\ map qq_order (questionsOf quizId s') = map Z.of_nat (seq 1 n).
Proof.
  intros HR Hsk s' p ms k3 i m qd Hi Hcall quizId n.
  destruct (run_module_rows env s job course sk i m HR Hsk Hi)
    as (_ & Hq & Hqq & _).
  fold s' p ms k3 quizId in Hq, Hqq.
  unfold quizFor in *.
  change (generateQuiz p (k3 + i) (course_topic course)
            (mod_order m, mod_title m, mod_description m))
    with (quizCall course p m (k3 + i)) in Hcall.
  rewrite Hcall in Hq, Hqq. cbn [fst snd] in Hq, Hqq.
  split; [exact Hq |]. rewrite Hqq, !mapFrom_map. unfold questionRow.
  cbn [qq_type qq_question qq_options qq_answerKey qq_explanation
       qq_difficulty qq_tags qq_order].
  split.
  - rewrite mapFrom_const. rewrite <- (map_id (mq_questions qd)) at 2.
    apply map_ext. intros []; reflexivity.
  - apply mapFrom_numbers.
Qed.

(** X13: the resources a module gets when its video search succeeds are
    the videos the provider returned, in order, numbered from 1, with
    provider "youtube": the runner stores every video it is given. *)
Theorem found_videos_are_stored_as_returned env s job course sk :
  Ready s job course ->
  skeletonOutcome env course (createLLMProvider env) (providerCalls s) = Ok sk ->
  let s' := exec (processNextJob env) s in
  let p := createLLMProvider env in
  let ms := savedModules course s sk in
  let k4 := (providerCalls s + skeletonCalls course p (providerCalls s)
             + List.length ms + List.length ms)%nat in
  forall i m videos,
    nth_error ms i = Some m ->
    searchVideos (createYouTubeProvider env) (k4 + i)
      (course_topic course +++ " " +++ mod_title m +++ " tutorial") 3
    = Ok videos ->
    map (fun r => (res_provider r,
                   mkVideo (res_title r) (res_url r) (res_channel r)
                           (res_durationSeconds r) (res_thumbnailUrl r)
                           (res_reason r)))
        (resourcesOf (mod_id m) s')
    = map (fun v => ("youtube", v)) videos
    /\ map res_order (resourcesOf (mod_id m) s')
       = map Z.of_nat (seq 1 (List.length videos))
    /\ In (mkJobEvent (job_id job) "Stage 4" lvl_info
             ("Module " +++ JsNumber.toString (mod_order m) +++ " resources added")
             (Some [("count", JNum (Z.of_nat (List.length videos)))]))
          (jobEvents s').
Proof.
  intros HR Hsk s' p ms k4 i m videos Hi Hcall.
  destruct (run_module_rows env s job course sk i m HR Hsk Hi)
    as (_ & _ & _ & Hr & _ & _ & Hev).
  fold s' p ms k4 in Hr, Hev.
  unfold resourcesFor, resourcesEvent in *.
  change (searchVideos (createYouTubeProvider env) (k4 + i)
            (course_topic course +++ " " +++ mod_title m +++ " tutorial") 3)
    with (videosCall course (createYouTubeProvider env) m (k4 + i)) in Hcall.
  rewrite Hcall in Hr, Hev. split; [| split; [| exact Hev]].
  - rewrite Hr, mapFrom_map. unfold resourceRow.
    cbn [res_provider res_title res_url res_channel res_durationSeconds
         res_thumbnailUrl res_reason].
    rewrite mapFrom_const. apply map_ext. intros []; reflexivity.
  - rewrite Hr, mapFrom_map. unfold resourceRow. cbn [res_order].
    apply mapFrom_numbers.
Qed.

(** X14: the modules of the course after a run that obtains a skeleton are
    the modules of that skeleton, in the skeleton's order, under fresh
    consecutive identifiers. *)
Theorem skeleton_modules_are_stored_as_returned env s job course sk :
  Ready s job course ->
  skeletonOutcome env course (createLLMProvider env) (providerCalls s) = Ok sk ->
  let s' := exec (processNextJob env) s in
  map (fun m => mkModuleData (mod_order m) (mod_title m) (mod_description m)
                             (mod_outcomes m))
      (modulesOf (course_id course) s')
  = sk_modules sk
  /\ map mod_id (modulesOf (course_id course) s')
     = seq (nextId s) (List.length (sk_modules sk)).
Proof.
  intros HR Hsk s'.
  destruct (run_content env s job course sk HR Hsk) as (Hm & _).
  fold s' in Hm. destruct HR as [_ _ _ _ HD _].
  unfold modulesOf. rewrite Hm, filter_app, HD, filter_moduleRows.
  cbn [app]. split; [| apply moduleRows_ids].
  clear Hm Hsk. generalize (nextId s). induction (sk_modules sk) as [| x xs IH]; intros n;
    simpl; [reflexivity |].
  rewrite IH. destruct x; reflexivity.
Qed.

(** ** The event log of a run *)

Section StageEvents.

Variables (jobId : Id) (course : Course).
Variable P : JobEvent -> Prop.
Hypothesis P_info : forall stage msg data, P (mkJobEvent jobId stage lvl_info msg data).




End StageEvents.






(** ** The stage labels of a run *)

Definition byOrder (a b : ModuleRow) : Prop := mod_order a <= mod_order b.

Lemma insertByOrder_hd m x l :
  byOrder x m -> HdRel byOrder x l -> HdRel byOrder x (Prisma.insertByOrder m l).
Proof.
  intros Hxm Hl. destruct l as [| y l]; simpl; [now constructor |].
  destruct (mod_order m <=? mod_order y); constructor; [exact Hxm |].
  now inversion Hl.
Qed.

Lemma insertByOrder_sorted m l :
  Sorted byOrder l -> Sorted byOrder (Prisma.insertByOrder m l).
Proof.
  induction 1 as [| x l Hs IH Hhd]; simpl; [repeat constructor |].
  destruct (mod_order m <=? mod_order x) eqn:E.
  - apply Z.leb_le in E. repeat constructor; assumption.
  - apply Z.leb_gt in E. constructor; [exact IH |].
    apply insertByOrder_hd; [unfold byOrder; lia | exact Hhd].
Qed.

Lemma sortByOrder_sorted l : Sorted byOrder (Prisma.sortByOrder l).
Proof.
  induction l as [| x l IH]; simpl; [constructor |].
  now apply insertByOrder_sorted.
Qed.

Lemma mapFrom_labels {A} (f : nat -> A -> Z) (label : A -> string) xs i :
  map snd (mapFrom i (fun j x => (f j x, label x)) xs) = map label xs.
Proof.
  rewrite mapFrom_map. cbn [snd]. apply mapFrom_const.
Qed.

(** X17: the stage labels written for a job that succeeds, in order: the
    labels of the five stages, with one label per module in each of the
    stages 2, 3 and 4, visiting the modules of the course by ascending
    [order], whatever the order in which the provider listed them. *)
Theorem stage_labels_of_a_succeeded_run env s job course sk :
  Ready s job course ->
  skeletonOutcome env course (createLLMProvider env) (providerCalls s) = Ok sk ->
  let s' := exec (processNextJob env) s in
  let moduleNo m := JsNumber.toString (mod_order m) in
  exists ms,
    Permutation ms (modulesOf (course_id course) s')
    /\ Sorted (fun a b => mod_order a <= mod_order b) ms
    /\ map snd (progressWrites (job_id job) (newUpdates s s'))
       = ["Starting"; "Stage 1: Generating course skeleton"]
         ++ (if retried env course s
             then ["Stage 1: Retrying with repair"] else [])
         ++ ["Stage 1: Complete"; "Stage 2: Generating lessons"]
         ++ map (fun m => "Stage 2: Module " +++ moduleNo m +++ " lessons") ms
         ++ ["Stage 2: Complete"; "Stage 3: Generating quizzes"]
         ++ map (fun m => "Stage 3: Module " +++ moduleNo m +++ " quiz") ms
         ++ ["Stage 3: Complete"; "Stage 4: Finding video resources"]
         ++ map (fun m => "Stage 4: Module " +++ moduleNo m +++ " resources") ms
         ++ ["Stage 4: Complete"; "Stage 5: Finalizing"; "Stage 5: Complete";
             "Completed"].
Proof.
  intros HR Hsk s' moduleNo.
  destruct (run_modules env s job course sk HR Hsk) as (Hperm & _).
  fold s' in Hperm.
  destruct HR as [Hnd Hj Hty Hc HD HF].
  exists (savedModules course s sk).
  split; [now symmetry |]. split; [apply sortByOrder_sorted |].
  destruct (run_progress env s job Hnd Hj) as [Hlog _]. fold s' in Hlog.
  rewrite Hlog. unfold runProgress, runReturns. rewrite Hty, Hc.
  cbn [String.eqb Ascii.eqb Bool.eqb]. rewrite Hsk. cbn [isOk].
  unfold stage1Progress, skeletonProgress, retried, pipelineProgress.
  cbv zeta.
  rewrite !map_app, !mapFrom_labels.
  destruct (skeletonCall course (createLLMProvider env) (providerCalls s));
    repeat (progress (rewrite <- ?app_assoc; cbn [map snd isOk negb app]));
    reflexivity.
Qed.

(** ** The fallback lessons and the lesson schema *)

Lemma length_append (a b : string) :
  String.length (a +++ b) = (String.length a + String.length b)%nat.
Proof. induction a as [| c a IH]; simpl; [reflexivity | now rewrite IH]. Qed.

(** X18: the four fallback lessons of a module take a quarter of the daily
    budget each, rounded down, so together they stay within the budget and
    miss it by less than four minutes; a fallback lesson passes
    LessonStepSchema exactly when the budget is at most 243 minutes, since
    above that its minutes exceed the schema's maximum of 60. *)
Theorem fallback_lessons_and_the_lesson_schema course m j :
  5 <= course_timePerDay course <= 480 ->
  In j [1; 2; 3; 4] ->
  Schemas.len (mod_title m) <= 141 ->
  let l := fallbackLesson course m j in
  4 * les_estimatedMinutes l <= course_timePerDay course
    < 4 * les_estimatedMinutes l + 4
  /\ (Schemas.LessonStepSchema
        (mkLessonStep (les_order l) (les_title l) (les_type l)
                      (les_estimatedMinutes l) None) = true
      <-> course_timePerDay course <= 243).
Proof.
  intros Ht Hj Hlen l.
  assert (les_estimatedMinutes l = course_timePerDay course / 4) as Hmin
      by (apply (floor_quarter _ Ht)).
  assert (Schemas.len (les_title l) = Schemas.len (mod_title m) + 9) as Htitle.
  { unfold l, fallbackLesson, Schemas.len. cbn [les_title].
    rewrite !length_append.
    replace (String.length (JsNumber.toString j)) with 1%nat
      by (destruct Hj as [<- | [<- | [<- | [<- | []]]]]; reflexivity).
    change (String.length " - Part ") with 8%nat. lia. }
  assert (1 <= les_order l) as Hord.
  { unfold l, fallbackLesson. cbn [les_order].
    destruct Hj as [<- | [<- | [<- | [<- | []]]]]; lia. }
  pose proof (Z.div_mod (course_timePerDay course) 4 ltac:(lia)) as Hdiv.
  pose proof (Z.mod_pos_bound (course_timePerDay course) 4 ltac:(lia)) as Hmod.
  split; [rewrite Hmin; lia |].
  unfold Schemas.LessonStepSchema, Schemas.between.
  cbn [ls_order ls_title ls_estimatedMinutes].
  rewrite Htitle, Hmin, !andb_true_iff, !Z.leb_le.
  pose proof (Zle_0_nat (String.length (mod_title m))).
  unfold Schemas.len in *. lia.
Qed.

(* ------------------------------------------------------------------ *)
(** ** Suggested fixes ([getSuggestedFix] in [src/lib/schemas.ts]) *)

Module SuggestedFixes.

(** The values of [ErrorCode]. *)
Definition ErrorCodes : list string :=
  ["VALIDATION_ERROR"; "LLM_SCHEMA_INVALID"; "LLM_PROVIDER_FAILURE";
   "YOUTUBE_PROVIDER_FAILURE"; "DB_WRITE_FAILURE"; "JOB_RUNNER_FAILURE";
   "IDEMPOTENCY_KEY_CONFLICT"; "JOB_NOT_FOUND"; "COURSE_NOT_FOUND"].

(** The own properties of the object literal [fixes]. *)
Definition fixes : list (string * string) :=
  [("VALIDATION_ERROR",
    "Check input parameters: topic length, timePerDay range (5-480), valid level");
   ("LLM_SCHEMA_INVALID",
    "LLM returned invalid JSON. Check prompt structure and retry. System will use fallback generator.");
   ("LLM_PROVIDER_FAILURE",
    "Check OPENAI_API_KEY environment variable and API rate limits. Verify account has credits.");
   ("YOUTUBE_PROVIDER_FAILURE",
    "Check YOUTUBE_API_KEY environment variable. This error is non-fatal; mock resources used instead.");
   ("DB_WRITE_FAILURE",
    "Database write failed. Check database connection and disk space.");
   ("JOB_RUNNER_FAILURE",
    "Job runner encountered an unexpected error. Check logs for stack trace.");
   ("IDEMPOTENCY_KEY_CONFLICT",
    "Duplicate request with same idempotencyKey. Return existing job.");
   ("JOB_NOT_FOUND", "Job ID does not exist in database.");
   ("COURSE_NOT_FOUND", "Course ID does not exist or was deleted.")].

Definition unknownFix : string :=
  "Unknown error code. Check job events for details.".

(** The names an object literal inherits from [Object.prototype]; a lookup
    of one of them yields the inherited member, not a fix. *)
Definition inheritedNames : list string :=
  ["constructor"; "__defineGetter__"; "__defineSetter__"; "hasOwnProperty";
   "__lookupGetter__"; "__lookupSetter__"; "isPrototypeOf";
   "propertyIsEnumerable"; "toString"; "valueOf"; "__proto__";
   "toLocaleString"].

(** What [fixes[errorCode] || '...'] evaluates to. *)
Inductive Looked :=
| Fix (text : string)
| Inherited (name : string).

Fixpoint own (key : string) (l : list (string * string)) : option string :=
  match l with
  | [] => None
  | (k, v) :: rest => if String.eqb k key then Some v else own key rest
  end.

(** [getSuggestedFix(errorCode)]. *)
Definition getSuggestedFix (errorCode : string) : Looked :=
  match own errorCode fixes with
  | Some text => if String.eqb text "" then Fix unknownFix else Fix text
  | None =>
      if existsb (String.eqb errorCode) inheritedNames
      then Inherited errorCode
      else Fix unknownFix
  end.

End SuggestedFixes.

Lemma existsb_eqb_In (x : string) l :
  existsb (String.eqb x) l = true <-> In x l.
Proof.
  rewrite existsb_exists. split.
  - intros (y & Hy & E). apply String.eqb_eq in E. now subst.
  - intros H. exists x. split; [exact H | apply String.eqb_refl].
Qed.

(** X19: [getSuggestedFix] answers a fix of its own, different from the
    generic answer, for each of the nine codes of [ErrorCode], and the
    generic answer for every other string that is not the name of a member
    inherited from [Object.prototype]. *)
Theorem every_error_code_has_its_fix errorCode :
  ~ In errorCode SuggestedFixes.inheritedNames ->
  (SuggestedFixes.getSuggestedFix errorCode
   = SuggestedFixes.Fix SuggestedFixes.unknownFix
   <-> ~ In errorCode SuggestedFixes.ErrorCodes)
  /\ exists text, SuggestedFixes.getSuggestedFix errorCode
                  = SuggestedFixes.Fix text /\ text <> "".
Proof.
  intros Hin.
  assert (existsb (String.eqb errorCode) SuggestedFixes.inheritedNames = false)
    as Hno.
  { destruct (existsb _ _) eqn:E; [| reflexivity].
    apply existsb_eqb_In in E. contradiction. }
  unfold SuggestedFixes.getSuggestedFix. rewrite Hno.
  unfold SuggestedFixes.fixes, SuggestedFixes.ErrorCodes. cbn [SuggestedFixes.own].
  repeat match goal with
         | |- context [String.eqb ?k errorCode] =>
             destruct (String.eqb_spec k errorCode) as [<- | ?]
         end;
    (split; [split; [intros E; try discriminate E | intros HnIn] | eexists; split; [reflexivity | discriminate]]);
    try (exfalso; apply HnIn; cbn; tauto);
    try reflexivity.
  all: intros HI; cbn in HI; intuition congruence.
Qed.

(* ------------------------------------------------------------------ *)
(** ** Starting and stopping the runner ([JobRunner.start], [stop],
       [getJobRunner]) *)

Module Lifecycle.

(** A [JobRunner]: its [isRunning] flag and the [poll] loops that are
    under way (started and not yet ended). *)
Record Runner := mkRunner {
  isRunning : bool;
  loops : nat
}.

(** [new JobRunner()]. *)
Definition newRunner : Runner := mkRunner false 0.

(** [start()]: nothing when the flag is set; else the flag is set and a
    [poll] loop begins. *)
Definition start (r : Runner) : Runner :=
  if isRunning r then r else mkRunner true (S (loops r)).

(** [stop()]. *)
Definition stop (r : Runner) : Runner := mkRunner false (loops r).

(** A loop comes back to the head of [while (this.isRunning)] after its
    wait: it goes on when the flag is set and ends when it is not. *)
Definition wake (r : Runner) : Runner :=
  if isRunning r then r else mkRunner false (pred (loops r)).

(** [getJobRunner()], on the module variable [jobRunnerInstance]. *)
Definition getJobRunner (instance : option Runner) : option Runner :=
  match instance with
  | Some r => Some r
  | None => Some (start newRunner)
  end.

(** What may happen to the module's runner. *)
Inductive Event := GetJobRunner | Start | Stop | Wake.

Definition onInstance (f : Runner -> Runner) (instance : option Runner)
  : option Runner :=
  match instance with Some r => Some (f r) | None => None end.

Definition step (instance : option Runner) (e : Event) : option Runner :=
  match e with
  | GetJobRunner => getJobRunner instance
  | Start => onInstance start instance
  | Stop => onInstance stop instance
  | Wake => onInstance wake instance
  end.

Definition run (events : list Event) : option Runner :=
  fold_left step events None.

End Lifecycle.

Import Lifecycle.

Definition oneLoop (instance : option Runner) : Prop :=
  match instance with
  | None => True
  | Some r => isRunning r = true /\ loops r = 1%nat
  end.

Lemma step_keeps_one_loop instance e :
  e <> Stop -> oneLoop instance -> oneLoop (step instance e).
Proof.
  intros He H. destruct e; try contradiction; destruct instance as [r |];
    simpl in *; auto; destruct H as [Hr Hl].
  - unfold start. rewrite Hr. auto.
  - unfold wake. rewrite Hr. auto.
Qed.

(** X20: as long as [stop] is not called, whatever the number of calls of
    [getJobRunner] and [start], there is one runner with exactly one [poll]
    loop: a second start is a no-op. *)
Theorem one_loop_until_stopped events :
  ~ In Stop events -> In GetJobRunner events ->
  exists r, run events = Some r /\ isRunning r = true /\ loops r = 1%nat.
Proof.
  intros Hstop Hget. unfold run.
  assert (forall instance,
             oneLoop instance ->
             (instance <> None \/ In GetJobRunner events) ->
             exists r, fold_left step events instance = Some r
                       /\ isRunning r = true /\ loops r = 1%nat) as H.
  { clear Hget. induction events as [| e events IH]; intros instance H1 H2.
    - destruct H2 as [H2 | []]. destruct instance as [r |]; [| contradiction].
      exists r. simpl in *. tauto.
    - simpl. apply IH.
      + intros Hin. apply Hstop. now right.
      + apply step_keeps_one_loop; [| exact H1].
        intros ->. apply Hstop. now left.
      + destruct instance as [r |].
        * left. intros E.
          destruct e; unfold step, getJobRunner, onInstance in E;
            discriminate E.
        * destruct H2 as [H2 | [-> | H2]]; [contradiction | | now right].
          left. intros E. unfold step, getJobRunner in E. discriminate E. }
  apply H; [exact I | now right].
Qed.

(** X21: a [stop] followed by a [start] before the loop has come back to
    its [while] leaves that loop running beside the new one: each such
    restart adds a loop, and none of them ends while the flag is set. *)
Theorem restart_before_wake_adds_a_loop r n :
  isRunning r = true ->
  let r' := Nat.iter n (fun r => start (stop r)) r in
  isRunning r' = true
  /\ loops r' = (loops r + n)%nat
  /\ wake r' = r'
  /\ loops (start (wake (stop r))) = S (pred (loops r)).
Proof.
  intros Hrun r'.
  assert (isRunning r' = true /\ loops r' = (loops r + n)%nat) as [H1 H2].
  { subst r'. induction n as [| n [IH1 IH2]].
    - simpl. split; [exact Hrun | lia].
    - rewrite Nat.iter_succ. set (x := Nat.iter n _ r) in *.
      unfold start, stop. cbn [isRunning loops].
      split; [reflexivity | lia]. }
  split; [exact H1 |]. split; [exact H2 |]. split.
  - unfold wake. now rewrite H1.
  - reflexivity.
Qed.

(* ================================================================== *)
(** * More worked runs *)

(** A queue of two jobs, and a job left running. *)
Definition laterJob : Job :=
  mkJob 3%nat "GENERATE_COURSE" queued 0 None None None (Some 0%nat) 5 5.

Definition runningJob : Job :=
  mkJob 4%nat "GENERATE_COURSE" running 40 (Some "Stage 2: Complete") None None
        (Some 0%nat) 0 2.

Definition storeQueue : Store :=
  mkStore [laterJob; queuedJob; runningJob] [draftCourse] [] [] [] [] [] [] []
          5%nat 6 0%nat [].

(** A job of another type, and a job without a course. *)
Definition mailJob : Job :=
  mkJob 1%nat "SEND_DIGEST" queued 0 None None None None 0 0.

Definition storeMail : Store :=
  mkStore [mailJob] [] [] [] [] [] [] [] [] 2%nat 1 0%nat [].

Definition orphanJob : Job :=
  mkJob 1%nat "GENERATE_COURSE" queued 0 None None None None 0 0.

Definition storeOrphan : Store :=
  mkStore [orphanJob] [draftCourse] [] [] [] [] [] [] [] 2%nat 1 0%nat [].




Lemma storeQueue_unique : NoDup (map job_id (jobs storeQueue)).
Proof. cbn. repeat constructor; cbn; intuition discriminate. Qed.

Lemma storeQueue_oldest :
  Prisma.oldest (filter Prisma.isQueued (jobs storeQueue)) = Some queuedJob.
Proof. reflexivity. Qed.

Lemma storeMail_unique : NoDup (map job_id (jobs storeMail)).
Proof. repeat constructor. intros []. Qed.

Lemma storeOrphan_unique : NoDup (map job_id (jobs storeOrphan)).
Proof. repeat constructor. intros []. Qed.

Lemma mockRun_skeleton :
  skeletonOutcome envMock draftCourse (createLLMProvider envMock)
                  (providerCalls store0) = Ok sampleSkeleton.
Proof. vm_compute. reflexivity. Qed.

Lemma mockRun_row :
  jobOf (job_id queuedJob) (exec (processNextJob envMock) store0)
  = Some (rowAfter envMock store0 1%nat).
Proof. vm_compute. reflexivity. Qed.

Lemma mockRun_succeeded : job_status (rowAfter envMock store0 1%nat) = succeeded.
Proof. vm_compute. reflexivity. Qed.

Lemma downRun_failed : job_status (rowAfter envDown store0 1%nat) = failed.
Proof. vm_compute. reflexivity. Qed.

Lemma other_jobs_keep_their_rows_witness :
  jobOf (job_id laterJob) (exec (processNextJob envMock) storeQueue)
  = Some laterJob.
Proof.
  apply (other_jobs_keep_their_rows envMock storeQueue queuedJob laterJob
           storeQueue_unique storeQueue_oldest).
  - left. reflexivity.
  - discriminate.
Defined.

Lemma oldest_queued_job_is_claimed_witness :
  exists job,
    In job (jobs storeQueue) /\ job_status job = queued
    /\ job_createdAt job <= job_createdAt laterJob
    /\ hd_error (statusWrites
                   (newUpdates storeQueue
                               (exec (processNextJob envMock) storeQueue)))
       = Some (job_id job, running)
    /\ Forall (fun u => fst u = job_id job)
              (newUpdates storeQueue (exec (processNextJob envMock) storeQueue)).
Proof.
  exact (oldest_queued_job_is_claimed envMock storeQueue laterJob
           storeQueue_unique (or_introl eq_refl) eq_refl).
Defined.



Lemma mailJob_type : job_type mailJob <> "GENERATE_COURSE".
Proof. discriminate. Qed.

Lemma other_job_types_succeed_without_work_witness :
  jobEvents (exec (processNextJob envMock) storeMail)
  = jobEvents storeMail ++ [completedEvent (job_id mailJob)].
Proof.
  exact (proj1 (proj2 (other_job_types_succeed_without_work envMock storeMail
                         mailJob storeMail_unique eq_refl mailJob_type))).
Defined.

Lemma job_without_course_fails_witness :
  providerCalls (exec (processNextJob envMock) storeOrphan)
  = providerCalls storeOrphan.
Proof.
  exact (proj1 (proj2 (proj2 (job_without_course_fails envMock storeOrphan
                                orphanJob storeOrphan_unique eq_refl eq_refl
                                eq_refl)))).
Defined.

Lemma downRun_attempt (n : nat) :
  skeletonCall draftCourse (createLLMProvider envDown) n = Throw unavailableError.
Proof. reflexivity. Qed.

Lemma exhausted_skeleton_attempts_fail_clean_witness :
  (exists j',
      jobOf (job_id queuedJob) (exec (processNextJob envDown) store0) = Some j'
      /\ job_status j' = failed
      /\ job_errorCode j' = Some "LLM_PROVIDER_FAILURE"
      /\ job_errorMessage j' = Some "provider unavailable")
  /\ providerCalls (exec (processNextJob envDown) store0) = 3%nat.
Proof.
  pose proof (exhausted_skeleton_attempts_fail_clean envDown store0 queuedJob
                draftCourse unavailableError unavailableError unavailableError
                store0_unique eq_refl eq_refl eq_refl
                (downRun_attempt 0) (downRun_attempt 1) (downRun_attempt 2))
    as (Hrow & Hcalls & _).
  split; [exact Hrow | exact Hcalls].
Defined.

Lemma succeeded_run_activates_the_course_witness :
  courses (exec (processNextJob envMock) store0)
  = [mkCourse 0%nat "Docker Containers" "beginner" 20 "active"].
Proof.
  exact (succeeded_run_activates_the_course envMock store0 queuedJob draftCourse
           (rowAfter envMock store0 1%nat) store0_unique eq_refl eq_refl
           eq_refl mockRun_row mockRun_succeeded).
Defined.

Lemma provider_calls_of_a_succeeded_run_witness :
  providerCalls (exec (processNextJob envMock) store0)
  = (providerCalls store0
     + skeletonCalls draftCourse (createLLMProvider envMock)
                     (providerCalls store0)
     + 3 * 5)%nat.
Proof.
  exact (proj1 (provider_calls_of_a_succeeded_run envMock store0 queuedJob
                  draftCourse (rowAfter envMock store0 1%nat) store0_ready
                  (proj1 mockLLM_contract) mockRun_row mockRun_succeeded)).
Defined.

Lemma quiz_failure_gives_fallback_quiz_witness :
  quizzesOf (mod_id firstModule) (exec (processNextJob envDegraded) store0)
  = [mkQuiz 7%nat 2%nat 3].
Proof.
  exact (proj1 (quiz_failure_gives_fallback_quiz envDegraded store0 queuedJob
                  draftCourse sampleSkeleton store0_ready degradedRun_skeleton
                  0%nat firstModule unavailableError degradedRun_first
                  eq_refl)).
Defined.

Lemma lesson_failure_gives_fallback_lessons_witness :
  lessonsOf (mod_id firstModule) (exec (processNextJob envDegraded) store0)
  = [mkLesson 2%nat 1 "Module 1 - Part 1" learn 5 None;
     mkLesson 2%nat 2 "Module 1 - Part 2" practice 5 None;
     mkLesson 2%nat 3 "Module 1 - Part 3" learn 5 None;
     mkLesson 2%nat 4 "Module 1 - Part 4" apply_ 5 None].
Proof.
  exact (proj1 (lesson_failure_gives_fallback_lessons envDegraded store0
                  queuedJob draftCourse sampleSkeleton store0_ready
                  degradedRun_skeleton draftCourse_budget
                  0%nat firstModule unavailableError degradedRun_first eq_refl)).
Defined.

Lemma video_search_failure_leaves_no_resource_witness :
  resourcesOf (mod_id firstModule) (exec (processNextJob envDegraded) store0)
  = [].
Proof.
  exact (proj1 (video_search_failure_leaves_no_resource envDegraded store0
                  queuedJob draftCourse sampleSkeleton store0_ready
                  degradedRun_skeleton
                  0%nat firstModule unavailableError degradedRun_first eq_refl)).
Defined.

Lemma generated_lessons_are_stored_as_returned_witness :
  lessonsOf (mod_id firstModule) (exec (processNextJob envMock) store0)
  = [mkLesson 2%nat 1 "Lesson title" learn 10 (Some "");
     mkLesson 2%nat 2 "Lesson title" learn 10 (Some "");
     mkLesson 2%nat 3 "Lesson title" learn 10 (Some "")].
Proof.
  exact (proj1 (generated_lessons_are_stored_as_returned envMock store0
                  queuedJob draftCourse sampleSkeleton store0_ready
                  mockRun_skeleton 0%nat firstModule
                  (mkModuleLessons 1 (map sampleStep [1; 2; 3]))
                  degradedRun_first eq_refl)).
Defined.

Lemma generated_quiz_is_stored_as_returned_witness :
  quizzesOf (mod_id firstModule) (exec (processNextJob envMock) store0)
  = [mkQuiz 7%nat 2%nat 5].
Proof.
  exact (proj1 (generated_quiz_is_stored_as_returned envMock store0
                  queuedJob draftCourse sampleSkeleton store0_ready
                  mockRun_skeleton 0%nat firstModule
                  (mkModuleQuiz 1 (map sampleQuestion [1; 2; 3; 4; 5]))
                  degradedRun_first eq_refl)).
Defined.

Lemma found_videos_are_stored_as_returned_witness :
  map res_order
      (resourcesOf (mod_id firstModule) (exec (processNextJob envMock) store0))
  = [1; 2; 3].
Proof.
  exact (proj1 (proj2
           (found_videos_are_stored_as_returned envMock store0
              queuedJob draftCourse sampleSkeleton store0_ready
              mockRun_skeleton 0%nat firstModule
              (map (sampleVideo "Docker Containers Module 1 tutorial") [1; 2; 3])
              degradedRun_first eq_refl))).
Defined.

Lemma skeleton_modules_are_stored_as_returned_witness :
  map mod_id (modulesOf (course_id draftCourse)
                        (exec (processNextJob envMock) store0))
  = [2; 3; 4; 5; 6]%nat.
Proof.
  exact (proj2 (skeleton_modules_are_stored_as_returned envMock store0
                  queuedJob draftCourse sampleSkeleton store0_ready
                  mockRun_skeleton)).
Defined.




Lemma stage_labels_of_a_succeeded_run_witness :
  exists ms,
    Permutation ms (modulesOf (course_id draftCourse)
                              (exec (processNextJob envDegraded) store0))
    /\ Sorted (fun a b => mod_order a <= mod_order b) ms.
Proof.
  destruct (stage_labels_of_a_succeeded_run envDegraded store0 queuedJob
              draftCourse sampleSkeleton store0_ready degradedRun_skeleton)
    as (ms & Hperm & Hsorted & _).
  exists ms. split; assumption.
Defined.

Lemma firstModule_title : Schemas.len (mod_title firstModule) <= 141.
Proof. cbn. lia. Qed.

Lemma fallback_lessons_and_the_lesson_schema_witness :
  4 * les_estimatedMinutes (fallbackLesson draftCourse firstModule 1)
  <= course_timePerDay draftCourse
  < 4 * les_estimatedMinutes (fallbackLesson draftCourse firstModule 1) + 4.
Proof.
  exact (proj1 (fallback_lessons_and_the_lesson_schema draftCourse firstModule 1
                  draftCourse_budget (or_introl eq_refl) firstModule_title)).
Defined.

Lemma unknown_code_not_inherited :
  ~ In "RATE_LIMITED" SuggestedFixes.inheritedNames.
Proof. cbn. intuition discriminate. Qed.

Lemma every_error_code_has_its_fix_witness :
  SuggestedFixes.getSuggestedFix "RATE_LIMITED"
  = SuggestedFixes.Fix SuggestedFixes.unknownFix
  <-> ~ In "RATE_LIMITED" SuggestedFixes.ErrorCodes.
Proof.
  exact (proj1 (every_error_code_has_its_fix "RATE_LIMITED"
                  unknown_code_not_inherited)).
Defined.

Lemma no_stop_here :
  ~ In Lifecycle.Stop
       [Lifecycle.GetJobRunner; Lifecycle.Start; Lifecycle.Wake;
        Lifecycle.GetJobRunner].
Proof. cbn. intuition discriminate. Qed.

Lemma one_loop_until_stopped_witness :
  exists r,
    Lifecycle.run [Lifecycle.GetJobRunner; Lifecycle.Start; Lifecycle.Wake;
                   Lifecycle.GetJobRunner] = Some r
    /\ Lifecycle.isRunning r = true /\ Lifecycle.loops r = 1%nat.
Proof.
  exact (one_loop_until_stopped _ no_stop_here (or_introl eq_refl)).
Defined.

Lemma restart_before_wake_adds_a_loop_witness :
  Lifecycle.loops
    (Nat.iter 3 (fun r => Lifecycle.start (Lifecycle.stop r))
              (Lifecycle.start Lifecycle.newRunner))
  = 4%nat.
Proof.
  exact (proj1 (proj2 (restart_before_wake_adds_a_loop
                         (Lifecycle.start Lifecycle.newRunner) 3 eq_refl))).
Defined.

(* ================================================================== *)
(** * The runner when calls are rejected

    The runner embedded so far meets thrown values that are error objects
    and a database that accepts every call.  This part lifts both
    restrictions.  A provider or the database may reject a call with any
    value, [null] and [undefined] included; a rejected database call leaves
    the tables as they are.  The handlers of the runner read
    [error.message], [error.code] and [error.stack] on what they catch, as
    the source does on its [error: any], and such a read throws a TypeError
    on [null] and [undefined].  The rows, the payloads and the pure helpers
    ([lessonRow], [fallbackLesson], [moduleProgress], ...) are those of the
    first embedding. *)

Module Faulty.

(** What a [catch] receives: [null], [undefined], or a value whose
    properties can be read (an Error, another object, a primitive), given by
    what [.code], [.message] and [.stack] read on it ([None]: undefined).
    Values on which one of the three reads gives something that is neither
    a string nor undefined are left out. *)
Inductive Thrown :=
| Null
| Undefined
| Value (errCode errMessage errStack : option string).

Inductive Outcome (A : Type) : Type :=
| Returns (a : A)
| Rejects (reason : Thrown).
Arguments Returns {A} a.
Arguments Rejects {A} reason.

(** The providers, as in the first embedding, with any value as a reason. *)
Record LLMProvider := mkLLMProvider {
  generateCourseSkeleton :
    nat -> string -> string -> Z -> Outcome CourseSkeleton;
  generateLessons :
    nat -> string -> ModuleData -> Z -> Outcome ModuleLessons;
  generateQuiz :
    nat -> string -> Z * string * string -> Outcome ModuleQuiz
}.

Record YouTubeProvider := mkYouTubeProvider {
  searchVideos : nat -> string -> Z -> Outcome (list Video)
}.

(** The process environment, and the engine and the database as far as
    the runner depends on them: [prismaRejects n] is the reason with which
    the database rejects the call number [n] of the process, if it does;
    [typeErrorMessage v p] is the message the engine gives to the TypeError
    of reading property [p] on [v] ("null" or "undefined"), and
    [stackOf name m] the stack it gives to an error of that name created
    with message [m]. *)
Record Env := mkEnv {
  OPENAI_API_KEY : option string;
  YOUTUBE_API_KEY : option string;
  OpenAIProvider : LLMProvider;
  MockLLMProvider : LLMProvider;
  YouTubeDataApiProvider : YouTubeProvider;
  MockYouTubeProvider : YouTubeProvider;
  prismaRejects : nat -> option Thrown;
  typeErrorMessage : string -> string -> string;
  stackOf : string -> string -> option string
}.

(** Modelled from the spec: the factories of [src/lib/providers/] are not
    part of the sources at hand.  Each provider has a real implementation
    and a mock one, selected by configuration presence; the factory takes
    no argument. *)
Definition createLLMProvider (env : Env) : LLMProvider :=
  match OPENAI_API_KEY env with
  | Some _ => OpenAIProvider env
  | None => MockLLMProvider env
  end.

Definition createYouTubeProvider (env : Env) : YouTubeProvider :=
  match YOUTUBE_API_KEY env with
  | Some _ => YouTubeDataApiProvider env
  | None => MockYouTubeProvider env
  end.

(** The store, and the number of calls made to the database so far. *)
Record World := mkWorld {
  store : Store;
  prismaCalls : nat
}.

(** ** The monad: state, and exceptions with any thrown value *)

Definition F (A : Type) : Type := World -> Outcome A * World.

Definition returns {A} (a : A) : F A := fun w => (Returns a, w).

Definition andThen {A B} (m : F A) (k : A -> F B) : F B :=
  fun w =>
    match m w with
    | (Returns a, w') => k a w'
    | (Rejects t, w') => (Rejects t, w')
    end.

Definition throws {A} (t : Thrown) : F A := fun w => (Rejects t, w).

(** [try { m } catch (error) { h error }]. *)
Definition attempt {A} (m : F A) (h : Thrown -> F A) : F A :=
  fun w =>
    match m w with
    | (Returns a, w') => (Returns a, w')
    | (Rejects t, w') => h t w'
    end.

Declare Scope fault_scope.
Delimit Scope fault_scope with fault.
Notation "x <- m ;; k" := (andThen m (fun x => k))
  (at level 100, m at next level, right associativity) : fault_scope.
Notation "m ;; k" := (andThen m (fun _ => k))
  (at level 100, right associativity) : fault_scope.
Local Open Scope fault_scope.

Fixpoint forEach {A} (xs : list A) (body : A -> F unit) : F unit :=
  match xs with
  | [] => returns tt
  | x :: rest => body x ;; forEach rest body
  end.

Fixpoint forIndexed {A} (start : nat) (xs : list A)
         (body : nat -> A -> F unit) : F unit :=
  match xs with
  | [] => returns tt
  | x :: rest => body start x ;; forIndexed (S start) rest body
  end.

Definition after {A} (m : F A) (w : World) : World := snd (m w).
Definition result {A} (m : F A) (w : World) : Outcome A := fst (m w).

(** ** The engine *)

(** The TypeError of reading [property] on [null] or [undefined]. *)
Definition TypeError (env : Env) (value property : string) : Thrown :=
  Value None (Some (typeErrorMessage env value property))
        (stackOf env "TypeError" (typeErrorMessage env value property)).

(** [new Error(message)]. *)
Definition new_Error (env : Env) (message : string) : Thrown :=
  Value None (Some message) (stackOf env "Error" message).

(** [error.code], [error.message] and [error.stack] on a caught value. *)
Definition code_of (env : Env) (error : Thrown) : F (option string) :=
  match error with
  | Null => throws (TypeError env "null" "code")
  | Undefined => throws (TypeError env "undefined" "code")
  | Value c _ _ => returns c
  end.

Definition message_of (env : Env) (error : Thrown) : F (option string) :=
  match error with
  | Null => throws (TypeError env "null" "message")
  | Undefined => throws (TypeError env "undefined" "message")
  | Value _ m _ => returns m
  end.

Definition stack_of (env : Env) (error : Thrown) : F (option string) :=
  match error with
  | Null => throws (TypeError env "null" "stack")
  | Undefined => throws (TypeError env "undefined" "stack")
  | Value _ _ st => returns st
  end.

(** An error object of the first embedding, as a thrown value. *)
Definition ofError (e : JsError) : Thrown :=
  Value (err_code e) (Some (err_message e)) (err_stack e).

(** A step of the first embedding, run on the store: what a database call
    does once it is accepted, and [new Date()]. *)
Definition inProcess {A} (m : M A) : F A :=
  fun w =>
    match m (store w) with
    | (Ok a, s') => (Returns a, mkWorld s' (prismaCalls w))
    | (Throw e, s') => (Rejects (ofError e), mkWorld s' (prismaCalls w))
    end.

(** [await prisma.table.operation(...)]: the database answers the call, or
    rejects it and leaves the tables as they are. *)
Definition prisma {A} (env : Env) (operation : M A) : F A :=
  fun w =>
    match prismaRejects env (prismaCalls w) with
    | Some reason => (Rejects reason, mkWorld (store w) (S (prismaCalls w)))
    | None => inProcess operation (mkWorld (store w) (S (prismaCalls w)))
    end.

(** [await provider.method(args)]. *)
Definition call {A} (method : nat -> Outcome A) : F A :=
  fun w =>
    (method (providerCalls (store w)),
     mkWorld (Prisma.set_providerCalls (S (providerCalls (store w))) (store w))
             (prismaCalls w)).

(** ** The job runner ([src/lib/job-runner.ts]) *)

Definition updateProgress (env : Env) (jobId : Id) (percent : Z)
           (stage : string) : F unit :=
  now <- inProcess newDate ;;
  prisma env (Prisma.job_update jobId
                (mkJobData None (Some stage) (Some percent) None None (Some now))).

Definition logEvent (env : Env) (jobId : Id) (stage : string)
           (level : EventLevel) (message : string) (data : option Payload)
  : F unit :=
  prisma env (Prisma.jobEvent_create (mkJobEvent jobId stage level message data)).

Section Pipeline.

Variable env : Env.
Variable jobId : Id.
Variable course : Course.

(** Stage 1. *)
Definition generateSkeleton (llmProvider : LLMProvider) : F CourseSkeleton :=
  let args p n :=
    generateCourseSkeleton p n (course_topic course) (course_level course)
                           (course_timePerDay course) in
  attempt
    (skeleton <- call (args llmProvider) ;;
     logEvent env jobId "Stage 1" lvl_info "Course skeleton generated"
       (Some [("modules", JNum (Z.of_nat (List.length (sk_modules skeleton))))]) ;;
     returns skeleton)
    (fun error =>
       message <- message_of env error ;;
       logEvent env jobId "Stage 1" lvl_warn "LLM failed, attempting repair"
         (Some [("error", optStr message)]) ;;
       attempt
         (updateProgress env jobId 12 "Stage 1: Retrying with repair" ;;
          skeleton <- call (args llmProvider) ;;
          logEvent env jobId "Stage 1" lvl_info "Repair succeeded" None ;;
          returns skeleton)
         (fun retryError =>
            logEvent env jobId "Stage 1" lvl_warn "Using fallback generator"
                     None ;;
            let mockProvider := createLLMProvider env in
            call (args mockProvider))).

Definition saveModules (skeleton : CourseSkeleton) : F unit :=
  forEach (sk_modules skeleton)
    (fun moduleData =>
       _ <- prisma env (Prisma.module_create (course_id course) moduleData) ;;
       returns tt).

(** Stage 2, the body of the loop. *)
Definition lessonsStep (llmProvider : LLMProvider) (n i : nat)
           (module : ModuleRow) : F unit :=
  updateProgress env jobId (JobRunner.moduleProgress 25 15 i n)
    ("Stage 2: Module " +++ JsNumber.toString (mod_order module) +++ " lessons") ;;
  attempt
    (lessons <- call (fun k =>
         generateLessons llmProvider k (course_topic course)
           (mkModuleData (mod_order module) (mod_title module)
                         (mod_description module) (mod_outcomes module))
           (course_timePerDay course)) ;;
     forEach (ml_steps lessons)
       (fun lesson =>
          prisma env (Prisma.lesson_create (JobRunner.lessonRow module lesson))) ;;
     logEvent env jobId "Stage 2" lvl_info
       ("Module " +++ JsNumber.toString (mod_order module) +++ " lessons created")
       (Some [("count", JNum (Z.of_nat (List.length (ml_steps lessons))))]))
    (fun error =>
       message <- message_of env error ;;
       logEvent env jobId "Stage 2" lvl_warn
         ("Module " +++ JsNumber.toString (mod_order module)
                    +++ " lessons failed, using fallback")
         (Some [("error", optStr message)]) ;;
       forEach [1; 2; 3; 4]
         (fun j =>
            prisma env (Prisma.lesson_create
                          (JobRunner.fallbackLesson course module j)))).

(** Stage 3, the body of the loop. *)
Definition quizStep (llmProvider : LLMProvider) (n i : nat)
           (module : ModuleRow) : F unit :=
  updateProgress env jobId (JobRunner.moduleProgress 45 25 i n)
    ("Stage 3: Module " +++ JsNumber.toString (mod_order module) +++ " quiz") ;;
  attempt
    (quizData <- call (fun k =>
         generateQuiz llmProvider k (course_topic course)
           (mod_order module, mod_title module, mod_description module)) ;;
     quiz <- prisma env (Prisma.quiz_create (mod_id module)
               (Z.of_nat (List.length (mq_questions quizData)))) ;;
     forIndexed 0 (mq_questions quizData)
       (fun j q =>
          prisma env (Prisma.quizQuestion_create (JobRunner.questionRow quiz j q))) ;;
     logEvent env jobId "Stage 3" lvl_info
       ("Module " +++ JsNumber.toString (mod_order module) +++ " quiz created")
       (Some [("questions",
               JNum (Z.of_nat (List.length (mq_questions quizData))))]))
    (fun error =>
       message <- message_of env error ;;
       logEvent env jobId "Stage 3" lvl_warn
         ("Module " +++ JsNumber.toString (mod_order module)
                    +++ " quiz failed, using fallback")
         (Some [("error", optStr message)]) ;;
       quiz <- prisma env (Prisma.quiz_create (mod_id module) 3) ;;
       forEach [1; 2; 3]
         (fun j =>
            prisma env (Prisma.quizQuestion_create
                          (JobRunner.fallbackQuestion module quiz j)))).

(** Stage 4, the body of the loop. *)
Definition resourcesStep (youtubeProvider : YouTubeProvider) (n i : nat)
           (module : ModuleRow) : F unit :=
  updateProgress env jobId (JobRunner.moduleProgress 75 20 i n)
    ("Stage 4: Module " +++ JsNumber.toString (mod_order module) +++ " resources") ;;
  attempt
    (let query := JobRunner.searchQuery course module in
     videos <- call (fun k => searchVideos youtubeProvider k query 3) ;;
     forIndexed 0 videos
       (fun j video =>
          prisma env (Prisma.resource_create (JobRunner.resourceRow module j video))) ;;
     logEvent env jobId "Stage 4" lvl_info
       ("Module " +++ JsNumber.toString (mod_order module) +++ " resources added")
       (Some [("count", JNum (Z.of_nat (List.length videos)))]))
    (fun error =>
       message <- message_of env error ;;
       logEvent env jobId "Stage 4" lvl_warn
         ("Module " +++ JsNumber.toString (mod_order module)
                    +++ " resources failed (non-fatal)")
         (Some [("error", optStr message);
                ("errorCode", JStr ErrorCode.YOUTUBE_PROVIDER_FAILURE)])).

Definition runStages : F unit :=
  let llmProvider := createLLMProvider env in
  let youtubeProvider := createYouTubeProvider env in
  (* STAGE 1 *)
  updateProgress env jobId 10 "Stage 1: Generating course skeleton" ;;
  logEvent env jobId "Stage 1" lvl_info
           "Starting course skeleton generation" None ;;
  skeleton <- generateSkeleton llmProvider ;;
  saveModules skeleton ;;
  updateProgress env jobId 20 "Stage 1: Complete" ;;
  ms <- prisma env (Prisma.module_findMany (course_id course)) ;;
  (* STAGE 2 *)
  updateProgress env jobId 25 "Stage 2: Generating lessons" ;;
  logEvent env jobId "Stage 2" lvl_info
           "Starting lesson generation for all modules" None ;;
  forIndexed 0 ms (lessonsStep llmProvider (List.length ms)) ;;
  updateProgress env jobId 40 "Stage 2: Complete" ;;
  (* STAGE 3 *)
  updateProgress env jobId 45 "Stage 3: Generating quizzes" ;;
  logEvent env jobId "Stage 3" lvl_info
           "Starting quiz generation for all modules" None ;;
  forIndexed 0 ms (quizStep llmProvider (List.length ms)) ;;
  updateProgress env jobId 70 "Stage 3: Complete" ;;
  (* STAGE 4 *)
  updateProgress env jobId 75 "Stage 4: Finding video resources" ;;
  logEvent env jobId "Stage 4" lvl_info "Starting YouTube resource search" None ;;
  forIndexed 0 ms (resourcesStep youtubeProvider (List.length ms)) ;;
  updateProgress env jobId 95 "Stage 4: Complete" ;;
  (* STAGE 5 *)
  updateProgress env jobId 98 "Stage 5: Finalizing" ;;
  logEvent env jobId "Stage 5" lvl_info "Finalizing course" None ;;
  prisma env (Prisma.course_update (course_id course) "active") ;;
  updateProgress env jobId 100 "Stage 5: Complete" ;;
  logEvent env jobId "Stage 5" lvl_info "Course activated"
           (Some [("courseId", JNum (Z.of_nat (course_id course)))]).

End Pipeline.

(** [executeGenerateCourse(jobId)]. *)
Definition executeGenerateCourse (env : Env) (jobId : Id) : F unit :=
  job <- prisma env (Prisma.job_findUnique jobId) ;;
  match job with
  | Some (_, Some course) => runStages env jobId course
  | _ => throws (new_Error env "Job or course not found")
  end.

(** [processNextJob()]. *)
Definition processNextJob (env : Env) : F unit :=
  job <- prisma env Prisma.job_findFirst_queued ;;
  match job with
  | None => returns tt
  | Some job =>
      prisma env (Prisma.job_update (job_id job) JobRunner.markRunning) ;;
      attempt
        ((if String.eqb (job_type job) "GENERATE_COURSE"
          then executeGenerateCourse env (job_id job)
          else returns tt) ;;
         now <- inProcess newDate ;;
         prisma env (Prisma.job_update (job_id job) (JobRunner.markSucceeded now)) ;;
         logEvent env (job_id job) "Completed" lvl_info
                  "Job completed successfully" None)
        (fun error =>
           errCode <- code_of env error ;;
           message <- message_of env error ;;
           let errorCode := orDefault errCode ErrorCode.JOB_RUNNER_FAILURE in
           let errorMessage := orDefault message "Unknown error" in
           now <- inProcess newDate ;;
           prisma env (Prisma.job_update (job_id job)
                         (JobRunner.markFailed errorCode errorMessage now)) ;;
           stack <- stack_of env error ;;
           logEvent env (job_id job) "Failed" lvl_error errorMessage
                    (Some [("errorCode", JStr errorCode);
                           ("stack", optStr stack)]))
  end.

End Faulty.

(* ------------------------------------------------------------------ *)
(** ** The first embedding as a special case *)

Definition ofResult {A} (r : Result A) : Faulty.Outcome A :=
  match r with
  | Ok a => Faulty.Returns a
  | Throw e => Faulty.Rejects (Faulty.ofError e)
  end.

Definition ofLLM (p : LLMProvider) : Faulty.LLMProvider :=
  Faulty.mkLLMProvider
    (fun k topic level timePerDay =>
       ofResult (generateCourseSkeleton p k topic level timePerDay))
    (fun k topic module timePerDay =>
       ofResult (generateLessons p k topic module timePerDay))
    (fun k topic module => ofResult (generateQuiz p k topic module)).

Definition ofYouTube (p : YouTubeProvider) : Faulty.YouTubeProvider :=
  Faulty.mkYouTubeProvider
    (fun k query maxResults => ofResult (searchVideos p k query maxResults)).

(** The message of V8 for a property read on [null] or [undefined]. *)
Definition typeErrorText (value property : string) : string :=
  "Cannot read properties of " +++ value
    +++ " (reading '" +++ property +++ "')".

(** An environment of the first embedding, seen from here: the providers
    throw error objects only, the database accepts every call, and errors
    carry no stack text (the first embedding leaves it out). *)
Definition undisturbed (env : Env) : Faulty.Env :=
  Faulty.mkEnv (OPENAI_API_KEY env) (YOUTUBE_API_KEY env)
               (ofLLM (OpenAIProvider env)) (ofLLM (MockLLMProvider env))
               (ofYouTube (YouTubeDataApiProvider env))
               (ofYouTube (MockYouTubeProvider env))
               (fun _ => None) typeErrorText (fun _ _ => None).

(* ------------------------------------------------------------------ *)
(** ** The two runners agree when nothing is rejected *)

Section Agreement.

Variable env : Env.

(** [f] does to the store what [m] does, whatever the number of database
    calls made before. *)
Definition Agrees {A} (f : Faulty.F A) (m : M A) : Prop :=
  forall s n, exists n',
    f (Faulty.mkWorld s n)
    = (ofResult (fst (m s)), Faulty.mkWorld (snd (m s)) n').

Lemma Agrees_ext {A} (f g : Faulty.F A) (m : M A) :
  (forall w, f w = g w) -> Agrees g m -> Agrees f m.
Proof. intros E H s n. rewrite E. apply H. Qed.

Lemma Agrees_returns {A} (a : A) : Agrees (Faulty.returns a) (ret a).
Proof. intros s n. exists n. reflexivity. Qed.

Lemma Agrees_throws {A} (e : JsError) :
  Agrees (Faulty.throws (A := A) (Faulty.ofError e)) (throw e).
Proof. intros s n. exists n. reflexivity. Qed.

Lemma Agrees_andThen {A B} (f : Faulty.F A) (m : M A)
      (kf : A -> Faulty.F B) (km : A -> M B) :
  Agrees f m -> (forall a, Agrees (kf a) (km a)) ->
  Agrees (Faulty.andThen f kf) (bind m km).
Proof.
  intros Hf Hk s n. unfold Faulty.andThen, bind.
  destruct (Hf s n) as (n1 & ->).
  destruct (m s) as [[a | e] s1]; cbn [fst snd ofResult].
  - apply Hk.
  - exists n1. reflexivity.
Qed.

Lemma Agrees_attempt {A} (f : Faulty.F A) (m : M A) hf hm :
  Agrees f m -> (forall e, Agrees (hf (Faulty.ofError e)) (hm e)) ->
  Agrees (Faulty.attempt f hf) (tryCatch m hm).
Proof.
  intros Hf Hh s n. unfold Faulty.attempt, tryCatch.
  destruct (Hf s n) as (n1 & ->).
  destruct (m s) as [[a | e] s1]; cbn [fst snd ofResult].
  - exists n1. reflexivity.
  - apply Hh.
Qed.

Lemma Agrees_inProcess {A} (m : M A) : Agrees (Faulty.inProcess m) m.
Proof.
  intros s n. exists n. unfold Faulty.inProcess.
  cbn [Faulty.store Faulty.prismaCalls].
  destruct (m s) as [[a | e] s1]; reflexivity.
Qed.

Lemma Agrees_prisma {A} (m : M A) :
  Agrees (Faulty.prisma (undisturbed env) m) m.
Proof.
  intros s n. exists (S n). unfold Faulty.prisma, Faulty.inProcess.
  cbn [undisturbed Faulty.prismaRejects Faulty.store Faulty.prismaCalls].
  destruct (m s) as [[a | e] s1]; reflexivity.
Qed.

Lemma Agrees_call {A} (method : nat -> Result A) :
  Agrees (Faulty.call (fun k => ofResult (method k))) (call method).
Proof. intros s n. exists n. reflexivity. Qed.

Lemma Agrees_forEach {A} (xs : list A) bf bm :
  (forall x, Agrees (bf x) (bm x)) ->
  Agrees (Faulty.forEach xs bf) (forEach xs bm).
Proof.
  intros H. induction xs as [| x xs IH]; cbn [Faulty.forEach forEach].
  - apply Agrees_returns.
  - apply Agrees_andThen; [apply H | intros _; exact IH].
Qed.

Lemma Agrees_forIndexed {A} (xs : list A) bf bm :
  (forall i x, Agrees (bf i x) (bm i x)) ->
  forall start,
    Agrees (Faulty.forIndexed start xs bf) (forIndexed start xs bm).
Proof.
  intros H. induction xs as [| x xs IH]; intros start;
    cbn [Faulty.forIndexed forIndexed].
  - apply Agrees_returns.
  - apply Agrees_andThen; [apply H | intros _; apply IH].
Qed.

Lemma Agrees_code {B} e (k : option string -> Faulty.F B) m :
  Agrees (k (err_code e)) m ->
  Agrees (Faulty.andThen
            (Faulty.code_of (undisturbed env) (Faulty.ofError e)) k) m.
Proof. intros H s n. exact (H s n). Qed.

Lemma Agrees_message {B} e (k : option string -> Faulty.F B) m :
  Agrees (k (Some (err_message e))) m ->
  Agrees (Faulty.andThen
            (Faulty.message_of (undisturbed env) (Faulty.ofError e)) k) m.
Proof. intros H s n. exact (H s n). Qed.

Lemma Agrees_stack {B} e (k : option string -> Faulty.F B) m :
  Agrees (k (err_stack e)) m ->
  Agrees (Faulty.andThen
            (Faulty.stack_of (undisturbed env) (Faulty.ofError e)) k) m.
Proof. intros H s n. exact (H s n). Qed.

Lemma Agrees_updateProgress jobId percent stage :
  Agrees (Faulty.updateProgress (undisturbed env) jobId percent stage)
         (JobRunner.updateProgress jobId percent stage).
Proof.
  apply Agrees_andThen; [apply Agrees_inProcess |].
  intros now. apply Agrees_prisma.
Qed.

Lemma Agrees_logEvent jobId stage level message data :
  Agrees (Faulty.logEvent (undisturbed env) jobId stage level message data)
         (JobRunner.logEvent jobId stage level message data).
Proof. apply Agrees_prisma. Qed.

Lemma undisturbed_llm :
  Faulty.createLLMProvider (undisturbed env) = ofLLM (createLLMProvider env).
Proof.
  unfold Faulty.createLLMProvider, createLLMProvider. cbn [undisturbed
    Faulty.OPENAI_API_KEY Faulty.OpenAIProvider Faulty.MockLLMProvider].
  destruct (OPENAI_API_KEY env); reflexivity.
Qed.

Lemma undisturbed_youtube :
  Faulty.createYouTubeProvider (undisturbed env)
  = ofYouTube (createYouTubeProvider env).
Proof.
  unfold Faulty.createYouTubeProvider, createYouTubeProvider. cbn [undisturbed
    Faulty.YOUTUBE_API_KEY Faulty.YouTubeDataApiProvider
    Faulty.MockYouTubeProvider].
  destruct (YOUTUBE_API_KEY env); reflexivity.
Qed.

Ltac agree_step :=
  lazymatch goal with
  | |- Agrees (Faulty.andThen (Faulty.message_of _ _) _) _ =>
      apply Agrees_message
  | |- Agrees (Faulty.andThen (Faulty.code_of _ _) _) _ => apply Agrees_code
  | |- Agrees (Faulty.andThen (Faulty.stack_of _ _) _) _ => apply Agrees_stack
  | |- Agrees (Faulty.andThen _ _) _ => apply Agrees_andThen; [| intros ?]
  | |- Agrees (Faulty.attempt _ _) _ => apply Agrees_attempt; [| intros ?]
  | |- Agrees (Faulty.updateProgress _ _ _ _) _ => apply Agrees_updateProgress
  | |- Agrees (Faulty.logEvent _ _ _ _ _ _) _ => apply Agrees_logEvent
  | |- Agrees (Faulty.returns _) _ => apply Agrees_returns
  | |- Agrees (Faulty.prisma _ _) _ => apply Agrees_prisma
  | |- Agrees (Faulty.inProcess _) _ => apply Agrees_inProcess
  | |- Agrees (Faulty.call _) (call ?method) => apply (Agrees_call method)
  | |- Agrees (Faulty.forEach _ _) _ => apply Agrees_forEach; intros ?
  | |- Agrees (Faulty.forIndexed _ _ _) _ => apply Agrees_forIndexed; intros ? ?
  end.

Ltac agree := repeat agree_step.

Lemma Agrees_generateSkeleton jobId course p :
  Agrees (Faulty.generateSkeleton (undisturbed env) jobId course (ofLLM p))
         (JobRunner.generateSkeleton env jobId course p).
Proof.
  unfold Faulty.generateSkeleton, JobRunner.generateSkeleton. cbv zeta.
  rewrite undisturbed_llm. agree.
Qed.

Lemma Agrees_saveModules course sk :
  Agrees (Faulty.saveModules (undisturbed env) course sk)
         (JobRunner.saveModules course sk).
Proof. unfold Faulty.saveModules, JobRunner.saveModules. agree. Qed.

Lemma Agrees_lessonsStep jobId course p n i m :
  Agrees (Faulty.lessonsStep (undisturbed env) jobId course (ofLLM p) n i m)
         (JobRunner.lessonsStep jobId course p n i m).
Proof. unfold Faulty.lessonsStep, JobRunner.lessonsStep. agree. Qed.

Lemma Agrees_quizStep jobId course p n i m :
  Agrees (Faulty.quizStep (undisturbed env) jobId course (ofLLM p) n i m)
         (JobRunner.quizStep jobId course p n i m).
Proof. unfold Faulty.quizStep, JobRunner.quizStep. agree. Qed.

Lemma Agrees_resourcesStep jobId course yt n i m :
  Agrees (Faulty.resourcesStep (undisturbed env) jobId course (ofYouTube yt)
                               n i m)
         (JobRunner.resourcesStep jobId course yt n i m).
Proof. unfold Faulty.resourcesStep, JobRunner.resourcesStep. cbv zeta. agree. Qed.

Lemma Agrees_runStages jobId course :
  Agrees (Faulty.runStages (undisturbed env) jobId course)
         (JobRunner.runStages env jobId course).
Proof.
  unfold Faulty.runStages, JobRunner.runStages. cbv zeta.
  rewrite undisturbed_llm, undisturbed_youtube.
  repeat lazymatch goal with
    | |- Agrees (Faulty.generateSkeleton _ _ _ _) _ =>
        apply Agrees_generateSkeleton
    | |- Agrees (Faulty.saveModules _ _ _) _ => apply Agrees_saveModules
    | |- Agrees (Faulty.forIndexed _ _ (Faulty.lessonsStep _ _ _ _ _)) _ =>
        apply Agrees_forIndexed; intros ? ?; apply Agrees_lessonsStep
    | |- Agrees (Faulty.forIndexed _ _ (Faulty.quizStep _ _ _ _ _)) _ =>
        apply Agrees_forIndexed; intros ? ?; apply Agrees_quizStep
    | |- Agrees (Faulty.forIndexed _ _ (Faulty.resourcesStep _ _ _ _ _)) _ =>
        apply Agrees_forIndexed; intros ? ?; apply Agrees_resourcesStep
    | _ => agree_step
    end.
Qed.

Lemma Agrees_executeGenerateCourse jobId :
  Agrees (Faulty.executeGenerateCourse (undisturbed env) jobId)
         (JobRunner.executeGenerateCourse env jobId).
Proof.
  unfold Faulty.executeGenerateCourse, JobRunner.executeGenerateCourse.
  apply Agrees_andThen; [apply Agrees_prisma |].
  intros [[j [course |]] |].
  - apply Agrees_runStages.
  - apply (Agrees_throws (new_Error "Job or course not found")).
  - apply (Agrees_throws (new_Error "Job or course not found")).
Qed.

Lemma Agrees_processNextJob :
  Agrees (Faulty.processNextJob (undisturbed env))
         (JobRunner.processNextJob env).
Proof.
  unfold Faulty.processNextJob, JobRunner.processNextJob.
  apply Agrees_andThen; [apply Agrees_prisma |].
  intros [job |]; [| apply Agrees_returns].
  apply Agrees_andThen; [apply Agrees_prisma |]. intros _.
  apply Agrees_attempt.
  - apply Agrees_andThen.
    + destruct (String.eqb (job_type job) "GENERATE_COURSE").
      * apply Agrees_executeGenerateCourse.
      * apply Agrees_returns.
    + intros _. agree.
  - intros e. cbv zeta. agree.
Qed.

End Agreement.

(** X25: with providers that throw error objects only and a database that
    accepts every call, the runner of this part does to the store exactly
    what the runner of the first embedding does, and ends the same way. *)
Theorem runners_agree_when_nothing_is_rejected env s n :
  let run := Faulty.processNextJob (undisturbed env) (Faulty.mkWorld s n) in
  Faulty.store (snd run) = exec (JobRunner.processNextJob env) s
  /\ fst run = ofResult (outcome (JobRunner.processNextJob env) s).
Proof.
  intros run. subst run.
  destruct (Agrees_processNextJob env s n) as (n' & ->).
  split; reflexivity.
Qed.

(* ------------------------------------------------------------------ *)
(** ** Status writes, whatever is rejected *)

(** The statuses written by a sequence of [prisma.job.update] calls. *)
Definition statuses (us : list (Id * JobData)) : list JobStatus :=
  flat_map (fun u => match d_status (snd u) with
                     | Some st => [st]
                     | None => []
                     end) us.

Lemma statuses_app us1 us2 :
  statuses (us1 ++ us2) = statuses us1 ++ statuses us2.
Proof. apply flat_map_app. Qed.

Lemma statusWrites_statuses id us :
  Forall (fun u => fst u = id) us ->
  statusWrites us = map (pair id) (statuses us).
Proof.
  unfold statusWrites, statuses.
  induction 1 as [| u us Hu _ IH]; cbn [flat_map map]; [reflexivity |].
  rewrite map_app, IH. destruct (d_status (snd u)); rewrite <- ?Hu; reflexivity.
Qed.

(** Between [w] and [w'] the job table received the updates [us], and
    nothing else happened to it. *)
Definition Wrote (w w' : Faulty.World) (us : list (Id * JobData)) : Prop :=
  jobUpdates (Faulty.store w') = jobUpdates (Faulty.store w) ++ us
  /\ jobs (Faulty.store w') = replay us (jobs (Faulty.store w)).

Lemma Wrote_same w w' : Faulty.store w' = Faulty.store w -> Wrote w w' [].
Proof.
  intros E. unfold Wrote. rewrite E.
  split; [now rewrite app_nil_r | reflexivity].
Qed.

Lemma Wrote_refl w : Wrote w w [].
Proof. now apply Wrote_same. Qed.

Lemma Wrote_trans w1 w2 w3 us1 us2 :
  Wrote w1 w2 us1 -> Wrote w2 w3 us2 -> Wrote w1 w3 (us1 ++ us2).
Proof.
  intros [U1 J1] [U2 J2]. split.
  - now rewrite U2, U1, app_assoc.
  - rewrite J2, J1. unfold replay. now rewrite fold_left_app.
Qed.

(** [m] writes to the job [id] only, and [post] holds of how it ends and
    of the statuses it writes. *)
Definition Does {A} (id : Id) (m : Faulty.F A)
           (post : Faulty.Outcome A -> list JobStatus -> Prop) : Prop :=
  forall w, exists us,
    Wrote w (snd (m w)) us
    /\ Forall (fun u => fst u = id) us
    /\ post (fst (m w)) (statuses us).

(** [m] writes no status. *)
Definition Keeps {A} (id : Id) (m : Faulty.F A) : Prop :=
  Does id m (fun _ l => l = []).

Lemma Does_mono {A} id (m : Faulty.F A) (P Q : _ -> _ -> Prop) :
  Does id m P -> (forall r l, P r l -> Q r l) -> Does id m Q.
Proof.
  intros H HPQ w. destruct (H w) as (us & HW & HF & HP).
  exists us. auto.
Qed.

Lemma Does_returns {A} id (a : A) (post : _ -> _ -> Prop) :
  post (Faulty.Returns a) [] -> Does id (Faulty.returns a) post.
Proof.
  intros H w. exists []. split; [apply Wrote_refl |].
  split; [constructor | exact H].
Qed.

Lemma Does_throws {A} id t (post : Faulty.Outcome A -> _ -> Prop) :
  post (Faulty.Rejects t) [] -> Does id (Faulty.throws t) post.
Proof.
  intros H w. exists []. split; [apply Wrote_refl |].
  split; [constructor | exact H].
Qed.

Lemma Does_andThen {A B} id (m : Faulty.F A) (k : A -> Faulty.F B)
      (P : _ -> _ -> Prop) (Q : A -> _ -> _ -> Prop) (R : _ -> _ -> Prop) :
  Does id m P -> (forall a, Does id (k a) (Q a)) ->
  (forall t l, P (Faulty.Rejects t) l -> R (Faulty.Rejects t) l) ->
  (forall a l1 r l2, P (Faulty.Returns a) l1 -> Q a r l2 -> R r (l1 ++ l2)) ->
  Does id (Faulty.andThen m k) R.
Proof.
  intros Hm Hk HR1 HR2 w. unfold Faulty.andThen.
  destruct (Hm w) as (us1 & W1 & F1 & P1).
  destruct (m w) as [[a | t] w1]; cbn [fst snd] in *.
  - destruct (Hk a w1) as (us2 & W2 & F2 & Q2).
    exists (us1 ++ us2). split; [eapply Wrote_trans; eauto |].
    split; [now apply Forall_app |].
    rewrite statuses_app. eapply HR2; eauto.
  - exists us1. auto.
Qed.

Lemma Does_attempt {A} id (m : Faulty.F A) (h : Faulty.Thrown -> Faulty.F A)
      (P : _ -> _ -> Prop) (H : Faulty.Thrown -> _ -> _ -> Prop)
      (R : _ -> _ -> Prop) :
  Does id m P -> (forall t, Does id (h t) (H t)) ->
  (forall a l, P (Faulty.Returns a) l -> R (Faulty.Returns a) l) ->
  (forall t l1 r l2, P (Faulty.Rejects t) l1 -> H t r l2 -> R r (l1 ++ l2)) ->
  Does id (Faulty.attempt m h) R.
Proof.
  intros Hm Hh HR1 HR2 w. unfold Faulty.attempt.
  destruct (Hm w) as (us1 & W1 & F1 & P1).
  destruct (m w) as [[a | t] w1]; cbn [fst snd] in *.
  - exists us1. auto.
  - destruct (Hh t w1) as (us2 & W2 & F2 & Q2).
    exists (us1 ++ us2). split; [eapply Wrote_trans; eauto |].
    split; [now apply Forall_app |].
    rewrite statuses_app. eapply HR2; eauto.
Qed.

Lemma Keeps_returns {A} id (a : A) : Keeps id (Faulty.returns a).
Proof. now apply Does_returns. Qed.

Lemma Keeps_throws {A} id t : Keeps id (Faulty.throws (A := A) t).
Proof. now apply Does_throws. Qed.

Lemma Keeps_andThen {A B} id (m : Faulty.F A) (k : A -> Faulty.F B) :
  Keeps id m -> (forall a, Keeps id (k a)) -> Keeps id (Faulty.andThen m k).
Proof.
  intros Hm Hk.
  apply (Does_andThen id m k (fun _ l => l = []) (fun _ _ l => l = [])
                      (fun _ l => l = []) Hm Hk).
  - auto.
  - intros a l1 r l2 -> ->. reflexivity.
Qed.

Lemma Keeps_attempt {A} id (m : Faulty.F A) h :
  Keeps id m -> (forall t, Keeps id (h t)) -> Keeps id (Faulty.attempt m h).
Proof.
  intros Hm Hh.
  apply (Does_attempt id m h (fun _ l => l = []) (fun _ _ l => l = [])
                      (fun _ l => l = []) Hm Hh).
  - auto.
  - intros t l1 r l2 -> ->. reflexivity.
Qed.

Lemma Keeps_forEach {A} id (xs : list A) body :
  (forall x, Keeps id (body x)) -> Keeps id (Faulty.forEach xs body).
Proof.
  intros H. induction xs as [| x xs IH]; cbn [Faulty.forEach].
  - apply Keeps_returns.
  - apply Keeps_andThen; [apply H | intros _; exact IH].
Qed.

Lemma Keeps_forIndexed {A} id (xs : list A) body :
  (forall i x, Keeps id (body i x)) ->
  forall start, Keeps id (Faulty.forIndexed start xs body).
Proof.
  intros H. induction xs as [| x xs IH]; intros start; cbn [Faulty.forIndexed].
  - apply Keeps_returns.
  - apply Keeps_andThen; [apply H | intros _; apply IH].
Qed.

(** An operation of the first embedding that leaves the job table alone. *)
Definition Aside {A} (op : M A) : Prop :=
  forall s, jobs (snd (op s)) = jobs s
            /\ jobUpdates (snd (op s)) = jobUpdates s.

Lemma Keeps_inProcess {A} id (op : M A) :
  Aside op -> Keeps id (Faulty.inProcess op).
Proof.
  intros H w. exists []. unfold Faulty.inProcess, Wrote.
  destruct (H (Faulty.store w)) as [J U].
  destruct (op (Faulty.store w)) as [[a | e] s1];
    cbn [fst snd Faulty.store] in *; rewrite J, U, app_nil_r;
    repeat split; constructor.
Qed.

Section Rejections.

Variable env : Faulty.Env.

(** The database accepts every call. *)
Definition accepts : Prop := forall n, Faulty.prismaRejects env n = None.

Lemma Keeps_prisma {A} id (op : M A) :
  Aside op -> Keeps id (Faulty.prisma env op).
Proof.
  intros H w. unfold Faulty.prisma.
  destruct (Faulty.prismaRejects env (Faulty.prismaCalls w)) as [t |].
  - exists []. cbn [fst snd]. split; [now apply Wrote_same |].
    split; [constructor | reflexivity].
  - destruct (Keeps_inProcess id op H
                (Faulty.mkWorld (Faulty.store w) (S (Faulty.prismaCalls w))))
      as (us & W & HF & HP).
    exists us. split; [exact W |]. split; assumption.
Qed.

(** A [prisma.job.update]: when the database takes it, the status of the
    data is written (if it has one); it is rejected only by a database
    that rejects calls. *)
Lemma Does_update id (d : JobData) :
  Does id (Faulty.prisma env (Prisma.job_update id d))
       (fun r l =>
          (r = Faulty.Returns tt
           /\ l = match d_status d with Some st => [st] | None => [] end)
          \/ ((exists t, r = Faulty.Rejects t) /\ l = [] /\ ~ accepts)).
Proof.
  intros w. unfold Faulty.prisma.
  destruct (Faulty.prismaRejects env (Faulty.prismaCalls w)) as [t |] eqn:E.
  - exists []. cbn [fst snd]. split; [now apply Wrote_same |].
    split; [constructor |]. right. split; [eauto |]. split; [reflexivity |].
    intros Hacc. rewrite Hacc in E. discriminate.
  - exists [(id, d)]. unfold Faulty.inProcess, Prisma.job_update, Wrote.
    cbn [fst snd Faulty.store jobs jobUpdates Prisma.set_jobUpdates
         Prisma.set_jobs].
    split; [split; reflexivity |]. split; [repeat constructor |].
    left. split; [reflexivity |]. unfold statuses. cbn [flat_map snd].
    now rewrite app_nil_r.
Qed.

(** A database call aside of the job table that always answers. *)
Lemma Does_aside {A} id (op : M A) :
  Aside op -> (forall s, exists a, fst (op s) = Ok a) ->
  Does id (Faulty.prisma env op)
       (fun r l =>
          l = [] /\ ((exists a, r = Faulty.Returns a)
                     \/ ((exists t, r = Faulty.Rejects t) /\ ~ accepts))).
Proof.
  intros HA HT w. unfold Faulty.prisma.
  destruct (Faulty.prismaRejects env (Faulty.prismaCalls w)) as [t |] eqn:E.
  - exists []. cbn [fst snd]. split; [now apply Wrote_same |].
    split; [constructor |]. split; [reflexivity |]. right. split; [eauto |].
    intros Hacc. rewrite Hacc in E. discriminate.
  - exists []. unfold Faulty.inProcess, Wrote. cbn [Faulty.store].
    destruct (HA (Faulty.store w)) as [J U].
    destruct (HT (Faulty.store w)) as [a Ha].
    destruct (op (Faulty.store w)) as [[a' | e] s1];
      cbn [fst snd Faulty.store] in *; [| discriminate].
    split; [split; [now rewrite U, app_nil_r | now rewrite J] |].
    split; [constructor |]. split; [reflexivity |]. left. eauto.
Qed.

End Rejections.

Lemma Aside_newDate : Aside newDate.
Proof. intros s. split; reflexivity. Qed.

Lemma Aside_jobEvent_create e : Aside (Prisma.jobEvent_create e).
Proof. intros s. split; reflexivity. Qed.

Lemma Aside_module_create c m : Aside (Prisma.module_create c m).
Proof. intros s. split; reflexivity. Qed.

Lemma Aside_module_findMany c : Aside (Prisma.module_findMany c).
Proof. intros s. split; reflexivity. Qed.

Lemma Aside_lesson_create l : Aside (Prisma.lesson_create l).
Proof. intros s. split; reflexivity. Qed.

Lemma Aside_quiz_create m n : Aside (Prisma.quiz_create m n).
Proof. intros s. split; reflexivity. Qed.

Lemma Aside_quizQuestion_create q : Aside (Prisma.quizQuestion_create q).
Proof. intros s. split; reflexivity. Qed.

Lemma Aside_resource_create r : Aside (Prisma.resource_create r).
Proof. intros s. split; reflexivity. Qed.

Lemma Aside_course_update c st : Aside (Prisma.course_update c st).
Proof. intros s. split; reflexivity. Qed.

Lemma Aside_job_findUnique id : Aside (Prisma.job_findUnique id).
Proof. intros s. split; reflexivity. Qed.

Lemma Aside_job_findFirst_queued : Aside Prisma.job_findFirst_queued.
Proof. intros s. split; reflexivity. Qed.

Section RunnerWrites.

Variable env : Faulty.Env.
Variable id : Id.

Lemma Keeps_call {A} (method : nat -> Faulty.Outcome A) :
  Keeps id (Faulty.call method).
Proof.
  intros w. exists []. unfold Faulty.call, Wrote.
  cbn [fst snd Faulty.store jobs jobUpdates Prisma.set_providerCalls].
  rewrite app_nil_r. repeat split. constructor.
Qed.

Lemma Keeps_message_of error : Keeps id (Faulty.message_of env error).
Proof.
  destruct error; [apply Keeps_throws | apply Keeps_throws | apply Keeps_returns].
Qed.

Lemma Keeps_code_of error : Keeps id (Faulty.code_of env error).
Proof.
  destruct error; [apply Keeps_throws | apply Keeps_throws | apply Keeps_returns].
Qed.

Lemma Keeps_stack_of error : Keeps id (Faulty.stack_of env error).
Proof.
  destruct error; [apply Keeps_throws | apply Keeps_throws | apply Keeps_returns].
Qed.

Lemma Keeps_updateProgress percent stage :
  Keeps id (Faulty.updateProgress env id percent stage).
Proof.
  unfold Faulty.updateProgress.
  apply Keeps_andThen; [apply Keeps_inProcess, Aside_newDate |].
  intros now. eapply Does_mono; [apply Does_update |].
  cbv beta. cbn [d_status]. intros r l [[_ ->] | (_ & -> & _)]; reflexivity.
Qed.

Lemma Keeps_logEvent stage level message data :
  Keeps id (Faulty.logEvent env id stage level message data).
Proof. apply Keeps_prisma, Aside_jobEvent_create. Qed.

Ltac keeps_step :=
  lazymatch goal with
  | |- Keeps _ (Faulty.andThen _ _) => apply Keeps_andThen; [| intros ?]
  | |- Keeps _ (Faulty.attempt _ _) => apply Keeps_attempt; [| intros ?]
  | |- Keeps _ (Faulty.updateProgress _ _ _ _) => apply Keeps_updateProgress
  | |- Keeps _ (Faulty.logEvent _ _ _ _ _ _) => apply Keeps_logEvent
  | |- Keeps _ (Faulty.returns _) => apply Keeps_returns
  | |- Keeps _ (Faulty.throws _) => apply Keeps_throws
  | |- Keeps _ (Faulty.call _) => apply Keeps_call
  | |- Keeps _ (Faulty.message_of _ _) => apply Keeps_message_of
  | |- Keeps _ (Faulty.code_of _ _) => apply Keeps_code_of
  | |- Keeps _ (Faulty.stack_of _ _) => apply Keeps_stack_of
  | |- Keeps _ (Faulty.inProcess newDate) =>
      apply Keeps_inProcess, Aside_newDate
  | |- Keeps _ (Faulty.forEach _ _) => apply Keeps_forEach; intros ?
  | |- Keeps _ (Faulty.forIndexed _ _ _) => apply Keeps_forIndexed; intros ? ?
  | |- Keeps _ (Faulty.prisma _ (Prisma.jobEvent_create _)) =>
      apply Keeps_prisma, Aside_jobEvent_create
  | |- Keeps _ (Faulty.prisma _ (Prisma.module_create _ _)) =>
      apply Keeps_prisma, Aside_module_create
  | |- Keeps _ (Faulty.prisma _ (Prisma.module_findMany _)) =>
      apply Keeps_prisma, Aside_module_findMany
  | |- Keeps _ (Faulty.prisma _ (Prisma.lesson_create _)) =>
      apply Keeps_prisma, Aside_lesson_create
  | |- Keeps _ (Faulty.prisma _ (Prisma.quiz_create _ _)) =>
      apply Keeps_prisma, Aside_quiz_create
  | |- Keeps _ (Faulty.prisma _ (Prisma.quizQuestion_create _)) =>
      apply Keeps_prisma, Aside_quizQuestion_create
  | |- Keeps _ (Faulty.prisma _ (Prisma.resource_create _)) =>
      apply Keeps_prisma, Aside_resource_create
  | |- Keeps _ (Faulty.prisma _ (Prisma.course_update _ _)) =>
      apply Keeps_prisma, Aside_course_update
  | |- Keeps _ (Faulty.prisma _ (Prisma.job_findUnique _)) =>
      apply Keeps_prisma, Aside_job_findUnique
  end.

Variable course : Course.

Lemma Keeps_generateSkeleton p :
  Keeps id (Faulty.generateSkeleton env id course p).
Proof. unfold Faulty.generateSkeleton. cbv zeta. repeat keeps_step. Qed.

Lemma Keeps_saveModules sk : Keeps id (Faulty.saveModules env course sk).
Proof. unfold Faulty.saveModules. repeat keeps_step. Qed.

Lemma Keeps_lessonsStep p n i m :
  Keeps id (Faulty.lessonsStep env id course p n i m).
Proof. unfold Faulty.lessonsStep. repeat keeps_step. Qed.

Lemma Keeps_quizStep p n i m :
  Keeps id (Faulty.quizStep env id course p n i m).
Proof. unfold Faulty.quizStep. repeat keeps_step. Qed.

Lemma Keeps_resourcesStep yt n i m :
  Keeps id (Faulty.resourcesStep env id course yt n i m).
Proof. unfold Faulty.resourcesStep. cbv zeta. repeat keeps_step. Qed.

Lemma Keeps_runStages : Keeps id (Faulty.runStages env id course).
Proof.
  unfold Faulty.runStages. cbv zeta.
  repeat lazymatch goal with
    | |- Keeps _ (Faulty.generateSkeleton _ _ _ _) =>
        apply Keeps_generateSkeleton
    | |- Keeps _ (Faulty.saveModules _ _ _) => apply Keeps_saveModules
    | |- Keeps _ (Faulty.forIndexed _ _ (Faulty.lessonsStep _ _ _ _ _)) =>
        apply Keeps_forIndexed; intros ? ?; apply Keeps_lessonsStep
    | |- Keeps _ (Faulty.forIndexed _ _ (Faulty.quizStep _ _ _ _ _)) =>
        apply Keeps_forIndexed; intros ? ?; apply Keeps_quizStep
    | |- Keeps _ (Faulty.forIndexed _ _ (Faulty.resourcesStep _ _ _ _ _)) =>
        apply Keeps_forIndexed; intros ? ?; apply Keeps_resourcesStep
    | _ => keeps_step
    end.
Qed.

End RunnerWrites.

Lemma Keeps_executeGenerateCourse env id :
  Keeps id (Faulty.executeGenerateCourse env id).
Proof.
  unfold Faulty.executeGenerateCourse.
  apply Keeps_andThen; [apply Keeps_prisma, Aside_job_findUnique |].
  intros [[j [course |]] |];
    [apply Keeps_runStages | apply Keeps_throws | apply Keeps_throws].
Qed.

(** The statuses a run may write on the job it has claimed: nothing when
    the claim itself is rejected; otherwise [running], then at most one of
    each terminal status, [failed] after [succeeded] only when the database
    has rejected a call. *)
Definition Verdict (env : Faulty.Env) (l : list JobStatus) : Prop :=
  (l = [] /\ ~ accepts env)
  \/ exists rest,
      l = running :: rest
      /\ (rest = [] \/ rest = [succeeded] \/ rest = [failed]
          \/ (rest = [succeeded; failed] /\ ~ accepts env)).

Section Claimed.

Variable env : Faulty.Env.
Variable id : Id.

Lemma Does_logEvent stage level message data :
  Does id (Faulty.logEvent env id stage level message data)
       (fun r l =>
          l = [] /\ ((exists a, r = Faulty.Returns a)
                     \/ ((exists t, r = Faulty.Rejects t) /\ ~ accepts env))).
Proof.
  apply Does_aside; [apply Aside_jobEvent_create |].
  intros s. exists tt. reflexivity.
Qed.

(** The [try] block once the pipeline is through. *)
Lemma Does_succeed :
  Does id
    (Faulty.andThen (Faulty.inProcess newDate)
       (fun now =>
          Faulty.andThen
            (Faulty.prisma env
               (Prisma.job_update id (JobRunner.markSucceeded now)))
            (fun _ =>
               Faulty.logEvent env id "Completed" lvl_info
                               "Job completed successfully" None)))
    (fun r l =>
       ((exists a, r = Faulty.Returns a) /\ l = [succeeded])
       \/ ((exists t, r = Faulty.Rejects t)
           /\ (l = [] \/ (l = [succeeded] /\ ~ accepts env)))).
Proof.
  eapply Does_andThen with
    (P := fun _ l => l = [])
    (Q := fun _ r l =>
            ((exists a, r = Faulty.Returns a) /\ l = [succeeded])
            \/ ((exists t, r = Faulty.Rejects t)
                /\ (l = [] \/ (l = [succeeded] /\ ~ accepts env)))).
  - apply Keeps_inProcess, Aside_newDate.
  - intros now.
    eapply Does_andThen;
      [apply Does_update | intros ?; apply Does_logEvent | |]; cbv beta.
    + intros t l [[E _] | (_ & -> & _)]; [discriminate |].
      right. split; [eauto | left; reflexivity].
    + cbn [d_status JobRunner.markSucceeded].
      intros [] l1 r l2 [[_ ->] | ((t & E) & _)] [-> Hr]; [| discriminate].
      destruct Hr as [Ha | [Ht Hacc]].
      * left. split; [exact Ha | reflexivity].
      * right. split; [exact Ht |]. right. split; [reflexivity | exact Hacc].
  - cbv beta. intros t l ->. right. split; [eauto | left; reflexivity].
  - cbv beta. intros now l1 r l2 -> H. exact H.
Qed.

(** The [catch] block. *)
Lemma Does_fail error :
  Does id
    (Faulty.andThen (Faulty.code_of env error)
       (fun errCode =>
          Faulty.andThen (Faulty.message_of env error)
            (fun message =>
               Faulty.andThen (Faulty.inProcess newDate)
                 (fun now =>
                    Faulty.andThen
                      (Faulty.prisma env
                         (Prisma.job_update id
                            (JobRunner.markFailed
                               (orDefault errCode ErrorCode.JOB_RUNNER_FAILURE)
                               (orDefault message "Unknown error") now)))
                      (fun _ =>
                         Faulty.andThen (Faulty.stack_of env error)
                           (fun stack =>
                              Faulty.logEvent env id "Failed" lvl_error
                                (orDefault message "Unknown error")
                                (Some
                                   [("errorCode",
                                     JStr (orDefault errCode
                                             ErrorCode.JOB_RUNNER_FAILURE));
                                    ("stack", optStr stack)])))))))
    (fun _ l => l = [] \/ l = [failed]).
Proof.
  eapply Does_andThen with (P := fun _ l => l = [])
                           (Q := fun _ _ l => l = [] \/ l = [failed]);
    [apply Keeps_code_of | | cbv beta; auto
    | cbv beta; intros ? ? ? ? -> H; exact H].
  intros errCode.
  eapply Does_andThen with (P := fun _ l => l = [])
                           (Q := fun _ _ l => l = [] \/ l = [failed]);
    [apply Keeps_message_of | | cbv beta; auto
    | cbv beta; intros ? ? ? ? -> H; exact H].
  intros message.
  eapply Does_andThen with (P := fun _ l => l = [])
                           (Q := fun _ _ l => l = [] \/ l = [failed]);
    [apply Keeps_inProcess, Aside_newDate | | cbv beta; auto
    | cbv beta; intros ? ? ? ? -> H; exact H].
  intros now.
  eapply Does_andThen with (Q := fun _ _ l => l = []);
    [apply Does_update | | |]; cbv beta.
  - intros _. apply Keeps_andThen; [apply Keeps_stack_of |].
    intros stack. apply Keeps_logEvent.
  - intros t l [[E _] | (_ & -> & _)]; [discriminate | left; reflexivity].
  - cbn [d_status JobRunner.markFailed].
    intros [] l1 r l2 [[_ ->] | ((t & E) & _)] ->; [| discriminate].
    right. reflexivity.
Qed.

End Claimed.

Lemma Wrote_from w w1 w' us :
  Faulty.store w1 = Faulty.store w -> Wrote w1 w' us -> Wrote w w' us.
Proof. unfold Wrote. now intros ->. Qed.

Lemma processNextJob_writes env w :
  exists us,
    Wrote w (snd (Faulty.processNextJob env w)) us
    /\ match Prisma.oldest (filter Prisma.isQueued (jobs (Faulty.store w))) with
       | None => us = []
       | Some job =>
           Forall (fun u => fst u = job_id job) us
           /\ Verdict env (statuses us)
       end.
Proof.
  unfold Faulty.processNextJob. unfold Faulty.andThen at 1.
  unfold Faulty.prisma at 1.
  destruct (Faulty.prismaRejects env (Faulty.prismaCalls w)) as [t |] eqn:E0.
  - exists []. cbn [fst snd]. split; [now apply Wrote_same |].
    destruct (Prisma.oldest _); [| reflexivity].
    split; [constructor |]. left. split; [reflexivity |].
    intros Hacc. rewrite Hacc in E0. discriminate.
  - unfold Faulty.inProcess at 1, Prisma.job_findFirst_queued.
    cbn [fst snd Faulty.store Faulty.prismaCalls].
    destruct (Prisma.oldest _) as [job |].
    + lazymatch goal with
      | |- exists us, Wrote w (snd (?m ?w1)) us /\ _ =>
          assert (Does (job_id job) m (fun _ l => Verdict env l)) as HD;
            [| destruct (HD w1) as (us & HW & HF & HV); exists us;
               split; [now apply (Wrote_from w w1) | split; assumption]]
      end.
      eapply Does_andThen with
        (Q := fun _ _ l =>
                l = [] \/ l = [succeeded] \/ l = [failed]
                \/ (l = [succeeded; failed] /\ ~ accepts env));
        [apply Does_update | intros _ | |]; cbv beta.
      * eapply Does_attempt with
          (P := fun r l =>
                  ((exists a, r = Faulty.Returns a) /\ l = [succeeded])
                  \/ ((exists t, r = Faulty.Rejects t)
                      /\ (l = [] \/ (l = [succeeded] /\ ~ accepts env))))
          (H := fun _ _ l => l = [] \/ l = [failed]);
          [| intros error; apply Does_fail | |]; cbv beta.
        -- eapply Does_andThen with (P := fun _ l => l = []);
             [| intros ?; apply Does_succeed | |]; cbv beta.
           ++ destruct (String.eqb (job_type job) "GENERATE_COURSE").
              ** apply Keeps_executeGenerateCourse.
              ** apply Keeps_returns.
           ++ intros t l ->. right. split; [eauto | left; reflexivity].
           ++ intros a l1 r l2 -> H. exact H.
        -- intros a l [[_ ->] | [[t E] _]]; [| discriminate]. auto.
        -- intros t l1 r l2 [[[a E] _] | [_ [-> | [-> Hacc]]]] [-> | ->];
             [discriminate | discriminate | | | |]; cbn [app]; auto.
      * intros t l [[E _] | (_ & -> & Hacc)]; [discriminate |].
        left. split; [reflexivity | exact Hacc].
      * cbn [d_status JobRunner.markRunning].
        intros [] l1 r l2 [[_ ->] | ((t & E) & _)] H; [| discriminate].
        right. exists l2. split; [reflexivity | exact H].
    + exists []. cbn [fst snd]. split; [now apply Wrote_same | reflexivity].
Qed.

Lemma applyUpdates_status us j :
  Forall (fun u => fst u = job_id j) us ->
  job_status (applyUpdates us j) = last (statuses us) (job_status j).
Proof.
  intros H. revert j H. induction us as [| u us IH]; intros j H.
  - reflexivity.
  - inversion H as [| ? ? Hu Hus]; subst.
    change (applyUpdates (u :: us) j)
      with (applyUpdates us (Prisma.updateRow (fst u) (snd u) j)).
    unfold Prisma.updateRow. rewrite Hu, Nat.eqb_refl.
    rewrite IH by exact Hus.
    change (statuses (u :: us))
      with (match d_status (snd u) with Some st => [st] | None => [] end
            ++ statuses us).
    unfold applyData. cbn [job_status].
    destruct (d_status (snd u)) as [st |]; cbn [orKeep app].
    + now rewrite last_cons.
    + reflexivity.
Qed.

(** X24: whatever calls the providers and the database reject, and with
    whatever thrown value, a run writes statuses to the queued job it
    claims and to no other: [running] first, then at most one of each
    terminal status, [succeeded] never after [failed]; the row ends with
    the last status written, and every row that was not queued is as it
    was.  With a database that accepts every call the job is marked running
    and gets at most one terminal status. *)
Theorem status_writes_whatever_is_rejected env w :
  NoDup (map job_id (jobs (Faulty.store w))) ->
  let w' := Faulty.after (Faulty.processNextJob env) w in
  let writes :=
    statusWrites (newUpdates (Faulty.store w) (Faulty.store w')) in
  (forall j, In j (jobs (Faulty.store w)) -> job_status j <> queued ->
             jobOf (job_id j) (Faulty.store w') = Some j)
  /\ match Prisma.oldest (filter Prisma.isQueued (jobs (Faulty.store w))) with
     | None => newUpdates (Faulty.store w) (Faulty.store w') = []
     | Some job =>
         exists sts,
           writes = map (pair (job_id job)) sts
           /\ In sts [[]; [running]; [running; succeeded]; [running; failed];
                      [running; succeeded; failed]]
           /\ option_map job_status (jobOf (job_id job) (Faulty.store w'))
              = Some (last sts queued)
           /\ (accepts env ->
               In sts [[running]; [running; succeeded]; [running; failed]])
     end.
Proof.
  intros Hnd w' writes.
  destruct (processNextJob_writes env w) as (us & [HU HJ] & Hus).
  fold (Faulty.after (Faulty.processNextJob env) w) in HU, HJ. fold w' in HU, HJ.
  assert (newUpdates (Faulty.store w) (Faulty.store w') = us) as Hnew.
  { unfold newUpdates. rewrite HU, skipn_app, skipn_all, Nat.sub_diag.
    reflexivity. }
  assert (forall id, jobOf id (Faulty.store w')
                     = option_map (applyUpdates us) (jobOf id (Faulty.store w)))
    as Hrow.
  { intros id. unfold jobOf. rewrite HJ. apply findJob_replay. }
  destruct (Prisma.oldest (filter Prisma.isQueued (jobs (Faulty.store w))))
    as [job |] eqn:Hj.
  - destruct Hus as [HF HV].
    destruct (claimed_queued _ _ Hj) as [Hin Hq].
    split.
    + intros j Hjin Hnq. rewrite Hrow. unfold jobOf.
      rewrite (findJob_In _ _ Hnd Hjin). cbn [option_map]. f_equal.
      apply applyUpdates_other with (id := job_id job); [exact HF |].
      intros E.
      assert (Prisma.findJob (job_id j) (jobs (Faulty.store w)) = Some job)
        as H1 by (rewrite E; now apply findJob_In).
      rewrite (findJob_In _ _ Hnd Hjin) in H1. inversion H1; subst.
      contradiction.
    + exists (statuses us). subst writes. rewrite Hnew.
      split; [now apply statusWrites_statuses |].
      split; [| split].
      * destruct HV as [[-> _] | (rest & -> & [-> | [-> | [-> | [-> _]]]])];
          cbn [In]; auto 10.
      * rewrite Hrow. unfold jobOf. rewrite (findJob_In _ _ Hnd Hin).
        cbn [option_map]. f_equal. rewrite applyUpdates_status by exact HF.
        now rewrite Hq.
      * intros Hacc.
        destruct HV as [[_ Hn] | (rest & -> & [-> | [-> | [-> | [_ Hn]]]])];
          cbn [In]; auto; contradiction.
  - subst us. split; [| exact Hnew].
    intros j Hjin _. rewrite Hrow. unfold jobOf.
    rewrite (findJob_In _ _ Hnd Hjin). reflexivity.
Qed.

(* ------------------------------------------------------------------ *)
(** ** Runs in which a call is rejected *)

(** The store with one queued job, before any database call. *)
Definition world0 : Faulty.World := Faulty.mkWorld store0 0.

(** The database rejects the call number [n], and that call only. *)
Definition only (n : nat) (reason : Faulty.Thrown) : nat -> option Faulty.Thrown :=
  fun k => if Nat.eqb k n then Some reason else None.

(** No key configured, the mocks serve and answer every call. *)
Definition envServed (rejects : nat -> option Faulty.Thrown)
           (stackOf : string -> string -> option string) : Faulty.Env :=
  Faulty.mkEnv None None (ofLLM downLLM) (ofLLM mockLLM)
               (ofYouTube downYouTube) (ofYouTube mockYouTube)
               rejects typeErrorText stackOf.

(** The last database call of a run that meets no rejection: the write of
    the event "Job completed successfully". *)
Definition completedCall : nat :=
  Nat.pred (Faulty.prismaCalls
              (Faulty.after
                 (Faulty.processNextJob
                    (envServed (fun _ => None) (fun _ _ => None)))
                 world0)).

(** The error of Prisma for a connection pool that is exhausted. *)
Definition poolTimeout (stackOf : string -> string -> option string)
  : Faulty.Thrown :=
  let message :=
    "Timed out fetching a new connection from the connection pool." in
  Faulty.Value (Some "P2024") (Some message)
               (stackOf "PrismaClientKnownRequestError" message).

(** The database rejects the write of the completion event, once. *)
Definition envEventLost (stackOf : string -> string -> option string)
  : Faulty.Env :=
  envServed (only completedCall (poolTimeout stackOf)) stackOf.

(** A content provider whose lesson generation rejects with [undefined]. *)
Definition undefinedLessons : Faulty.LLMProvider :=
  Faulty.mkLLMProvider
    (Faulty.generateCourseSkeleton (ofLLM mockLLM))
    (fun _ _ _ _ => Faulty.Rejects Faulty.Undefined)
    (Faulty.generateQuiz (ofLLM mockLLM)).

(** A video provider whose search rejects with [undefined]. *)
Definition undefinedSearch : Faulty.YouTubeProvider :=
  Faulty.mkYouTubeProvider (fun _ _ _ => Faulty.Rejects Faulty.Undefined).

(** Keys configured, the database accepts every call. *)
Definition envLive (llm : Faulty.LLMProvider) (youtube : Faulty.YouTubeProvider)
           (stackOf : string -> string -> option string) : Faulty.Env :=
  Faulty.mkEnv (Some "sk-live") (Some "yt-live") llm (ofLLM mockLLM)
               youtube (ofYouTube mockYouTube)
               (fun _ => None) typeErrorText stackOf.

(** C5: the write of the event "Job completed successfully" (the last
    database call of an undisturbed run) sits in the [try] block, after the
    write that marks the job succeeded.  When the database rejects that one
    call, the [catch] block marks the succeeded job failed: the statuses
    written are running, succeeded, failed, and the job ends failed at 100
    percent in stage "Completed", with the course built and active and no
    completion event in the log. *)
Theorem lost_completion_event_fails_a_succeeded_job
        (stackOf : string -> string -> option string) :
  let run := Faulty.processNextJob (envEventLost stackOf) world0 in
  let s' := Faulty.store (snd run) in
  completedCall = 118%nat
  /\ hd_error
       (rev (jobEvents
               (Faulty.store
                  (Faulty.after
                     (Faulty.processNextJob
                        (envServed (fun _ => None) stackOf))
                     world0))))
     = Some (completedEvent 1%nat)
  /\ fst run = Faulty.Returns tt
  /\ statusWrites (newUpdates store0 s')
     = [(1%nat, running); (1%nat, succeeded); (1%nat, failed)]
  /\ jobOf 1%nat s'
     = Some (mkJob 1%nat "GENERATE_COURSE" failed 100 (Some "Completed")
               (Some "P2024")
               (Some "Timed out fetching a new connection from the connection pool.")
               (Some 0%nat) 0 27)
  /\ courses s' = [mkCourse 0%nat "Docker Containers" "beginner" 20 "active"]
  /\ (List.length (modules s'), List.length (lessons s'),
      List.length (quizzes s'), List.length (quizQuestions s'),
      List.length (resources s'))
     = (5, 15, 5, 25, 15)%nat
  /\ filter (fun e => String.eqb (ev_stage e) "Completed") (jobEvents s') = [].
Proof.
  intros run s'. subst s' run. vm_compute. repeat split.
Qed.

(** C6: a lesson generation that rejects with [undefined] fails the job:
    the handler of stage 2 reads [error.message] before it creates the
    fallback lessons, the read throws, and the job ends failed at 28
    percent in stage "Stage 2: Module 1 lessons" without any lesson. *)
Theorem undefined_lesson_rejection_fails_the_job
        (stackOf : string -> string -> option string) :
  let env := envLive undefinedLessons (ofYouTube mockYouTube) stackOf in
  let s' := Faulty.store (Faulty.after (Faulty.processNextJob env) world0) in
  jobOf 1%nat s'
  = Some (mkJob 1%nat "GENERATE_COURSE" failed 28
            (Some "Stage 2: Module 1 lessons") (Some "JOB_RUNNER_FAILURE")
            (Some "Cannot read properties of undefined (reading 'message')")
            (Some 0%nat) 0 5)
  /\ List.length (modules s') = 5%nat
  /\ lessons s' = []
  /\ providerCalls s' = 2%nat
  /\ filter (fun e => String.eqb (ev_stage e) "Stage 2") (jobEvents s')
     = [mkJobEvent 1%nat "Stage 2" lvl_info
                   "Starting lesson generation for all modules" None]
  /\ courses s' = [draftCourse].
Proof.
  intros env s'. subst s' env. vm_compute. repeat split.
Qed.

(** C7: a video search that rejects with [undefined] fails the job: the
    handler of stage 4 reads [error.message] to build the warn event, the
    read throws, and the job ends failed at 79 percent in stage
    "Stage 4: Module 1 resources", the course left in draft. *)
Theorem undefined_search_rejection_fails_the_job
        (stackOf : string -> string -> option string) :
  let env := envLive (ofLLM mockLLM) undefinedSearch stackOf in
  let s' := Faulty.store (Faulty.after (Faulty.processNextJob env) world0) in
  jobOf 1%nat s'
  = Some (mkJob 1%nat "GENERATE_COURSE" failed 79
            (Some "Stage 4: Module 1 resources") (Some "JOB_RUNNER_FAILURE")
            (Some "Cannot read properties of undefined (reading 'message')")
            (Some 0%nat) 0 19)
  /\ (List.length (modules s'), List.length (lessons s'),
      List.length (quizzes s'))
     = (5, 15, 5)%nat
  /\ resources s' = []
  /\ filter (fun e => String.eqb (ev_stage e) "Stage 4") (jobEvents s')
     = [mkJobEvent 1%nat "Stage 4" lvl_info
                   "Starting YouTube resource search" None]
  /\ courses s' = [draftCourse].
Proof.
  intros env s'. subst s' env. vm_compute. repeat split.
Qed.

Lemma status_writes_whatever_is_rejected_witness :
  exists sts,
    statusWrites
      (newUpdates store0
         (Faulty.store
            (Faulty.after
               (Faulty.processNextJob (envEventLost (fun _ _ => None)))
               world0)))
    = map (pair (job_id queuedJob)) sts
    /\ In sts [[]; [running]; [running; succeeded]; [running; failed];
               [running; succeeded; failed]]
    /\ option_map job_status
         (jobOf (job_id queuedJob)
            (Faulty.store
               (Faulty.after
                  (Faulty.processNextJob (envEventLost (fun _ _ => None)))
                  world0)))
       = Some (last sts queued)
    /\ (accepts (envEventLost (fun _ _ => None)) ->
        In sts [[running]; [running; succeeded]; [running; failed]]).
Proof.
  exact (proj2 (status_writes_whatever_is_rejected
                  (envEventLost (fun _ _ => None)) world0 store0_unique)).
Defined.
